(** * Ess-Three: the file-system object storage engine

    A shallow embedding of [internal/storage/storage.go] (type
    [FileSystemStorage]) and the properties of its object, listing and
    multipart operations.

    Conventions of the embedding.
    - The disk is explicit state: every operation takes a [Disk] and
      returns the disk it leaves behind together with its result.
    - A path is the list of elements handed to [filepath.Join]; empty
      elements are dropped as [Join] does.  Separators and dot segments
      inside one element are not interpreted, and there are no
      directories: a file is just a path with contents.  The embedding is
      exact for names that are plain path elements ([plain]), and
      statements that tell two keys apart are made for such names;
      statements that need an object to lie outside a session directory,
      or a session outside the objects, are made for names without a
      double-dot element ([inside]).
    - The operating system never refuses an operation; the only failure
      that comes from outside is a read error of an input stream.
      Statements about what a write leaves behind take the outcome of
      the write as a hypothesis.
    - JSON documents (object metadata, [upload.json], part metadata) are
      kept as the records they decode to.  Writing a document stores the
      record as [encoding/json] gives it back: in every string a byte
      that does not begin a valid UTF-8 sequence has become the
      replacement character ([json_text]); raw files are byte lists.
    - [time.Now()] readings are explicit arguments, in call order, as
      nanoseconds since the epoch.
    - Go's [int] and [int64] are [Z] with the 64-bit wrap-around written
      as [int64]. *)

From Stdlib Require Import ZArith List String Ascii Strings.Byte Lia.
From Stdlib Require Import DecimalString DecimalPos HexadecimalString Permutation Sorted.
From stdpp Require Import gmap strings list fin_maps sorting.

Open Scope Z_scope.

(* ------------------------------------------------------------------ *)
(** ** Machine integers and formatting *)

Definition max_int64 : Z := 2 ^ 63 - 1.
Definition min_int64 : Z := - 2 ^ 63.

(** Two's complement wrap-around of 64-bit signed arithmetic. *)
Definition int64 (z : Z) : Z := (z + 2 ^ 63) mod 2 ^ 64 - 2 ^ 63.

(** The double-quote character that the format strings escape. *)
Definition dquote : string := String (ascii_of_nat 34) EmptyString.

(** [%d] *)
Definition fmt_d (z : Z) : string := DecimalString.NilZero.string_of_int (Z.to_int z).

(** [%x] of an integer: lower-case hexadecimal, sign in front. *)
Definition fmt_x (z : Z) : string := HexadecimalString.NilZero.string_of_int (Z.to_hex_int z).

Fixpoint zeros (n : nat) : string :=
  match n with
  | O => EmptyString
  | S n' => String "0"%char (zeros n')
  end.

(** [%05d]: zero padding to width five, the sign counted in the width. *)
Definition fmt_05d (z : Z) : string :=
  if z <? 0 then
    let digits := fmt_d (- z) in
    ("-" ++ zeros (4 - String.length digits) ++ digits)%string
  else
    let digits := fmt_d z in
    (zeros (5 - String.length digits) ++ digits)%string.

(* ------------------------------------------------------------------ *)
(** ** crypto/md5 and encoding/hex

    [UploadPart] hashes the part with MD5 (RFC 1321).  Words are [Z] in
    [0, 2^32). *)

Module MD5.

Definition w32 (z : Z) : Z := z mod 2 ^ 32.

Definition rotl (x : Z) (c : Z) : Z :=
  Z.lor (w32 (Z.shiftl x c)) (Z.shiftr x (32 - c)).

Definition shifts : list Z :=
  [7; 12; 17; 22; 7; 12; 17; 22; 7; 12; 17; 22; 7; 12; 17; 22;
   5;  9; 14; 20; 5;  9; 14; 20; 5;  9; 14; 20; 5;  9; 14; 20;
   4; 11; 16; 23; 4; 11; 16; 23; 4; 11; 16; 23; 4; 11; 16; 23;
   6; 10; 15; 21; 6; 10; 15; 21; 6; 10; 15; 21; 6; 10; 15; 21].

Definition sines : list Z :=
  [0xd76aa478; 0xe8c7b756; 0x242070db; 0xc1bdceee;
   0xf57c0faf; 0x4787c62a; 0xa8304613; 0xfd469501;
   0x698098d8; 0x8b44f7af; 0xffff5bb1; 0x895cd7be;
   0x6b901122; 0xfd987193; 0xa679438e; 0x49b40821;
   0xf61e2562; 0xc040b340; 0x265e5a51; 0xe9b6c7aa;
   0xd62f105d; 0x02441453; 0xd8a1e681; 0xe7d3fbc8;
   0x21e1cde6; 0xc33707d6; 0xf4d50d87; 0x455a14ed;
   0xa9e3e905; 0xfcefa3f8; 0x676f02d9; 0x8d2a4c8a;
   0xfffa3942; 0x8771f681; 0x6d9d6122; 0xfde5380c;
   0xa4beea44; 0x4bdecfa9; 0xf6bb4b60; 0xbebfbc70;
   0x289b7ec6; 0xeaa127fa; 0xd4ef3085; 0x04881d05;
   0xd9d4d039; 0xe6db99e5; 0x1fa27cf8; 0xc4ac5665;
   0xf4292244; 0x432aff97; 0xab9423a7; 0xfc93a039;
   0x655b59c3; 0x8f0ccc92; 0xffeff47d; 0x85845dd1;
   0x6fa87e4f; 0xfe2ce6e0; 0xa3014314; 0x4e0811a1;
   0xf7537e82; 0xbd3af235; 0x2ad7d2bb; 0xeb86d391].

Definition znth (l : list Z) (i : Z) : Z := nth (Z.to_nat i) l 0.

(** Little-endian word of four bytes. *)
Definition word_of (b0 b1 b2 b3 : Z) : Z :=
  b0 + 256 * b1 + 65536 * b2 + 16777216 * b3.

Fixpoint words_of (fuel : nat) (bs : list Z) : list Z :=
  match fuel, bs with
  | S f, b0 :: b1 :: b2 :: b3 :: rest => word_of b0 b1 b2 b3 :: words_of f rest
  | _, _ => []
  end.

(** Little-endian bytes of a word, [n] of them. *)
Fixpoint bytes_of (n : nat) (w : Z) : list Z :=
  match n with
  | O => []
  | S n' => w mod 256 :: bytes_of n' (w / 256)
  end.

(** Message padding: 0x80, zeros up to 56 mod 64, bit length on 8 bytes. *)
Definition pad (msg : list Z) : list Z :=
  let len := Z.of_nat (length msg) in
  let k := (55 - len) mod 64 in
  msg ++ [128] ++ repeat 0 (Z.to_nat k) ++ bytes_of 8 ((8 * len) mod 2 ^ 64).

Definition round (m : list Z) (st : Z * Z * Z * Z) (i : Z) : Z * Z * Z * Z :=
  let '(a, b, c, d) := st in
  let '(f, g) :=
    if i <? 16 then (Z.lor (Z.land b c) (Z.land (Z.lxor b 0xffffffff) d), i)
    else if i <? 32 then (Z.lor (Z.land d b) (Z.land (Z.lxor d 0xffffffff) c), (5 * i + 1) mod 16)
    else if i <? 48 then (Z.lxor (Z.lxor b c) d, (3 * i + 5) mod 16)
    else (Z.lxor c (Z.lor b (Z.lxor d 0xffffffff)), (7 * i) mod 16) in
  let f' := w32 (f + a + znth sines i + znth m g) in
  (d, w32 (b + rotl f' (znth shifts i)), b, c).

Definition block (st : Z * Z * Z * Z) (m : list Z) : Z * Z * Z * Z :=
  let '(a0, b0, c0, d0) := st in
  let '(a, b, c, d) := fold_left (round m) (map Z.of_nat (seq 0 64)) st in
  (w32 (a0 + a), w32 (b0 + b), w32 (c0 + c), w32 (d0 + d)).

Fixpoint blocks (fuel : nat) (ws : list Z) (st : Z * Z * Z * Z) : Z * Z * Z * Z :=
  match fuel, ws with
  | S f, _ :: _ => blocks f (skipn 16 ws) (block st (firstn 16 ws))
  | _, _ => st
  end.

Definition init : Z * Z * Z * Z := (0x67452301, 0xefcdab89, 0x98badcfe, 0x10325476).

(** [hasher.Sum(nil)]: the 16 digest bytes. *)
Definition sum (msg : list byte) : list Z :=
  let bs := pad (map (fun b => Z.of_N (Byte.to_N b)) msg) in
  let ws := words_of (length bs) bs in
  let '(a, b, c, d) := blocks (length ws) ws init in
  bytes_of 4 a ++ bytes_of 4 b ++ bytes_of 4 c ++ bytes_of 4 d.

End MD5.

Definition hex_digit (z : Z) : ascii :=
  nth (Z.to_nat z)
    ["0"; "1"; "2"; "3"; "4"; "5"; "6"; "7"; "8"; "9"; "a"; "b"; "c"; "d"; "e"; "f"]%char
    "0"%char.

(** [hex.EncodeToString] *)
Fixpoint hex_EncodeToString (bs : list Z) : string :=
  match bs with
  | [] => EmptyString
  | b :: rest => String (hex_digit (b / 16)) (String (hex_digit (b mod 16)) (hex_EncodeToString rest))
  end.

Definition bytes_of_string (s : string) : list byte := list_byte_of_string s.

(* ------------------------------------------------------------------ *)
(** ** Data model *)

(** [time.Time], as nanoseconds since the epoch ([UnixNano]). *)
Abbreviation Time := Z (only parsing).

(** [Time.Unix]: whole seconds since the epoch. *)
Definition Unix (t : Time) : Z := t / 1000000000.

(** ObjectMetadata holds metadata about stored objects. *)
Record ObjectMetadata := mkObjectMetadata {
  Key : string;
  Size : Z;
  LastModified : Time;
  ETag : string;
  ContentType : string;
  Metadata : gmap string string
}.

(** MultipartUpload represents an ongoing multipart upload. *)
Record MultipartUpload := mkMultipartUpload {
  UploadID : string;
  upBucket : string;
  upKey : string;
  Created : Time;
  upContentType : string;
  upMetadata : gmap string string
}.

(** Part represents a single part in a multipart upload. *)
Record Part := mkPart {
  PartNumber : Z;
  partETag : string;
  partSize : Z
}.

(** ListResult holds paginated list results. *)
Record ListResult := mkListResult {
  Objects : list ObjectMetadata;
  IsTruncated : bool;
  NextMarker : string;
  NextContinuationToken : string
}.

(* ------------------------------------------------------------------ *)
(** ** sort and encoding/json *)

(** [sort.Slice(x, less)]: the slice ends up ordered so that no element is
    [less] than one before it. *)
Definition sort_Slice {A} (less : A -> A -> bool) (x : list A) : list A :=
  @merge_sort A (fun a b => less b a = false)
    (fun a b => bool_eq_dec (less b a) false) x.

(** Whether the byte lies between two values. *)
Definition byte_in (lo hi : Z) (c : ascii) : bool :=
  let b := Z.of_nat (nat_of_ascii c) in (lo <=? b) && (b <=? hi).

(** U+FFFD, the replacement character, in UTF-8. *)
Definition replacement : string :=
  String (ascii_of_nat 239) (String (ascii_of_nat 191) (String (ascii_of_nat 189) EmptyString)).

(** For the first byte of a sequence of several bytes: the range its
    second byte must lie in, and how many bytes follow the second (the
    tables [first] and [acceptRanges] of [unicode/utf8]). *)
Definition accept (c0 : ascii) : option (Z * Z * nat) :=
  let b := Z.of_nat (nat_of_ascii c0) in
  if (194 <=? b) && (b <=? 223) then Some (128, 191, 0%nat)
  else if b =? 224 then Some (160, 191, 1%nat)
  else if ((225 <=? b) && (b <=? 236)) || (b =? 238) || (b =? 239) then Some (128, 191, 1%nat)
  else if b =? 237 then Some (128, 159, 1%nat)
  else if b =? 240 then Some (144, 191, 2%nat)
  else if (241 <=? b) && (b <=? 243) then Some (128, 191, 2%nat)
  else if b =? 244 then Some (128, 143, 2%nat)
  else None.

(** A string as it comes back from a JSON document.  The encoder walks
    the string with [utf8.DecodeRuneInString]; where that reports an
    error of width one it writes the replacement character and moves on
    by one byte, and every other byte is read back as it was. *)
Fixpoint json_text (s : string) : string :=
  match s with
  | EmptyString => EmptyString
  | String c0 r0 =>
    if byte_in 0 127 c0 then String c0 (json_text r0) else
    match accept c0, r0 with
    | Some (lo, hi, O), String c1 r1 =>
      if byte_in lo hi c1
      then String c0 (String c1 (json_text r1))
      else (replacement ++ json_text r0)%string
    | Some (lo, hi, S O), String c1 (String c2 r2) =>
      if byte_in lo hi c1 && byte_in 128 191 c2
      then String c0 (String c1 (String c2 (json_text r2)))
      else (replacement ++ json_text r0)%string
    | Some (lo, hi, S (S O)), String c1 (String c2 (String c3 r3)) =>
      if byte_in lo hi c1 && byte_in 128 191 c2 && byte_in 128 191 c3
      then String c0 (String c1 (String c2 (String c3 (json_text r3))))
      else (replacement ++ json_text r0)%string
    | _, _ => (replacement ++ json_text r0)%string
    end
  end.

(** A map of strings as it comes back: the encoder writes the entries in
    the order of their keys, the decoder stores them one after the other,
    so that of two keys written alike the later one stays. *)
Definition json_map (m : gmap string string) : gmap string string :=
  fold_left (fun (acc : gmap string string) (kv : string * string) =>
               <[json_text (fst kv) := json_text (snd kv)]> acc)
    (sort_Slice (fun a b : string * string => String.ltb (fst a) (fst b)) (map_to_list m))
    ∅.

Definition json_ObjectMetadata (m : ObjectMetadata) : ObjectMetadata :=
  {| Key := json_text (Key m);
     Size := Size m;
     LastModified := LastModified m;
     ETag := json_text (ETag m);
     ContentType := json_text (ContentType m);
     Metadata := json_map (Metadata m) |}.

Definition json_MultipartUpload (u : MultipartUpload) : MultipartUpload :=
  {| UploadID := json_text (UploadID u);
     upBucket := json_text (upBucket u);
     upKey := json_text (upKey u);
     Created := Created u;
     upContentType := json_text (upContentType u);
     upMetadata := json_map (upMetadata u) |}.

(** The errors the engine builds with [fmt.Errorf], one constructor per
    message. *)
Inductive error : Type :=
| ErrWriteObjectData        (* failed to write object data *)
| ErrObjectNotFound         (* object not found *)
| ErrReadMetadata           (* failed to read metadata *)
| ErrInvalidRange           (* invalid range *)
| ErrUploadNotFound         (* upload not found *)
| ErrWritePartData          (* failed to write part data *)
| ErrOpenPart (n : Z)       (* failed to open part n *)
| PanicSliceBounds.         (* run-time panic: slice bounds out of range *)

Inductive result (A : Type) : Type :=
| Ok (a : A)
| Err (e : error).
Arguments Ok {A} a.
Arguments Err {A} e.

Definition is_ok {A} (r : result A) : bool :=
  match r with Ok _ => true | Err _ => false end.

(** An [io.Reader]: the bytes it delivers, then end of file, or a read
    error when [rd_fails] is set. *)
Record Reader := mkReader {
  rd_bytes : list byte;
  rd_fails : bool
}.

Definition bytes_Reader (bs : list byte) : Reader := mkReader bs false.

(* ------------------------------------------------------------------ *)
(** ** The disk *)

(** [filepath.Join]: empty elements are ignored. *)
Definition Join (elem : list string) : list string :=
  List.filter (fun s => negb (String.eqb s EmptyString)) elem.

(** What the backing directory holds: raw files (object contents and part
    payloads) and the three kinds of JSON documents, each by path. *)
Record Disk := mkDisk {
  files : gmap (list string) (list byte);
  metas : gmap (list string) ObjectMetadata;
  uploads : gmap (list string) MultipartUpload;
  partmetas : gmap (list string) Part
}.

Definition empty_disk : Disk := mkDisk ∅ ∅ ∅ ∅.

Definition set_files (d : Disk) (f : gmap (list string) (list byte)) : Disk :=
  mkDisk f (metas d) (uploads d) (partmetas d).
Definition set_metas (d : Disk) (m : gmap (list string) ObjectMetadata) : Disk :=
  mkDisk (files d) m (uploads d) (partmetas d).
Definition set_uploads (d : Disk) (u : gmap (list string) MultipartUpload) : Disk :=
  mkDisk (files d) (metas d) u (partmetas d).
Definition set_partmetas (d : Disk) (p : gmap (list string) Part) : Disk :=
  mkDisk (files d) (metas d) (uploads d) p.

(** [os.Create]: the file is created, or truncated when it exists. *)
Definition os_Create (d : Disk) (path : list string) : Disk :=
  set_files d (<[path := []]> (files d)).

(** Appending to an open file. *)
Definition file_append (d : Disk) (path : list string) (bs : list byte) : Disk :=
  set_files d (<[path := default [] (files d !! path) ++ bs]> (files d)).

(** [io.Copy(dst, src)]: every byte the reader delivers is written to the
    file; the count and whether the reader failed are returned. *)
Definition io_Copy (d : Disk) (dst : list string) (src : Reader) : Disk * Z * bool :=
  (file_append d dst (rd_bytes src), Z.of_nat (length (rd_bytes src)), rd_fails src).

(** [os.Remove] of a regular file (absent is reported, and ignored by the
    callers). *)
Definition os_Remove_file (d : Disk) (path : list string) : Disk :=
  set_files d (delete path (files d)).
Definition os_Remove_meta (d : Disk) (path : list string) : Disk :=
  set_metas d (delete path (metas d)).

Definition under (dir path : list string) : bool := bool_decide (dir `prefix_of` path).

Definition remove_under {A} (dir : list string) (m : gmap (list string) A) : gmap (list string) A :=
  filter (fun kv => under dir (fst kv) = false) m.

(** [os.RemoveAll]: everything below the directory goes. *)
Definition os_RemoveAll (d : Disk) (dir : list string) : Disk :=
  mkDisk (remove_under dir (files d)) (remove_under dir (metas d))
         (remove_under dir (uploads d)) (remove_under dir (partmetas d)).

(* ------------------------------------------------------------------ *)
(** ** FileSystemStorage *)

(** FileSystemStorage implements Storage using the local filesystem. *)
Record FileSystemStorage := mkFileSystemStorage {
  baseDir : string
}.

(** objectPath returns the filesystem path for an object. *)
Definition objectPath (fs : FileSystemStorage) (bucket key : string) : list string :=
  Join [baseDir fs; bucket; "objects"; key]%string.

(** metadataPath returns the filesystem path for object metadata. *)
Definition metadataPath (fs : FileSystemStorage) (bucket key : string) : list string :=
  Join [baseDir fs; bucket; "metadata"; key ++ ".json"]%string.

(** PutObject stores an object and its metadata.  [now_etag] and [now_mod]
    are the two clock readings it takes. *)
Definition PutObject (fs : FileSystemStorage) (d : Disk) (now_etag now_mod : Time)
    (bucket key : string) (data : Reader) (metadata : gmap string string)
    (contentType : string) : Disk * result ObjectMetadata :=
  let objPath := objectPath fs bucket key in
  let metaPath := metadataPath fs bucket key in
  (* Write object data *)
  let d := os_Create d objPath in
  let '(d, size, failed) := io_Copy d objPath data in
  if failed then (d, Err ErrWriteObjectData) else
  (* Generate ETag (simplified - just use size and timestamp) *)
  let etag := (dquote ++ fmt_d size ++ "-" ++ fmt_d (Unix now_etag) ++ dquote)%string in
  (* Create metadata *)
  let objMeta := {|
    Key := key;
    Size := size;
    LastModified := now_mod;
    ETag := etag;
    ContentType := contentType;
    Metadata := metadata
  |} in
  (* Write metadata *)
  (set_metas d (<[metaPath := json_ObjectMetadata objMeta]> (metas d)), Ok objMeta).

(** GetObject retrieves an object and its metadata. *)
Definition GetObject (fs : FileSystemStorage) (d : Disk) (bucket key : string)
    : result (list byte * ObjectMetadata) :=
  let objPath := objectPath fs bucket key in
  let metaPath := metadataPath fs bucket key in
  (* Check if object exists *)
  match files d !! objPath with
  | None => Err ErrObjectNotFound
  | Some content =>
    (* Read metadata *)
    match metas d !! metaPath with
    | None => Err ErrReadMetadata
    | Some meta => Ok (content, meta)
    end
  end.

(** HeadObject retrieves only the metadata for an object. *)
Definition HeadObject (fs : FileSystemStorage) (d : Disk) (bucket key : string)
    : result ObjectMetadata :=
  match metas d !! metadataPath fs bucket key with
  | None => Err ErrObjectNotFound
  | Some meta => Ok meta
  end.

(** DeleteObject removes an object and its metadata. *)
Definition DeleteObject (fs : FileSystemStorage) (d : Disk) (bucket key : string) : Disk :=
  let d := os_Remove_file d (objectPath fs bucket key) in
  os_Remove_meta d (metadataPath fs bucket key).

(** GetObjectRange retrieves a byte range from an object.  The result
    carries the bytes the limited reader delivers, the metadata and the
    adjusted bounds. *)
Definition GetObjectRange (fs : FileSystemStorage) (d : Disk) (bucket key : string)
    (rangeStart rangeEnd : Z) : result (list byte * ObjectMetadata * Z * Z) :=
  let objPath := objectPath fs bucket key in
  let metaPath := metadataPath fs bucket key in
  (* Check if object exists *)
  match files d !! objPath with
  | None => Err ErrObjectNotFound
  | Some content =>
    let fileSize := Z.of_nat (length content) in
    (* Adjust range if end is negative or beyond file size *)
    let rangeEnd :=
      if (rangeEnd <? 0) || (rangeEnd >=? fileSize) then int64 (fileSize - 1) else rangeEnd in
    let rangeStart := if rangeStart <? 0 then 0 else rangeStart in
    if rangeStart >? rangeEnd then Err ErrInvalidRange else
    (* Read metadata *)
    match metas d !! metaPath with
    | None => Err ErrReadMetadata
    | Some meta =>
      (* Seek to range start, then a reader limited to the range *)
      let seeked := drop (Z.to_nat rangeStart) content in
      let limited := take (Z.to_nat (int64 (rangeEnd - rangeStart + 1))) seeked in
      Ok (limited, meta, rangeStart, rangeEnd)
    end
  end.

(* ------------------------------------------------------------------ *)
(** ** Sorting and slicing *)

(** The slice expression [a[lo:hi]]; out of bounds panics. *)
Definition slice {A} (a : list A) (lo hi : Z) : option (list A) :=
  if (0 <=? lo) && (lo <=? hi) && (hi <=? Z.of_nat (length a))
  then Some (take (Z.to_nat (hi - lo)) (drop (Z.to_nat lo) a))
  else None.

Definition has_sep (s : string) : bool :=
  existsb (fun c => Ascii.eqb c "/"%char) (list_ascii_of_string s).

(** [filepath.Ext]: the suffix beginning at the final dot in the final
    element of the path; empty if there is no dot. *)
Fixpoint Ext (path : string) : string :=
  match path with
  | EmptyString => EmptyString
  | String c rest =>
    let r := Ext rest in
    if negb (String.eqb r EmptyString) || has_sep rest then r
    else if Ascii.eqb c "."%char then path
    else EmptyString
  end.

(** [strings.HasPrefix(s, prefix)] *)
Definition HasPrefix (s prefix : string) : bool := String.prefix prefix s.

(** [strings.HasSuffix(s, suffix)] *)
Definition HasSuffix (s suffix : string) : bool :=
  (String.length suffix <=? String.length s)%nat &&
  String.eqb (substring (String.length s - String.length suffix) (String.length suffix) s) suffix.

(* ------------------------------------------------------------------ *)
(** ** Listing *)

Definition metadataDir (fs : FileSystemStorage) (bucket : string) : list string :=
  Join [baseDir fs; bucket; "metadata"]%string.

(** The metadata documents [filepath.Walk] reaches below a directory. *)
Definition walk (d : Disk) (dir : list string) : list (list string * ObjectMetadata) :=
  map_to_list (filter (fun kv => under dir (fst kv) = true) (metas d)).

(** The walk function of [listAllObjects], per visited file. *)
Definition visit (prefix : string) (objects : list ObjectMetadata)
    (entry : list string * ObjectMetadata) : list ObjectMetadata :=
  let '(path, meta) := entry in
  if negb (String.eqb (Ext (List.last path EmptyString)) ".json") then objects else
  (* Filter by prefix *)
  if String.eqb prefix EmptyString || HasPrefix (Key meta) prefix
  then objects ++ [meta]
  else objects.

Definition less_key (a b : ObjectMetadata) : bool := String.ltb (Key a) (Key b).

(** listAllObjects is a helper to get all objects sorted. *)
Definition listAllObjects (fs : FileSystemStorage) (d : Disk) (bucket prefix : string)
    : list ObjectMetadata :=
  let objects := fold_left (visit prefix) (walk d (metadataDir fs bucket)) [] in
  (* Sort by key for consistent ordering *)
  sort_Slice less_key objects.

(** The loop that looks for the start index: the first object whose key is
    greater than the cursor, the index staying as it was when there is
    none. *)
Fixpoint scan_cursor (i : Z) (allObjects : list ObjectMetadata) (cursor : string)
    (startIdx : Z) : Z :=
  match allObjects with
  | [] => startIdx
  | obj :: rest =>
    if String.ltb cursor (Key obj) then i
    else scan_cursor (i + 1) rest cursor startIdx
  end.

(** [pageObjects[len(pageObjects)-1].Key] *)
Definition last_key (pageObjects : list ObjectMetadata) : string :=
  match last pageObjects with
  | Some obj => Key obj
  | None => EmptyString
  end.

(** ListObjects lists objects (V1 API) with marker-based pagination. *)
Definition ListObjects (fs : FileSystemStorage) (d : Disk) (bucket prefix marker : string)
    (maxKeys : Z) : result ListResult :=
  let maxKeys := if maxKeys <=? 0 then 1000 else maxKeys in
  let allObjects := listAllObjects fs d bucket prefix in
  (* Start from marker if provided *)
  let startIdx :=
    if negb (String.eqb marker EmptyString) then scan_cursor 0 allObjects marker 0 else 0 in
  (* Get slice for this page *)
  let endIdx := int64 (startIdx + maxKeys) in
  let len := Z.of_nat (length allObjects) in
  let isTruncated := endIdx <? len in
  let endIdx := if endIdx >? len then len else endIdx in
  match slice allObjects startIdx endIdx with
  | None => Err PanicSliceBounds
  | Some pageObjects =>
    let nextMarker :=
      if isTruncated && (0 <? Z.of_nat (length pageObjects))
      then last_key pageObjects else EmptyString in
    Ok {| Objects := pageObjects;
          IsTruncated := isTruncated;
          NextMarker := nextMarker;
          NextContinuationToken := EmptyString |}
  end.

(** ListObjectsV2 lists objects (V2 API) with continuation token
    pagination. *)
Definition ListObjectsV2 (fs : FileSystemStorage) (d : Disk)
    (bucket prefix continuationToken : string) (maxKeys : Z) : result ListResult :=
  let maxKeys := if maxKeys <=? 0 then 1000 else maxKeys in
  let allObjects := listAllObjects fs d bucket prefix in
  (* Decode continuation token (it's just the last key) *)
  let startIdx :=
    if negb (String.eqb continuationToken EmptyString)
    then scan_cursor 0 allObjects continuationToken 0 else 0 in
  (* Get slice for this page *)
  let endIdx := int64 (startIdx + maxKeys) in
  let len := Z.of_nat (length allObjects) in
  let isTruncated := endIdx <? len in
  let endIdx := if endIdx >? len then len else endIdx in
  match slice allObjects startIdx endIdx with
  | None => Err PanicSliceBounds
  | Some pageObjects =>
    let nextToken :=
      if isTruncated && (0 <? Z.of_nat (length pageObjects))
      then last_key pageObjects else EmptyString in
    Ok {| Objects := pageObjects;
          IsTruncated := isTruncated;
          NextMarker := EmptyString;
          NextContinuationToken := nextToken |}
  end.

(* ------------------------------------------------------------------ *)
(** ** Multipart uploads *)

(** [filepath.Join(dir, name)] for a directory already joined. *)
Definition Join_in (dir : list string) (name : string) : list string :=
  dir ++ Join [name].

(** multipartPath returns the directory for multipart upload data. *)
Definition multipartPath (fs : FileSystemStorage) (bucket key uploadID : string)
    : list string :=
  Join [baseDir fs; bucket; "multipart"; uploadID]%string.

(** generateRandomID generates a random ID for uploads. *)
Definition generateRandomID (now : Time) : string := fmt_x now.

Definition partName (partNumber : Z) : string := ("part-" ++ fmt_05d partNumber)%string.

(** CreateMultipartUpload initiates a multipart upload.  Three clock
    readings: for the id, for the random component, for [Created]. *)
Definition CreateMultipartUpload (fs : FileSystemStorage) (d : Disk)
    (now_id now_rand now_created : Time)
    (bucket key contentType : string) (metadata : gmap string string)
    : Disk * result MultipartUpload :=
  (* Generate upload ID (timestamp + random component) *)
  let uploadID := (fmt_d now_id ++ "-" ++ generateRandomID now_rand)%string in
  let upload := {|
    UploadID := uploadID;
    upBucket := bucket;
    upKey := key;
    Created := now_created;
    upContentType := contentType;
    upMetadata := metadata
  |} in
  let mpPath := multipartPath fs bucket key uploadID in
  (* Save upload metadata *)
  let metaPath := Join_in mpPath "upload.json" in
  (set_uploads d (<[metaPath := json_MultipartUpload upload]> (uploads d)), Ok upload).

(** UploadPart uploads a part of a multipart upload. *)
Definition UploadPart (fs : FileSystemStorage) (d : Disk)
    (bucket key uploadID : string) (partNumber : Z) (data : Reader)
    : Disk * result Part :=
  let mpPath := multipartPath fs bucket key uploadID in
  (* Verify upload exists *)
  match uploads d !! Join_in mpPath "upload.json" with
  | None => (d, Err ErrUploadNotFound)
  | Some _ =>
    (* Write part data *)
    let partPath := Join_in mpPath (partName partNumber) in
    let d := os_Create d partPath in
    (* Calculate MD5 hash while writing *)
    let '(d, size, failed) := io_Copy d partPath data in
    if failed then (d, Err ErrWritePartData) else
    let etag := hex_EncodeToString (MD5.sum (rd_bytes data)) in
    let part := {| PartNumber := partNumber; partETag := etag; partSize := size |} in
    (* Save part metadata *)
    let partMetaPath := Join_in mpPath (partName partNumber ++ ".json") in
    (set_partmetas d (<[partMetaPath := part]> (partmetas d)), Ok part)
  end.

Definition less_part (a b : Part) : bool := PartNumber a <? PartNumber b.

(** The concatenation loop of [CompleteMultipartUpload]. *)
Fixpoint concat_parts (d : Disk) (mpPath objPath : list string) (parts : list Part)
    (totalSize : Z) : Disk * result Z :=
  match parts with
  | [] => (d, Ok totalSize)
  | part :: rest =>
    let partPath := Join_in mpPath (partName (PartNumber part)) in
    match files d !! partPath with
    | None => (d, Err (ErrOpenPart (PartNumber part)))
    | Some content =>
      let '(d, n, _) := io_Copy d objPath (bytes_Reader content) in
      concat_parts d mpPath objPath rest (int64 (totalSize + n))
    end
  end.

(** CompleteMultipartUpload combines all parts into final object.  Two
    clock readings: for the random id of the tag, for [LastModified]. *)
Definition CompleteMultipartUpload (fs : FileSystemStorage) (d : Disk)
    (now_rand now_mod : Time)
    (bucket key uploadID : string) (parts : list Part)
    : Disk * result ObjectMetadata :=
  let mpPath := multipartPath fs bucket key uploadID in
  (* Load upload metadata *)
  match uploads d !! Join_in mpPath "upload.json" with
  | None => (d, Err ErrUploadNotFound)
  | Some upload =>
    (* Create final object file *)
    let objPath := objectPath fs bucket key in
    let d := os_Create d objPath in
    (* Sort parts by part number *)
    let parts := sort_Slice less_part parts in
    (* Concatenate all parts *)
    match concat_parts d mpPath objPath parts 0 with
    | (d, Err e) => (d, Err e)
    | (d, Ok totalSize) =>
      (* Generate ETag (for multipart, it's different format) *)
      let etag :=
        (dquote ++ generateRandomID now_rand ++ "-"
                ++ fmt_d (Z.of_nat (length parts)) ++ dquote)%string in
      (* Create object metadata *)
      let objMeta := {|
        Key := key;
        Size := totalSize;
        LastModified := now_mod;
        ETag := etag;
        ContentType := upContentType upload;
        Metadata := upMetadata upload
      |} in
      (* Save metadata *)
      let d := set_metas d (<[metadataPath fs bucket key := json_ObjectMetadata objMeta]>
                              (metas d)) in
      (* Clean up multipart directory *)
      (os_RemoveAll d mpPath, Ok objMeta)
    end
  end.

(** AbortMultipartUpload cancels a multipart upload. *)
Definition AbortMultipartUpload (fs : FileSystemStorage) (d : Disk)
    (bucket key uploadID : string) : Disk :=
  os_RemoveAll d (multipartPath fs bucket key uploadID).

(** The part documents [os.ReadDir] finds in the upload directory. *)
Definition is_part_doc (mpPath path : list string) : bool :=
  let name := List.last path EmptyString in
  under mpPath path && (length path =? S (length mpPath))%nat &&
  HasSuffix name ".json" && negb (String.eqb name "upload.json").

Definition read_part_docs (d : Disk) (mpPath : list string) : list Part :=
  map snd (map_to_list (filter (fun kv => is_part_doc mpPath (fst kv) = true) (partmetas d))).

(** ListParts lists the uploaded parts. *)
Definition ListParts (fs : FileSystemStorage) (d : Disk) (bucket key uploadID : string)
    : result (list Part) :=
  let mpPath := multipartPath fs bucket key uploadID in
  (* Verify upload exists *)
  match uploads d !! Join_in mpPath "upload.json" with
  | None => Err ErrUploadNotFound
  | Some _ =>
    (* Sort by part number *)
    Ok (sort_Slice less_part (read_part_docs d mpPath))
  end.

(* ------------------------------------------------------------------ *)
(** ** Vocabulary of the statements *)

(** A name that is one path element as it stands: not empty, free of
    separators and not a dot segment.  [filepath.Join] leaves such a name
    as it is, so that on plain names the paths of the embedding are the
    paths of the file system. *)
Definition plain (name : string) : bool :=
  negb (String.eqb name EmptyString) && negb (has_sep name) &&
  negb (String.eqb name ".") && negb (String.eqb name "..").

(** The elements of a name, between its separators. *)
Fixpoint elements (name : string) : list string :=
  match name with
  | EmptyString => [EmptyString]
  | String c rest =>
    if Ascii.eqb c "/"%char then EmptyString :: elements rest
    else match elements rest with
         | e :: es => String c e :: es
         | [] => [String c EmptyString]
         end
  end.

(** A name none of whose elements is the double dot.  Joined to a
    directory it names a path that [filepath.Join] leaves below that
    directory (or the directory itself): an object key of this kind names
    no file of a multipart session, and an upload id of this kind no
    object or metadata file. *)
Definition inside (name : string) : bool :=
  forallb (fun e => negb (String.eqb e "..")) (elements name).

(** A string of bytes below 128. *)
Fixpoint ascii_only (s : string) : bool :=
  match s with
  | EmptyString => true
  | String c rest => byte_in 0 127 c && ascii_only rest
  end.

(** A map whose keys and values [encoding/json] gives back as they are. *)
Definition json_keeps (m : gmap string string) : Prop :=
  map_Forall (fun k v => json_text k = k /\ json_text v = v) m.

(** The bounds [GetObjectRange] works with after its adjustments. *)
Definition adjusted_end (n rangeEnd : Z) : Z :=
  if (rangeEnd <? 0) || (rangeEnd >=? n) then n - 1 else rangeEnd.
Definition adjusted_start (rangeStart : Z) : Z :=
  if rangeStart <? 0 then 0 else rangeStart.

(** What [CompleteMultipartUpload] reads for part number [n] of a
    session ([multipartPath] makes no use of its key argument). *)
Definition part_file (fs : FileSystemStorage) (d : Disk) (bucket uploadID : string)
    (n : Z) : option (list byte) :=
  files d !! Join_in (multipartPath fs bucket EmptyString uploadID) (partName n).

(** A client that uploads the listed parts, number and bytes, one
    [UploadPart] after the other. *)
Definition upload_all (fs : FileSystemStorage) (d : Disk) (bucket key uploadID : string)
    (ups : list (Z * list byte)) : Disk :=
  fold_left (fun (d : Disk) (up : Z * list byte) =>
               fst (UploadPart fs d bucket key uploadID (fst up) (bytes_Reader (snd up))))
            ups d.

(** The concatenation loop seen from outside: the bytes appended to the
    final file for the part numbers in turn, and the size reached or the
    part that could not be opened. *)
Fixpoint gather (look : Z -> option (list byte)) (numbers : list Z) (totalSize : Z)
    : list byte * result Z :=
  match numbers with
  | [] => ([], Ok totalSize)
  | n :: rest =>
    match look n with
    | None => ([], Err (ErrOpenPart n))
    | Some content =>
      let '(bs, r) := gather look rest (int64 (totalSize + Z.of_nat (length content))) in
      (content ++ bs, r)
    end
  end.

(** The stored bytes of the given part numbers, one after the other. *)
Definition parts_bytes (look : Z -> option (list byte)) (numbers : list Z) : list byte :=
  concat (map (fun n => default [] (look n)) numbers).

(** The order [sort.Slice] establishes with [less_part]. *)
Definition part_le (a b : Part) : Prop := less_part b a = false.


(** The order [sort.Slice] establishes with [less_key], and its strict
    part. *)
Definition key_le (a b : ObjectMetadata) : Prop := less_key b a = false.
Definition key_lt (a b : ObjectMetadata) : Prop := less_key a b = true.

(** Which visited files [listAllObjects] keeps. *)
Definition kept (prefix : string) (entry : list string * ObjectMetadata) : bool :=
  String.eqb (Ext (List.last (fst entry) EmptyString)) ".json" &&
  (String.eqb prefix EmptyString || HasPrefix (Key (snd entry)) prefix).

(** The same page with the cursor in the other field. *)
Definition as_V2 (page : ListResult) : ListResult :=
  {| Objects := Objects page;
     IsTruncated := IsTruncated page;
     NextMarker := EmptyString;
     NextContinuationToken := NextMarker page |}.

(** The start index [ListObjects] and [ListObjectsV2] compute for a
    cursor. *)
Definition start_index (allObjects : list ObjectMetadata) (cursor : string) : Z :=
  if negb (String.eqb cursor EmptyString) then scan_cursor 0 allObjects cursor 0 else 0.

(** The cursor a paging client passes for page [i]: the one it started
    with, then the one the page before named. *)
Definition cursor_before (first : string) (pages : list ListResult) (i : nat) : string :=
  match i with
  | O => first
  | S j => match pages !! j with Some page => NextMarker page | None => EmptyString end
  end.

(** A client that pages through a listing: it calls with the cursor,
    collects the page and, while the page is truncated, calls again with
    the cursor the page names. *)
Fixpoint paginate (call : string -> result ListResult) (next : ListResult -> string)
    (fuel : nat) (cursor : string) : option (list ListResult) :=
  match fuel with
  | O => None
  | S fuel' =>
    match call cursor with
    | Err _ => None
    | Ok page =>
      if IsTruncated page
      then option_map (cons page) (paginate call next fuel' (next page))
      else Some [page]
    end
  end.

(* ------------------------------------------------------------------ *)
(** ** The range header (package server)

    [parseRangeHeader] with the functions of [strings] and [strconv] it
    calls. *)

Module Server.

(** The two errors of [strconv]. *)
Inductive num_error : Type :=
| ErrSyntax                 (* invalid syntax *)
| ErrRange.                 (* value out of range *)

Inductive header_error : Type :=
| ErrRangeHeaderFormat      (* invalid range header format *)
| ErrRangeFormat            (* invalid range format *)
| ErrNum (e : num_error).   (* the error of strconv.ParseInt *)

Inductive parsed (E A : Type) : Type :=
| Parsed (a : A)
| Failed (e : E).
Arguments Parsed {E A} a.
Arguments Failed {E A} e.

Definition maxUint64 : Z := 2 ^ 64 - 1.

(** The value of a decimal digit, if the byte is one. *)
Definition digit_value (c : ascii) : option Z :=
  let n := Z.of_nat (nat_of_ascii c) in
  if (48 <=? n) && (n <=? 57) then Some (n - 48) else None.

(** The loop of [strconv.ParseUint] for base 10 and 64 bits. *)
Fixpoint ParseUint_loop (s : string) (n : Z) : parsed num_error Z :=
  match s with
  | EmptyString => Parsed n
  | String c rest =>
    match digit_value c with
    | None => Failed ErrSyntax
    | Some d =>
      (* n*base overflows *)
      if n >=? maxUint64 / 10 + 1 then Failed ErrRange else
      let n1 := n * 10 + d in
      (* n+d overflows *)
      if n1 >? maxUint64 then Failed ErrRange else
      ParseUint_loop rest n1
    end
  end.

(** [strconv.ParseUint(s, 10, 64)] *)
Definition ParseUint (s : string) : parsed num_error Z :=
  match s with
  | EmptyString => Failed ErrSyntax
  | _ => ParseUint_loop s 0
  end.

(** [strconv.ParseInt(s, 10, 64)] *)
Definition ParseInt (s : string) : parsed num_error Z :=
  match s with
  | EmptyString => Failed ErrSyntax
  | String c rest =>
    (* Pick off leading sign. *)
    let '(neg, digits) :=
      if Ascii.eqb c "+"%char then (false, rest)
      else if Ascii.eqb c "-"%char then (true, rest)
      else (false, s) in
    (* Convert unsigned and check range. *)
    match ParseUint digits with
    | Failed ErrSyntax => Failed ErrSyntax
    | r =>
      let un := match r with Parsed un => un | Failed _ => maxUint64 end in
      let cutoff := 2 ^ 63 in
      if negb neg && (un >=? cutoff) then Failed ErrRange
      else if neg && (un >? cutoff) then Failed ErrRange
      else Parsed (if neg then - un else un)
    end
  end.

(** [strings.Split(s, sep)] for a separator of one byte. *)
Fixpoint Split (s : string) (sep : ascii) : list string :=
  match s with
  | EmptyString => [EmptyString]
  | String c rest =>
    if Ascii.eqb c sep then EmptyString :: Split rest sep
    else match Split rest sep with
         | first :: others => String c first :: others
         | [] => [String c EmptyString]
         end
  end.

(** [strings.TrimPrefix(s, prefix)] *)
Definition TrimPrefix (s prefix : string) : string :=
  if HasPrefix s prefix
  then substring (String.length prefix) (String.length s - String.length prefix) s
  else s.

(** parseRangeHeader parses HTTP Range header. *)
Definition parseRangeHeader (rangeHeader : string) : parsed header_error (Z * Z) :=
  (* Format: bytes=start-end *)
  if negb (HasPrefix rangeHeader "bytes=") then Failed ErrRangeHeaderFormat else
  let rangeSpec := TrimPrefix rangeHeader "bytes=" in
  match Split rangeSpec "-"%char with
  | [part0; part1] =>
    match (if negb (String.eqb part0 EmptyString) then ParseInt part0 else Parsed 0) with
    | Failed e => Failed (ErrNum e)
    | Parsed start =>
      match (if negb (String.eqb part1 EmptyString) then ParseInt part1
             else Parsed (-1) (* To end of file *)) with
      | Failed e => Failed (ErrNum e)
      | Parsed end_ => Parsed (start, end_)
      end
    end
  | _ => Failed ErrRangeFormat
  end.

(** Vocabulary of the statements about the parsers: the number a string
    of decimal digits denotes when [n] has been read so far, and whether
    a byte occurs in a string. *)
Fixpoint uint_value (u : Decimal.uint) (n : Z) : Z :=
  match u with
  | Decimal.Nil => n
  | Decimal.D0 u => uint_value u (n * 10)
  | Decimal.D1 u => uint_value u (n * 10 + 1)
  | Decimal.D2 u => uint_value u (n * 10 + 2)
  | Decimal.D3 u => uint_value u (n * 10 + 3)
  | Decimal.D4 u => uint_value u (n * 10 + 4)
  | Decimal.D5 u => uint_value u (n * 10 + 5)
  | Decimal.D6 u => uint_value u (n * 10 + 6)
  | Decimal.D7 u => uint_value u (n * 10 + 7)
  | Decimal.D8 u => uint_value u (n * 10 + 8)
  | Decimal.D9 u => uint_value u (n * 10 + 9)
  end.

Fixpoint has_byte (c : ascii) (s : string) : bool :=
  match s with
  | EmptyString => false
  | String c' rest => Ascii.eqb c' c || has_byte c rest
  end.

(** How often a byte occurs in a string. *)
Fixpoint count_byte (c : ascii) (s : string) : nat :=
  match s with
  | EmptyString => O
  | String c' rest => if Ascii.eqb c' c then S (count_byte c rest) else count_byte c rest
  end.

End Server.

(* ------------------------------------------------------------------ *)
(** ** Sample stores *)

Module Sample.

Definition fs : FileSystemStorage := {| baseDir := "/data" |}.

Definition hello : list byte := bytes_of_string "hello".
Definition world : list byte := bytes_of_string "world".

(** A store holding [hello] at [b/k]. *)
Definition stored_hello : Disk :=
  fst (PutObject fs empty_disk 1700000000000000000 1700000000000000001
         "b" "k" (bytes_Reader hello) ∅ "text/plain").

(** A reader that delivers two bytes and then breaks. *)
Definition broken : Reader := {| rd_bytes := bytes_of_string "HE"; rd_fails := true |}.

(** A session for [b/big.bin] with parts 3, 1 and 2 uploaded in that
    order, five bytes each. *)
Definition created : Disk * result MultipartUpload :=
  CreateMultipartUpload fs empty_disk 1700000000000000001 1700000000000000002
    1700000000000000003 "b" "big.bin" "application/x-test" {[ "owner" := "me" ]}%string.
Definition uploadID : string := "1700000000000000001-17979cfe362a0002".
Definition part3 : list byte := bytes_of_string "CCCCC".
Definition part1 : list byte := bytes_of_string "AAAAA".
Definition part2 : list byte := bytes_of_string "BBBBB".
Definition uploaded : Disk :=
  let d := fst created in
  let d := fst (UploadPart fs d "b" "big.bin" uploadID 3 (bytes_Reader part3)) in
  let d := fst (UploadPart fs d "b" "big.bin" uploadID 1 (bytes_Reader part1)) in
  fst (UploadPart fs d "b" "big.bin" uploadID 2 (bytes_Reader part2)).

(** Three objects in bucket [b]. *)
Definition three : Disk :=
  let d := fst (PutObject fs empty_disk 1 1 "b" "a" (bytes_Reader hello) ∅ "text/plain") in
  let d := fst (PutObject fs d 2 2 "b" "dir/c" (bytes_Reader world) ∅ "text/plain") in
  fst (PutObject fs d 3 3 "b" "k" (bytes_Reader hello) ∅ "text/plain").

(** A bucket that ends up with two metadata records, one of them under
    the empty key.  The sequence is one a file system accepts: [a] is
    put; deleting [a/] removes the object file of [a] (that object path
    cleans to the one of [a]) and leaves the record of [a] (the metadata
    path is another one); deleting the empty key removes the emptied
    object directory; the put of the empty key then finds nothing in its
    way.  In the embedding the two deletions find nothing to remove, and
    the metadata records end up the same. *)
Definition with_empty_key : Disk :=
  let d := fst (PutObject fs empty_disk 1 1 "b" "a" (bytes_Reader world) ∅ "text/plain") in
  let d := DeleteObject fs d "b" "a/" in
  let d := DeleteObject fs d "b" EmptyString in
  fst (PutObject fs d 2 2 "b" EmptyString (bytes_Reader hello) ∅ "text/plain").

(** The session document of [created]. *)
Definition session : MultipartUpload :=
  {| UploadID := uploadID; upBucket := "b"; upKey := "big.bin";
     Created := 1700000000000000003; upContentType := "application/x-test";
     upMetadata := {[ "owner" := "me" ]}%string |}.

(** The metadata record of [stored_hello]. *)
Definition hello_meta : ObjectMetadata :=
  {| Key := "k"; Size := 5; LastModified := 1700000000000000001;
     ETag := (dquote ++ "5-1700000000" ++ dquote)%string;
     ContentType := "text/plain"; Metadata := ∅ |}.

(** A content type of one byte, 0xff, which is not valid UTF-8. *)
Definition latin1 : string := String (ascii_of_nat 255) EmptyString.

(** Two keys of one byte each, 0xff and 0xfe, put one after the other. *)
Definition twin_keys : Disk :=
  let d := fst (PutObject fs empty_disk 1 1 "b" (String (ascii_of_nat 255) EmptyString)
                  (bytes_Reader hello) ∅ "text/plain") in
  fst (PutObject fs d 2 2 "b" (String (ascii_of_nat 254) EmptyString)
         (bytes_Reader world) ∅ "text/plain").

End Sample.
(* ================================================================== *)
(** * Properties *)

(** ** Test vectors of the hash (RFC 1321, appendix A.5) *)

Example md5_empty :
  hex_EncodeToString (MD5.sum []) = "d41d8cd98f00b204e9800998ecf8427e"%string.
Proof. vm_compute. reflexivity. Qed.

Example md5_abc :
  hex_EncodeToString (MD5.sum (bytes_of_string "abc")) = "900150983cd24fb0d6963f7d28e17f72"%string.
Proof. vm_compute. reflexivity. Qed.

Example md5_two_blocks :
  hex_EncodeToString
    (MD5.sum (bytes_of_string
       "12345678901234567890123456789012345678901234567890123456789012345678901234567890"))
  = "57edf4a22be3c955ac49da2e2107b67a"%string.
Proof. vm_compute. reflexivity. Qed.

(* ------------------------------------------------------------------ *)
(** ** Integers *)

Lemma int64_small z : min_int64 <= z <= max_int64 -> int64 z = z.
Proof.
  unfold int64, min_int64, max_int64. intros H.
  rewrite Z.mod_small by lia. lia.
Qed.

Lemma geb_false (a b : Z) : a < b -> (a >=? b) = false.
Proof. intros H. rewrite Z.geb_leb. apply Z.leb_gt. exact H. Qed.

Lemma gtb_false (a b : Z) : a <= b -> (a >? b) = false.
Proof. intros H. rewrite Z.gtb_ltb. apply Z.ltb_ge. exact H. Qed.

(* ------------------------------------------------------------------ *)
(** ** Paths *)

Lemma Join_app l1 l2 : Join (l1 ++ l2) = Join l1 ++ Join l2.
Proof. unfold Join. apply List.filter_app. Qed.

Lemma Join_name (name : string) : name <> EmptyString -> Join [name] = [name].
Proof.
  intros H. unfold Join. simpl.
  destruct (String.eqb_spec name EmptyString); [contradiction | reflexivity].
Qed.

(** The three areas of a bucket never meet: a path below [objects] or
    [metadata] is not below [multipart]. *)
Lemma area_apart (base bucket a1 a2 : string) (r1 r2 : list string) :
  a1 <> EmptyString -> a2 <> EmptyString -> a1 <> a2 ->
  ~ (Join ([base; bucket] ++ [a1] ++ r1)) `prefix_of` (Join ([base; bucket] ++ [a2] ++ r2)).
Proof.
  intros H1 H2 Hne [k Hk].
  rewrite !Join_app, (Join_name a1), (Join_name a2) in Hk by assumption.
  rewrite <- !app_assoc in Hk. apply app_inv_head in Hk.
  simpl in Hk. congruence.
Qed.

Lemma object_not_under_multipart fs bucket key key' uploadID :
  under (multipartPath fs bucket key' uploadID) (objectPath fs bucket key) = false.
Proof.
  unfold under. apply bool_decide_eq_false.
  apply (area_apart (baseDir fs) bucket "multipart" "objects" [uploadID] [key]);
    discriminate.
Qed.

Lemma metadata_not_under_multipart fs bucket key key' uploadID :
  under (multipartPath fs bucket key' uploadID) (metadataPath fs bucket key) = false.
Proof.
  unfold under. apply bool_decide_eq_false.
  apply (area_apart (baseDir fs) bucket "multipart" "metadata" [uploadID]
           [(key ++ ".json")%string]); discriminate.
Qed.

Lemma object_is_no_part fs bucket key key' uploadID name :
  objectPath fs bucket key <> Join_in (multipartPath fs bucket key' uploadID) name.
Proof.
  intros Heq.
  pose proof (object_not_under_multipart fs bucket key key' uploadID) as H.
  unfold under in H. apply bool_decide_eq_false in H. apply H.
  rewrite Heq. unfold Join_in. apply prefix_app_r. reflexivity.
Qed.

(** The key argument plays no part in the multipart directory. *)
Lemma multipartPath_key_irrelevant fs bucket key key' uploadID :
  multipartPath fs bucket key uploadID = multipartPath fs bucket key' uploadID.
Proof. reflexivity. Qed.

(* ------------------------------------------------------------------ *)
(** ** Sorting, and strings in JSON documents *)

Lemma sort_Slice_Permutation {A} (less : A -> A -> bool) (x : list A) :
  sort_Slice less x ≡ₚ x.
Proof. unfold sort_Slice. apply merge_sort_Permutation. Qed.

Lemma sort_Slice_length {A} (less : A -> A -> bool) (x : list A) :
  length (sort_Slice less x) = length x.
Proof. apply Permutation_length, sort_Slice_Permutation. Qed.

Lemma append_cons (c : ascii) (s t : string) :
  (String c s ++ t)%string = String c (s ++ t)%string.
Proof. reflexivity. Qed.

Lemma append_nil (t : string) : (EmptyString ++ t)%string = t.
Proof. reflexivity. Qed.

Lemma json_text_ascii (s : string) : ascii_only s = true -> json_text s = s.
Proof.
  induction s as [| c s IH]; [reflexivity |]. cbn [ascii_only json_text].
  intros H. apply andb_true_iff in H as [Hc Hs]. rewrite Hc, (IH Hs). reflexivity.
Qed.

Lemma ascii_only_app (s t : string) :
  ascii_only (s ++ t) = ascii_only s && ascii_only t.
Proof.
  induction s as [| c s IH]; [reflexivity |].
  rewrite append_cons. cbn [ascii_only]. rewrite IH. apply andb_assoc.
Qed.

Lemma ascii_only_decimal (u : Decimal.uint) :
  ascii_only (DecimalString.NilEmpty.string_of_uint u) = true.
Proof.
  induction u; cbn [DecimalString.NilEmpty.string_of_uint ascii_only];
    [reflexivity | ..]; rewrite IHu; reflexivity.
Qed.


Lemma ascii_only_fmt_d (z : Z) : ascii_only (fmt_d z) = true.
Proof.
  unfold fmt_d.
  destruct z as [| p | p];
    cbn [Z.to_int DecimalString.NilZero.string_of_int ascii_only];
    unfold DecimalString.NilZero.string_of_uint;
    [reflexivity | |];
    destruct (Pos.to_uint p); first [reflexivity | exact (ascii_only_decimal _)
      | (cbn [ascii_only andb]; exact (ascii_only_decimal _))].
Qed.


Lemma fold_left_insert_lookup (l : list (string * string)) :
  NoDup (l.*1) ->
  forall (acc : gmap string string) (k : string),
    fold_left (fun (acc : gmap string string) (kv : string * string) =>
                 <[fst kv := snd kv]> acc) l acc !! k
    = match (list_to_map l : gmap string string) !! k with
      | Some v => Some v
      | None => acc !! k
      end.
Proof.
  induction l as [| [k0 v0] l IH]; intros Hnd acc k; [reflexivity |].
  cbn [fmap list_fmap fst] in Hnd. apply NoDup_cons in Hnd as [Hfresh Hnd].
  cbn [fold_left fst snd]. rewrite (IH Hnd), list_to_map_cons.
  destruct (decide (k = k0)) as [-> | Hne].
  - rewrite (not_elem_of_list_to_map_1 l k0 Hfresh), !lookup_insert_eq. reflexivity.
  - rewrite !lookup_insert_ne by congruence. reflexivity.
Qed.

(** A map of valid texts comes back as it was written. *)
Lemma json_map_keeps (m : gmap string string) : json_keeps m -> json_map m = m.
Proof.
  intros Hm. unfold json_map.
  set (l := sort_Slice (fun a b : string * string => String.ltb (fst a) (fst b))
              (map_to_list m)).
  assert (Hperm : l ≡ₚ map_to_list m) by apply sort_Slice_Permutation.
  assert (Hvalid : Forall (fun kv : string * string =>
                             json_text (fst kv) = fst kv /\ json_text (snd kv) = snd kv) l).
  { rewrite Hperm. apply Forall_forall. intros [k v] Hin.
    apply elem_of_map_to_list in Hin. exact (Hm k v Hin). }
  assert (Hfold : forall acc : gmap string string,
    fold_left (fun (acc : gmap string string) (kv : string * string) =>
                 <[json_text (fst kv) := json_text (snd kv)]> acc) l acc
    = fold_left (fun (acc : gmap string string) (kv : string * string) =>
                   <[fst kv := snd kv]> acc) l acc).
  { clear Hperm. induction Hvalid as [| kv l' [Hk Hv] _ IH]; intros acc; [reflexivity |].
    cbn [fold_left]. rewrite Hk, Hv. apply IH. }
  rewrite Hfold. apply map_eq. intros k.
  assert (Hnd : NoDup (l.*1)).
  { rewrite Hperm. apply NoDup_fst_map_to_list. }
  rewrite (fold_left_insert_lookup l Hnd), lookup_empty.
  rewrite (list_to_map_proper l (map_to_list m) Hnd Hperm), list_to_map_to_list.
  by destruct (m !! k).
Qed.

(** A record whose strings are valid texts comes back as it was written. *)
Lemma json_ObjectMetadata_keeps (m : ObjectMetadata) :
  json_text (Key m) = Key m -> ascii_only (ETag m) = true ->
  json_text (ContentType m) = ContentType m -> json_keeps (Metadata m) ->
  json_ObjectMetadata m = m.
Proof.
  intros HK HE HC HM. destruct m as [k sz t e c md]. unfold json_ObjectMetadata.
  cbn [Key Size LastModified ETag ContentType Metadata] in *.
  by rewrite HK, (json_text_ascii e HE), HC, (json_map_keeps md HM).
Qed.

Lemma ascii_only_dquote : ascii_only dquote = true.
Proof. reflexivity. Qed.

(* ------------------------------------------------------------------ *)
(** ** Whole-object write and read *)

Lemma files_os_Create d path : files (os_Create d path) !! path = Some [].
Proof. unfold os_Create. simpl. apply lookup_insert_eq. Qed.

Lemma files_file_append d path bs :
  files (file_append d path bs) !! path = Some (default [] (files d !! path) ++ bs).
Proof. unfold file_append. simpl. apply lookup_insert_eq. Qed.

Lemma files_file_append_ne d path path' bs :
  path <> path' -> files (file_append d path bs) !! path' = files d !! path'.
Proof. intros H. unfold file_append. simpl. by apply lookup_insert_ne. Qed.

(** What [PutObject] leaves on disk and returns, for a reader that does
    not fail. *)
Lemma PutObject_ok fs d t1 t2 bucket key P M C :
  let m := {| Key := key; Size := Z.of_nat (length P); LastModified := t2;
              ETag := (dquote ++ fmt_d (Z.of_nat (length P)) ++ "-"
                              ++ fmt_d (Unix t1) ++ dquote)%string;
              ContentType := C; Metadata := M |} in
  let r := PutObject fs d t1 t2 bucket key (bytes_Reader P) M C in
  snd r = Ok m /\
  files (fst r) !! objectPath fs bucket key = Some P /\
  metas (fst r) !! metadataPath fs bucket key = Some (json_ObjectMetadata m).
Proof.
  unfold PutObject, io_Copy, bytes_Reader. simpl.
  split; [reflexivity |]. split.
  - rewrite lookup_insert_eq. f_equal. by rewrite lookup_insert_eq.
  - apply lookup_insert_eq.
Qed.

(** The tag [PutObject] builds is made of digits, a dash and quotes. *)
Lemma PutObject_ETag_ascii (size t : Z) :
  ascii_only (dquote ++ fmt_d size ++ "-" ++ fmt_d (Unix t) ++ dquote) = true.
Proof.
  rewrite !ascii_only_app, !ascii_only_fmt_d, ascii_only_dquote. reflexivity.
Qed.

(** C9 (as stated, refuted).  A payload is put at b/k under a content
    type of one byte, 0xff.  PutObject returns the record with that
    content type; GetObject then returns the payload with a record whose
    content type is the three bytes ef bf bd: the metadata document went
    through encoding/json, which wrote the replacement character for the
    byte that is not valid UTF-8. *)
Lemma PutObject_GetObject_rewrites_content_type :
  (match snd (PutObject Sample.fs empty_disk 1 1 "b" "k" (bytes_Reader Sample.hello) ∅
                Sample.latin1) with
   | Ok m => Some (map nat_of_ascii (list_ascii_of_string (ContentType m)))
   | Err _ => None
   end) = Some [255%nat] /\
  (match GetObject Sample.fs
           (fst (PutObject Sample.fs empty_disk 1 1 "b" "k" (bytes_Reader Sample.hello) ∅
                   Sample.latin1)) "b" "k" with
   | Ok (bytes, m) => Some (bytes, map nat_of_ascii (list_ascii_of_string (ContentType m)))
   | Err _ => None
   end) = Some (Sample.hello, [239%nat; 191%nat; 189%nat]).
Proof. vm_compute. split; reflexivity. Qed.

(** C9 (amended).  Round trip: when PutObject of a byte payload succeeds,
    the key, the content type and the custom metadata being texts that
    encoding/json gives back as they are (valid UTF-8), GetObject at the
    same bucket and key returns exactly the payload together with the
    metadata record that PutObject returned, whose content type, custom
    metadata and size are the ones put. *)
Theorem PutObject_GetObject_roundtrip
    (fs : FileSystemStorage) (d : Disk) (now_etag now_mod : Z)
    (bucket key : string) (P : list byte) (M : gmap string string) (C : string)
    (m : ObjectMetadata) :
  snd (PutObject fs d now_etag now_mod bucket key (bytes_Reader P) M C) = Ok m ->
  json_text key = key -> json_text C = C -> json_keeps M ->
  GetObject fs (fst (PutObject fs d now_etag now_mod bucket key (bytes_Reader P) M C))
    bucket key = Ok (P, m) /\
  ContentType m = C /\ Metadata m = M /\ Size m = Z.of_nat (length P) /\ Key m = key.
Proof.
  intros Hok HK HC HM.
  destruct (PutObject_ok fs d now_etag now_mod bucket key P M C) as (Hr & Hf & Hm).
  rewrite Hr in Hok. injection Hok as <-.
  split; [| repeat split].
  unfold GetObject. rewrite Hf, Hm. do 2 f_equal.
  apply json_ObjectMetadata_keeps; cbn [Key ETag ContentType Metadata];
    [exact HK | apply PutObject_ETag_ascii | exact HC | exact HM].
Qed.

(** The five bytes of the sample, put with one custom entry. *)
Lemma PutObject_GetObject_roundtrip_witness :
  exists m,
    snd (PutObject Sample.fs empty_disk 1700000000000000000 1700000000000000001
           "b" "k" (bytes_Reader Sample.hello) {[ "owner" := "me" ]}%string "text/plain")
    = Ok m /\
    GetObject Sample.fs
      (fst (PutObject Sample.fs empty_disk 1700000000000000000 1700000000000000001
              "b" "k" (bytes_Reader Sample.hello) {[ "owner" := "me" ]}%string "text/plain"))
      "b" "k" = Ok (Sample.hello, m) /\
    ContentType m = "text/plain"%string /\ Size m = 5.
Proof.
  assert (H : snd (PutObject Sample.fs empty_disk 1700000000000000000 1700000000000000001
                     "b" "k" (bytes_Reader Sample.hello) {[ "owner" := "me" ]}%string
                     "text/plain")
              = Ok {| Key := "k"; Size := 5; LastModified := 1700000000000000001;
                      ETag := (dquote ++ "5-1700000000" ++ dquote)%string;
                      ContentType := "text/plain";
                      Metadata := {[ "owner" := "me" ]}%string |})
    by (vm_compute; reflexivity).
  eexists. split; [exact H |].
  destruct (PutObject_GetObject_roundtrip Sample.fs empty_disk 1700000000000000000
              1700000000000000001 "b" "k" Sample.hello {[ "owner" := "me" ]}%string
              "text/plain" _ H) as (Hget & HC & _ & HS & _).
  - reflexivity.
  - reflexivity.
  - apply (bool_decide_unpack _). vm_compute. exact I.
  - split; [exact Hget |]. split; [exact HC | exact HS].
Defined.

(* ------------------------------------------------------------------ *)
(** ** Byte ranges *)

Lemma GetObjectRange_unfold fs d bucket key P meta s e :
  files d !! objectPath fs bucket key = Some P ->
  metas d !! metadataPath fs bucket key = Some meta ->
  Z.of_nat (length P) <= max_int64 ->
  let n := Z.of_nat (length P) in
  let s' := adjusted_start s in
  let e' := adjusted_end n e in
  GetObjectRange fs d bucket key s e =
    if s' >? e' then Err ErrInvalidRange
    else Ok (take (Z.to_nat (e' - s' + 1)) (drop (Z.to_nat s') P), meta, s', e').
Proof.
  intros Hf Hm Hn n s' e'. unfold GetObjectRange. rewrite Hf.
  fold n. unfold max_int64 in Hn.
  rewrite (int64_small (n - 1)) by (unfold min_int64, max_int64; lia).
  change (if (e <? 0) || (e >=? n) then n - 1 else e) with e'.
  change (if s <? 0 then 0 else s) with s'.
  destruct (s' >? e') eqn:Hcmp; [reflexivity |].
  rewrite Hm. rewrite int64_small; [reflexivity |].
  assert (0 <= s') by (unfold s', adjusted_start; destruct (s <? 0) eqn:?; lia).
  assert (e' <= n - 1) by (unfold e', adjusted_end;
    destruct (e <? 0) eqn:?, (e >=? n) eqn:?; simpl; lia).
  unfold min_int64, max_int64. lia.
Qed.

(** C6.  For a stored object with content P of size n: with
    0 <= start <= end < n, GetObjectRange returns exactly the bytes
    P[start..end] inclusive and the bounds; an end of -1, or at or beyond
    n, reads to the end of the object; a negative start is taken as 0; and
    the call fails with the invalid-range error exactly when the start is
    greater than the end after these adjustments, which is always so for an
    empty object. *)
Theorem GetObjectRange_correct
    (fs : FileSystemStorage) (d : Disk) (bucket key : string)
    (P : list byte) (meta : ObjectMetadata) :
  files d !! objectPath fs bucket key = Some P ->
  metas d !! metadataPath fs bucket key = Some meta ->
  Z.of_nat (length P) <= max_int64 ->
  let n := Z.of_nat (length P) in
  (forall s e, 0 <= s <= e /\ e < n ->
     exists bs, GetObjectRange fs d bucket key s e = Ok (bs, meta, s, e) /\
       Z.of_nat (length bs) = e - s + 1 /\
       forall i, (i < length bs)%nat -> bs !! i = P !! (Z.to_nat s + i)%nat) /\
  (forall s e, 0 <= s < n -> e = -1 \/ n <= e ->
     GetObjectRange fs d bucket key s e = Ok (drop (Z.to_nat s) P, meta, s, n - 1)) /\
  (forall s e, s < 0 ->
     GetObjectRange fs d bucket key s e = GetObjectRange fs d bucket key 0 e) /\
  (forall s e, GetObjectRange fs d bucket key s e = Err ErrInvalidRange <->
     adjusted_start s > adjusted_end n e) /\
  (n = 0 -> forall s e, GetObjectRange fs d bucket key s e = Err ErrInvalidRange).
Proof.
  intros Hf Hm Hn n.
  pose proof (GetObjectRange_unfold fs d bucket key P meta) as U.
  specialize (fun s e => U s e Hf Hm Hn). cbv zeta in U. fold n in U.
  assert (Hiff : forall s e, GetObjectRange fs d bucket key s e = Err ErrInvalidRange <->
                             adjusted_start s > adjusted_end n e).
  { intros s e. rewrite U.
    destruct (adjusted_start s >? adjusted_end n e) eqn:Hc.
    - split; [intros _; lia | reflexivity].
    - split; [discriminate | intros; lia]. }
  split; [| split; [| split; [| split]]].
  - intros s e Hse. rewrite U.
    assert (Hs : adjusted_start s = s) by (unfold adjusted_start; destruct (s <? 0) eqn:?; lia).
    assert (He : adjusted_end n e = e) by (unfold adjusted_end;
      destruct (e <? 0) eqn:?, (e >=? n) eqn:?; simpl; lia).
    rewrite Hs, He. destruct (s >? e) eqn:Hc; [lia |].
    eexists. split; [reflexivity |].
    assert (Hlen : length (take (Z.to_nat (e - s + 1)) (drop (Z.to_nat s) P))
                   = Z.to_nat (e - s + 1)).
    { rewrite length_take, length_drop. unfold n in Hse. lia. }
    split; [rewrite Hlen; lia |].
    intros i Hi. rewrite Hlen in Hi.
    rewrite lookup_take_lt by lia. apply lookup_drop.
  - intros s e Hs He. rewrite U.
    assert (Hs' : adjusted_start s = s) by (unfold adjusted_start; destruct (s <? 0) eqn:?; lia).
    assert (He' : adjusted_end n e = n - 1) by (unfold adjusted_end;
      destruct (e <? 0) eqn:?, (e >=? n) eqn:?; simpl; lia).
    rewrite Hs', He'. destruct (s >? n - 1) eqn:Hc; [lia |].
    rewrite take_ge; [reflexivity |]. rewrite length_drop. unfold n. lia.
  - intros s e Hs. rewrite !U.
    replace (adjusted_start s) with (adjusted_start 0); [reflexivity |].
    unfold adjusted_start. destruct (s <? 0) eqn:?; [reflexivity | lia].
  - apply Hiff.
  - intros Hz s e. apply Hiff.
    unfold adjusted_start, adjusted_end.
    destruct (s <? 0) eqn:?, (e <? 0) eqn:?, (e >=? n) eqn:?; simpl; lia.
Qed.

(** The range 1..3 of the five stored bytes of the sample object. *)
Lemma GetObjectRange_correct_witness :
  files Sample.stored_hello !! objectPath Sample.fs "b" "k" = Some Sample.hello /\
  Z.of_nat (length Sample.hello) <= max_int64 /\
  exists bs meta,
    GetObjectRange Sample.fs Sample.stored_hello "b" "k" 1 3 = Ok (bs, meta, 1, 3) /\
    bs = bytes_of_string "ell".
Proof.
  split; [vm_compute; reflexivity |]. split; [vm_compute; discriminate |].
  destruct (GetObjectRange_correct Sample.fs Sample.stored_hello "b" "k" Sample.hello
              Sample.hello_meta)
    as (Hexact & _).
  - vm_compute. reflexivity.
  - vm_compute. reflexivity.
  - vm_compute. discriminate.
  - destruct (Hexact 1 3) as (bs & Hcall & _); [vm_compute; repeat split; discriminate |].
    exists bs. eexists. split; [exact Hcall |].
    assert (Hbs : Ok (bs, Sample.hello_meta, 1, 3)
                  = GetObjectRange Sample.fs Sample.stored_hello "b" "k" 1 3)
      by (symmetry; exact Hcall).
    vm_compute in Hbs. injection Hbs as ->. reflexivity.
Defined.

(** C10.  For a stored non-empty object with content P of size n, every
    start and every negative end bound (not only -1): GetObjectRange
    answers exactly as with the end bound n-1, and the negative bound is
    not refused.  With a negative start taken as 0, the answer is the
    bytes of P from the start to the end of the object, with the stored
    record and the bounds start and n-1; it is the invalid-range error
    only when the start lies beyond the last byte. *)
Theorem GetObjectRange_negative_end
    (fs : FileSystemStorage) (d : Disk) (bucket key : string) (P : list byte)
    (meta : ObjectMetadata) (rangeStart rangeEnd : Z) :
  files d !! objectPath fs bucket key = Some P ->
  metas d !! metadataPath fs bucket key = Some meta ->
  P <> [] ->
  Z.of_nat (length P) <= max_int64 ->
  rangeEnd < 0 ->
  GetObjectRange fs d bucket key rangeStart rangeEnd
  = GetObjectRange fs d bucket key rangeStart (Z.of_nat (length P) - 1) /\
  GetObjectRange fs d bucket key rangeStart rangeEnd
  = (if adjusted_start rangeStart >? Z.of_nat (length P) - 1
     then Err ErrInvalidRange
     else Ok (drop (Z.to_nat (adjusted_start rangeStart)) P, meta,
              adjusted_start rangeStart, Z.of_nat (length P) - 1)) /\
  (rangeStart < Z.of_nat (length P) ->
   GetObjectRange fs d bucket key rangeStart rangeEnd
   = Ok (drop (Z.to_nat (adjusted_start rangeStart)) P, meta,
         adjusted_start rangeStart, Z.of_nat (length P) - 1)).
Proof.
  intros Hf Hm Hne Hn He.
  assert (Hpos : 0 < Z.of_nat (length P)) by (destruct P; [congruence | simpl; lia]).
  assert (Hs0 : 0 <= adjusted_start rangeStart)
    by (unfold adjusted_start; destruct (rangeStart <? 0) eqn:?; lia).
  assert (Hend : forall e, e < 0 \/ e = Z.of_nat (length P) - 1 ->
            GetObjectRange fs d bucket key rangeStart e
            = (if adjusted_start rangeStart >? Z.of_nat (length P) - 1
               then Err ErrInvalidRange
               else Ok (drop (Z.to_nat (adjusted_start rangeStart)) P, meta,
                        adjusted_start rangeStart, Z.of_nat (length P) - 1))).
  { intros e Hcase.
    rewrite (GetObjectRange_unfold fs d bucket key P meta rangeStart e Hf Hm Hn). cbv zeta.
    assert (He' : adjusted_end (Z.of_nat (length P)) e = Z.of_nat (length P) - 1).
    { unfold adjusted_end. destruct Hcase as [Hneg | ->].
      - rewrite (proj2 (Z.ltb_lt e 0) Hneg). reflexivity.
      - rewrite (proj2 (Z.ltb_ge _ 0)) by lia. rewrite geb_false by lia. reflexivity. }
    rewrite He'.
    destruct (adjusted_start rangeStart >? Z.of_nat (length P) - 1) eqn:Hcmp;
      [reflexivity |].
    rewrite Z.gtb_ltb in Hcmp. apply Z.ltb_ge in Hcmp.
    rewrite take_ge by (rewrite length_drop; lia). reflexivity. }
  split; [| split].
  - rewrite (Hend rangeEnd) by (left; exact He).
    rewrite (Hend (Z.of_nat (length P) - 1)) by (right; reflexivity). reflexivity.
  - apply Hend. left. exact He.
  - intros Hlt. rewrite (Hend rangeEnd) by (left; exact He).
    rewrite gtb_false; [reflexivity |].
    unfold adjusted_start. destruct (rangeStart <? 0) eqn:?; lia.
Qed.

(** The end bound -5 on the sample object of five bytes: the bytes from
    index 2 to the end. *)
Lemma GetObjectRange_negative_end_witness :
  GetObjectRange Sample.fs Sample.stored_hello "b" "k" 2 (-5)
  = Ok (bytes_of_string "llo", Sample.hello_meta, 2, 4).
Proof.
  destruct (GetObjectRange_negative_end Sample.fs Sample.stored_hello "b" "k" Sample.hello
              Sample.hello_meta 2 (-5)) as (_ & _ & H).
  - vm_compute. reflexivity.
  - vm_compute. reflexivity.
  - discriminate.
  - vm_compute. discriminate.
  - reflexivity.
  - rewrite H by (vm_compute; reflexivity). vm_compute. reflexivity.
Defined.

(* ------------------------------------------------------------------ *)
(** ** A write that fails partway *)

(** C3 (as stated, refuted).  A store holds [hello] at b/k.  A PutObject
    whose reader breaks after two bytes fails, and GetObject then returns
    those two bytes under the old metadata record: the stored object is no
    longer readable unchanged. *)
Lemma PutObject_failure_is_visible :
  GetObject Sample.fs Sample.stored_hello "b" "k"
    = Ok (Sample.hello, Sample.hello_meta) /\
  snd (PutObject Sample.fs Sample.stored_hello 1700000005000000000 1700000005000000001
         "b" "k" Sample.broken ∅ "text/plain") = Err ErrWriteObjectData /\
  GetObject Sample.fs
    (fst (PutObject Sample.fs Sample.stored_hello 1700000005000000000 1700000005000000001
            "b" "k" Sample.broken ∅ "text/plain")) "b" "k"
    = Ok (bytes_of_string "HE", Sample.hello_meta).
Proof. vm_compute. repeat split. Qed.

(** C3 (amended).  When the input stream errors partway through the copy
    and PutObject fails with its write error, the object file at
    (bucket, key) holds exactly the bytes copied before the failure, while
    HeadObject answers at the key as it did before: where it returned a
    metadata record, GetObject now returns the copied bytes under that
    record; where it reported the object as not found, GetObject now
    fails on the missing metadata. *)
Theorem PutObject_failure_leaves_copied_bytes
    (fs : FileSystemStorage) (d : Disk) (now_etag now_mod : Z)
    (bucket key : string) (data : Reader) (M : gmap string string) (C : string) :
  rd_fails data = true ->
  snd (PutObject fs d now_etag now_mod bucket key data M C) = Err ErrWriteObjectData ->
  files (fst (PutObject fs d now_etag now_mod bucket key data M C))
    !! objectPath fs bucket key = Some (rd_bytes data) /\
  HeadObject fs (fst (PutObject fs d now_etag now_mod bucket key data M C)) bucket key
    = HeadObject fs d bucket key /\
  (forall meta, HeadObject fs d bucket key = Ok meta ->
     GetObject fs (fst (PutObject fs d now_etag now_mod bucket key data M C)) bucket key
     = Ok (rd_bytes data, meta)) /\
  (HeadObject fs d bucket key = Err ErrObjectNotFound ->
     GetObject fs (fst (PutObject fs d now_etag now_mod bucket key data M C)) bucket key
     = Err ErrReadMetadata).
Proof.
  intros _. unfold PutObject, io_Copy. destruct (rd_fails data); [| discriminate].
  intros _. simpl.
  assert (Hobj : <[objectPath fs bucket key :=
                     default [] (<[objectPath fs bucket key:=[]]> (files d)
                                   !! objectPath fs bucket key) ++ rd_bytes data]>
                   (<[objectPath fs bucket key:=[]]> (files d))
                 !! objectPath fs bucket key = Some (rd_bytes data)).
  { rewrite !lookup_insert_eq. reflexivity. }
  split; [exact Hobj |]. split; [reflexivity |].
  unfold GetObject, HeadObject. simpl. rewrite Hobj.
  destruct (metas d !! metadataPath fs bucket key) as [meta0 |].
  - split; [intros meta [= <-]; reflexivity | discriminate].
  - split; [discriminate | reflexivity].
Qed.

(** The sample store and the reader that breaks after two bytes. *)
Lemma PutObject_failure_leaves_copied_bytes_witness :
  rd_fails Sample.broken = true /\
  snd (PutObject Sample.fs Sample.stored_hello 5 6 "b" "k" Sample.broken ∅ "text/plain")
    = Err ErrWriteObjectData /\
  HeadObject Sample.fs Sample.stored_hello "b" "k" = Ok Sample.hello_meta /\
  GetObject Sample.fs
    (fst (PutObject Sample.fs Sample.stored_hello 5 6 "b" "k" Sample.broken ∅ "text/plain"))
    "b" "k"
  = Ok (bytes_of_string "HE", Sample.hello_meta).
Proof.
  assert (H : snd (PutObject Sample.fs Sample.stored_hello 5 6 "b" "k" Sample.broken ∅
                     "text/plain") = Err ErrWriteObjectData) by reflexivity.
  assert (Hh : HeadObject Sample.fs Sample.stored_hello "b" "k" = Ok Sample.hello_meta)
    by (vm_compute; reflexivity).
  split; [reflexivity |]. split; [exact H |]. split; [exact Hh |].
  destruct (PutObject_failure_leaves_copied_bytes Sample.fs Sample.stored_hello 5 6
              "b" "k" Sample.broken ∅ "text/plain" eq_refl H) as (_ & _ & Hget & _).
  exact (Hget Sample.hello_meta Hh).
Defined.

(* ------------------------------------------------------------------ *)
(** ** Sorting by part number *)

Lemma part_le_iff a b : part_le a b <-> PartNumber a <= PartNumber b.
Proof. unfold part_le, less_part. rewrite Z.ltb_ge. reflexivity. Qed.

Local Instance part_le_total : Total part_le.
Proof. intros a b. rewrite !part_le_iff. lia. Qed.

Local Instance part_le_trans : Transitive part_le.
Proof. intros a b c. rewrite !part_le_iff. lia. Qed.

Lemma sort_parts_sorted parts :
  StronglySorted Z.le (map PartNumber (sort_Slice less_part parts)).
Proof.
  apply (StronglySorted_fmap PartNumber part_le Z.le).
  - intros a b. apply part_le_iff.
  - unfold sort_Slice. apply (StronglySorted_merge_sort part_le).
Qed.


(* ------------------------------------------------------------------ *)
(** ** The concatenation loop *)

Lemma set_files_id d : set_files d (files d) = d.
Proof. by destruct d. Qed.

Lemma concat_parts_gather mpPath objPath look :
  (forall name, objPath <> Join_in mpPath name) ->
  forall parts d acc totalSize,
    files d !! objPath = Some acc ->
    (forall n, files d !! Join_in mpPath (partName n) = look n) ->
    concat_parts d mpPath objPath parts totalSize
    = (set_files d (<[objPath := acc ++ fst (gather look (map PartNumber parts) totalSize)]>
                      (files d)),
       snd (gather look (map PartNumber parts) totalSize)).
Proof.
  intros Hapart. induction parts as [| part rest IH]; intros d acc totalSize Hacc Hlook.
  - simpl. rewrite app_nil_r, insert_id by assumption. by rewrite set_files_id.
  - simpl. rewrite Hlook. destruct (look (PartNumber part)) as [content |] eqn:Hc.
    + unfold io_Copy, bytes_Reader. simpl.
      rewrite (IH (file_append d objPath content) (acc ++ content)).
      * destruct (gather look (map PartNumber rest)
                    (int64 (totalSize + Z.of_nat (length content)))) as [bs r].
        simpl. f_equal. unfold file_append, set_files. simpl.
        rewrite insert_insert_eq, app_assoc. reflexivity.
      * rewrite files_file_append, Hacc. reflexivity.
      * intros n. rewrite files_file_append_ne by apply Hapart. apply Hlook.
    + simpl. rewrite app_nil_r, insert_id by assumption. by rewrite set_files_id.
Qed.

Lemma gather_ok look numbers totalSize :
  Forall (fun n => is_Some (look n)) numbers ->
  exists total, gather look numbers totalSize = (parts_bytes look numbers, Ok total).
Proof.
  revert totalSize. induction numbers as [| n rest IH]; intros totalSize Hall.
  - eexists. reflexivity.
  - inversion Hall as [| ? ? [content Hc] Hrest]; subst.
    destruct (IH (int64 (totalSize + Z.of_nat (length content))) Hrest) as [total Ht].
    exists total. simpl. rewrite Hc, Ht. unfold parts_bytes. simpl. by rewrite Hc.
Qed.

Lemma gather_err look numbers totalSize :
  ~ Forall (fun n => is_Some (look n)) numbers ->
  exists n, n ∈ numbers /\ look n = None /\
            snd (gather look numbers totalSize) = Err (ErrOpenPart n).
Proof.
  revert totalSize. induction numbers as [| n rest IH]; intros totalSize Hnot.
  - exfalso. apply Hnot. constructor.
  - simpl. destruct (look n) as [content |] eqn:Hc.
    + destruct (IH (int64 (totalSize + Z.of_nat (length content)))) as (m & Hm & Hnone & Hr).
      { intros Hrest. apply Hnot. constructor; [by eexists | assumption]. }
      exists m. split; [by right |]. split; [assumption |].
      destruct (gather look rest _). exact Hr.
    + exists n. split; [by left |]. split; [assumption | reflexivity].
Qed.

(** Without overflow the size reached is the number of bytes appended. *)
Lemma gather_size look numbers totalSize :
  Forall (fun n => is_Some (look n)) numbers ->
  0 <= totalSize ->
  totalSize + Z.of_nat (length (parts_bytes look numbers)) <= max_int64 ->
  gather look numbers totalSize
  = (parts_bytes look numbers,
     Ok (totalSize + Z.of_nat (length (parts_bytes look numbers)))).
Proof.
  revert totalSize. induction numbers as [| n rest IH]; intros totalSize Hall H0 Hmax.
  - simpl. unfold parts_bytes. simpl. do 2 f_equal. lia.
  - inversion Hall as [| ? ? [content Hc] Hrest]; subst.
    assert (Hpb : parts_bytes look (n :: rest) = content ++ parts_bytes look rest).
    { unfold parts_bytes. simpl. by rewrite Hc. }
    rewrite Hpb in *. rewrite length_app in Hmax. simpl. rewrite Hc.
    rewrite int64_small by (unfold min_int64, max_int64 in *; lia).
    rewrite IH by (try assumption; lia).
    rewrite length_app. do 2 f_equal. lia.
Qed.

(* ------------------------------------------------------------------ *)
(** ** Completing a multipart upload *)

Lemma remove_under_lookup_out {A} (dir : list string) (m : gmap (list string) A)
    (path : list string) :
  under dir path = false -> remove_under dir m !! path = m !! path.
Proof.
  intros Hout. unfold remove_under. rewrite map_lookup_filter.
  destruct (m !! path) as [x |]; [| reflexivity]. simpl.
  rewrite option_guard_True; [reflexivity | assumption].
Qed.

Lemma remove_under_lookup_in {A} (dir : list string) (m : gmap (list string) A)
    (path : list string) :
  under dir path = true -> remove_under dir m !! path = None.
Proof.
  intros Hin. unfold remove_under. apply map_lookup_filter_None. right.
  intros x _. simpl. congruence.
Qed.

(** The object metadata record that a completion writes. *)
Lemma CompleteMultipartUpload_unfold fs d now_rand now_mod bucket key uploadID parts upload :
  uploads d !! Join_in (multipartPath fs bucket key uploadID) "upload.json" = Some upload ->
  let numbers := map PartNumber (sort_Slice less_part parts) in
  let g := gather (part_file fs d bucket uploadID) numbers 0 in
  let d1 := set_files d (<[objectPath fs bucket key := fst g]> (files d)) in
  CompleteMultipartUpload fs d now_rand now_mod bucket key uploadID parts
  = match snd g with
    | Err e => (d1, Err e)
    | Ok totalSize =>
      let objMeta := {|
        Key := key; Size := totalSize; LastModified := now_mod;
        ETag := (dquote ++ generateRandomID now_rand ++ "-"
                        ++ fmt_d (Z.of_nat (length parts)) ++ dquote)%string;
        ContentType := upContentType upload; Metadata := upMetadata upload |} in
      (os_RemoveAll
         (set_metas d1 (<[metadataPath fs bucket key := json_ObjectMetadata objMeta]>
                          (metas d)))
         (multipartPath fs bucket key uploadID),
       Ok objMeta)
    end.
Proof.
  intros Hup numbers g d1. unfold CompleteMultipartUpload. rewrite Hup.
  rewrite (concat_parts_gather _ _ (part_file fs d bucket uploadID)
             (fun name => object_is_no_part fs bucket key key uploadID name)
             _ (os_Create d (objectPath fs bucket key)) [] 0).
  - fold numbers. fold g. simpl.
    assert (Hd1 : set_files (os_Create d (objectPath fs bucket key))
                    (<[objectPath fs bucket key := fst g]>
                       (<[objectPath fs bucket key := []]> (files d))) = d1).
    { unfold d1, os_Create, set_files. simpl. by rewrite insert_insert_eq. }
    rewrite Hd1. destruct (snd g) as [totalSize | e]; [| reflexivity].
    rewrite sort_Slice_length. reflexivity.
  - apply files_os_Create.
  - intros n. unfold os_Create, part_file. simpl.
    apply lookup_insert_ne. apply object_is_no_part.
Qed.








(** A successful completion destroys the session. *)
Lemma CompleteMultipartUpload_destroys_session fs d now_rand now_mod bucket key uploadID
    parts meta :
  snd (CompleteMultipartUpload fs d now_rand now_mod bucket key uploadID parts) = Ok meta ->
  uploads (fst (CompleteMultipartUpload fs d now_rand now_mod bucket key uploadID parts))
    !! Join_in (multipartPath fs bucket key uploadID) "upload.json" = None.
Proof.
  destruct (uploads d !! Join_in (multipartPath fs bucket key uploadID) "upload.json")
    as [upload |] eqn:Hup.
  - rewrite (CompleteMultipartUpload_unfold _ _ _ _ _ _ _ _ upload Hup). cbv zeta.
    destruct (snd (gather _ _ _)) as [totalSize | e]; [| discriminate].
    intros _. simpl. apply remove_under_lookup_in.
    unfold under, Join_in. apply bool_decide_eq_true. by apply prefix_app_r.
  - unfold CompleteMultipartUpload. rewrite Hup. discriminate.
Qed.

(** C1 (as stated, refuted).  Part 1 of the sample session is stored with
    the tag of its bytes.  A completion that refers to part 1 under another
    tag succeeds all the same; and a completion that refers to a part 9
    that was never uploaded fails with the engine's error for a part that
    cannot be opened. *)
Lemma CompleteMultipartUpload_accepts_wrong_tag :
  partmetas Sample.uploaded
    !! Join_in (multipartPath Sample.fs "b" "big.bin" Sample.uploadID) "part-00001.json"
  = Some (mkPart 1 "f6a6263167c92de8644ac998b3c4e4d1" 5) /\
  snd (CompleteMultipartUpload Sample.fs Sample.uploaded 7 8 "b" "big.bin" Sample.uploadID
         [mkPart 1 "00000000000000000000000000000000" 5])
  = Ok {| Key := "big.bin"; Size := 5; LastModified := 8;
          ETag := (dquote ++ "7-1" ++ dquote)%string;
          ContentType := "application/x-test";
          Metadata := {[ "owner" := "me" ]}%string |} /\
  snd (CompleteMultipartUpload Sample.fs Sample.uploaded 7 8 "b" "big.bin" Sample.uploadID
         [mkPart 1 "f6a6263167c92de8644ac998b3c4e4d1" 5; mkPart 9 "x" 1])
  = Err (ErrOpenPart 9).
Proof. vm_compute. repeat split. Qed.

(** C1 (amended).  For an existing session, the key and the upload id
    holding no double-dot element, CompleteMultipartUpload fails if any
    referenced part number has no stored part file, and so succeeds only
    when every referenced part has one.  The entity tags the caller supplies are
    never compared: two part lists with the same part numbers give the
    same outcome. *)
Theorem CompleteMultipartUpload_fails_when_part_missing
    (fs : FileSystemStorage) (d : Disk) (now_rand now_mod : Z)
    (bucket key uploadID : string) (parts : list Part) (upload : MultipartUpload) :
  inside key = true -> inside uploadID = true ->
  uploads d !! Join_in (multipartPath fs bucket key uploadID) "upload.json" = Some upload ->
  (forall p, p ∈ parts -> part_file fs d bucket uploadID (PartNumber p) = None ->
     exists e,
       snd (CompleteMultipartUpload fs d now_rand now_mod bucket key uploadID parts)
       = Err e) /\
  (forall meta,
     snd (CompleteMultipartUpload fs d now_rand now_mod bucket key uploadID parts) = Ok meta ->
     Forall (fun p => is_Some (part_file fs d bucket uploadID (PartNumber p))) parts) /\
  (forall parts', map PartNumber parts' = map PartNumber parts ->
     CompleteMultipartUpload fs d now_rand now_mod bucket key uploadID parts'
     = CompleteMultipartUpload fs d now_rand now_mod bucket key uploadID parts).
Proof.
  intros _ _ Hup.
  set (look := part_file fs d bucket uploadID).
  set (sorted := sort_Slice less_part parts).
  assert (Hperm : sorted ≡ₚ parts) by apply sort_Slice_Permutation.
  assert (Hall : Forall (fun n => is_Some (look n)) (map PartNumber sorted)
                 <-> Forall (fun p => is_Some (look (PartNumber p))) parts).
  { rewrite Forall_fmap. by rewrite Hperm. }
  pose proof (CompleteMultipartUpload_unfold fs d now_rand now_mod bucket key uploadID
                parts upload Hup) as HU.
  cbv zeta in HU. fold look in HU. fold sorted in HU.
  assert (Honly : forall meta,
            snd (CompleteMultipartUpload fs d now_rand now_mod bucket key uploadID parts)
            = Ok meta ->
            Forall (fun p => is_Some (look (PartNumber p))) parts).
  { intros meta Hok. apply Hall.
    destruct (decide (Forall (fun n => is_Some (look n)) (map PartNumber sorted)))
      as [Hyes | Hno]; [exact Hyes |].
    destruct (gather_err look _ 0 Hno) as (n & _ & _ & Hr).
    rewrite HU, Hr in Hok. discriminate. }
  split; [| split].
  - intros p Hp Hnone.
    destruct (snd (CompleteMultipartUpload fs d now_rand now_mod bucket key uploadID parts))
      as [meta | e] eqn:Hres; [| by exists e].
    pose proof (Honly meta eq_refl) as Hforall.
    rewrite Forall_forall in Hforall. specialize (Hforall p Hp).
    fold look in Hnone. rewrite Hnone in Hforall. by destruct Hforall.
  - exact Honly.
  - intros parts' Hsame.
    rewrite HU, (CompleteMultipartUpload_unfold _ _ _ _ _ _ _ _ upload Hup). cbv zeta.
    fold look.
    assert (Hn : map PartNumber (sort_Slice less_part parts') = map PartNumber sorted).
    { apply (StronglySorted_unique Z.le); [apply sort_parts_sorted .. |].
      rewrite (Permutation_map PartNumber (sort_Slice_Permutation less_part parts')).
      rewrite (Permutation_map PartNumber Hperm). by rewrite Hsame. }
    rewrite Hn. apply (f_equal (@length Z)) in Hsame. rewrite !length_map in Hsame.
    rewrite Hsame. reflexivity.
Qed.

(** The sample session holds parts 1, 2 and 3: a completion of parts 2
    and 4 fails. *)
Lemma CompleteMultipartUpload_fails_when_part_missing_witness :
  inside "big.bin" = true /\ inside Sample.uploadID = true /\
  uploads Sample.uploaded
    !! Join_in (multipartPath Sample.fs "b" "big.bin" Sample.uploadID) "upload.json"
  = Some (json_MultipartUpload Sample.session) /\
  part_file Sample.fs Sample.uploaded "b" Sample.uploadID 4 = None /\
  exists e,
    snd (CompleteMultipartUpload Sample.fs Sample.uploaded 7 8 "b" "big.bin"
           Sample.uploadID [mkPart 2 "b" 5; mkPart 4 "d" 5]) = Err e.
Proof.
  assert (H : uploads Sample.uploaded
                !! Join_in (multipartPath Sample.fs "b" "big.bin" Sample.uploadID)
                     "upload.json" = Some (json_MultipartUpload Sample.session))
    by (vm_compute; reflexivity).
  split; [reflexivity |]. split; [reflexivity |]. split; [exact H |].
  split; [vm_compute; reflexivity |].
  apply (proj1 (CompleteMultipartUpload_fails_when_part_missing Sample.fs Sample.uploaded
                  7 8 "b" "big.bin" Sample.uploadID [mkPart 2 "b" 5; mkPart 4 "d" 5]
                  (json_MultipartUpload Sample.session) eq_refl eq_refl H)
           (mkPart 4 "d" 5)).
  - apply list_elem_of_In. right. left. reflexivity.
  - vm_compute. reflexivity.
Defined.

(* ------------------------------------------------------------------ *)
(** ** What a session is addressed by *)

(** The session document that [CreateMultipartUpload] stores. *)
Lemma CreateMultipartUpload_session fs d t1 t2 t3 bucket key C M :
  exists u,
    snd (CreateMultipartUpload fs d t1 t2 t3 bucket key C M) = Ok u /\
    upBucket u = bucket /\ upKey u = key /\ upContentType u = C /\ upMetadata u = M /\
    uploads (fst (CreateMultipartUpload fs d t1 t2 t3 bucket key C M))
      !! Join_in (multipartPath fs bucket key (UploadID u)) "upload.json"
    = Some (json_MultipartUpload u).
Proof.
  eexists. split; [reflexivity |]. repeat (split; [reflexivity |]).
  unfold CreateMultipartUpload. simpl. apply lookup_insert_eq.
Qed.




(* ------------------------------------------------------------------ *)
(** ** Entity tags *)




(* ------------------------------------------------------------------ *)
(** ** The order of keys *)

Lemma ltb_leb (s1 s2 : string) : String.ltb s2 s1 = negb (String.leb s1 s2).
Proof.
  unfold String.ltb, String.leb. rewrite (String.compare_antisym s1 s2).
  destruct (String.compare s2 s1); reflexivity.
Qed.

Lemma key_le_iff a b : key_le a b <-> String.le (Key a) (Key b).
Proof.
  unfold key_le, less_key, String.le. rewrite ltb_leb.
  destruct (String.leb (Key a) (Key b)); simpl; split; (done || discriminate || auto).
Qed.

Local Instance key_le_total : Total key_le.
Proof. intros a b. rewrite !key_le_iff. apply (total String.le). Qed.

Local Instance key_le_trans : Transitive key_le.
Proof. intros a b c. rewrite !key_le_iff. apply (transitivity (R := String.le)). Qed.

Lemma ltb_irrefl (s : string) : String.ltb s s = false.
Proof.
  rewrite ltb_leb. assert (H : String.le s s) by reflexivity.
  unfold String.le in H. by destruct (String.leb s s).
Qed.

Lemma ltb_asym (s1 s2 : string) : String.ltb s1 s2 = true -> String.ltb s2 s1 = false.
Proof.
  rewrite !ltb_leb. intros H1.
  destruct (String.leb s2 s1) eqn:H21; [discriminate |].
  destruct (String.leb s1 s2) eqn:H12; [reflexivity |].
  destruct (String.leb_total s1 s2); congruence.
Qed.

Lemma key_lt_of_le a b : key_le a b -> Key a <> Key b -> key_lt a b.
Proof.
  rewrite key_le_iff. unfold key_lt, less_key. intros Hle Hne.
  rewrite ltb_leb. destruct (String.leb (Key b) (Key a)) eqn:Hba; [| reflexivity].
  exfalso. apply Hne. apply String.leb_antisym; [| assumption].
  unfold String.le in Hle. by destruct (String.leb (Key a) (Key b)).
Qed.

Lemma strictly_sorted (l : list ObjectMetadata) :
  StronglySorted key_le l -> NoDup (map Key l) -> StronglySorted key_lt l.
Proof.
  induction 1 as [| a l Hl IH Ha]; intros Hnd; [constructor |].
  simpl in Hnd. apply NoDup_cons in Hnd as [Hnotin Hnd].
  constructor; [by apply IH |].
  rewrite Forall_forall in Ha |- *. intros b Hb.
  apply key_lt_of_le; [by apply Ha |].
  intros Heq. apply Hnotin. rewrite Heq. apply list_elem_of_fmap. by exists b.
Qed.

(* ------------------------------------------------------------------ *)
(** ** What a listing holds *)

Lemma fold_visit prefix entries acc :
  fold_left (visit prefix) entries acc = acc ++ map snd (List.filter (kept prefix) entries).
Proof.
  revert acc. induction entries as [| [path meta] rest IH]; intros acc.
  - simpl. by rewrite app_nil_r.
  - simpl. rewrite IH. unfold kept at 2. simpl.
    destruct (String.eqb (Ext (List.last path EmptyString)) ".json"); simpl;
      [| reflexivity].
    destruct (String.eqb prefix EmptyString || HasPrefix (Key meta) prefix); simpl;
      [by rewrite <- app_assoc | reflexivity].
Qed.

Lemma elem_of_walk d dir path meta :
  (path, meta) ∈ walk d dir <-> metas d !! path = Some meta /\ under dir path = true.
Proof.
  unfold walk. rewrite elem_of_map_to_list, map_lookup_filter_Some. reflexivity.
Qed.

Lemma listAllObjects_Permutation fs d bucket prefix :
  listAllObjects fs d bucket prefix
  ≡ₚ map snd (List.filter (kept prefix) (walk d (metadataDir fs bucket))).
Proof.
  unfold listAllObjects. rewrite sort_Slice_Permutation, fold_visit. reflexivity.
Qed.

Lemma listAllObjects_sorted fs d bucket prefix :
  StronglySorted key_le (listAllObjects fs d bucket prefix).
Proof. unfold listAllObjects, sort_Slice. apply (StronglySorted_merge_sort key_le). Qed.

Lemma elem_of_listAllObjects fs d bucket prefix meta :
  meta ∈ listAllObjects fs d bucket prefix <->
  exists path, metas d !! path = Some meta /\
               under (metadataDir fs bucket) path = true /\
               kept prefix (path, meta) = true.
Proof.
  rewrite listAllObjects_Permutation, list_elem_of_fmap. split.
  - intros ([path meta'] & -> & Hin). apply list_elem_of_In, List.filter_In in Hin.
    destruct Hin as [Hin Hkept]. apply list_elem_of_In, elem_of_walk in Hin.
    exists path. simpl. tauto.
  - intros (path & Hm & Hu & Hk). exists (path, meta). split; [reflexivity |].
    apply list_elem_of_In, List.filter_In. split; [| assumption].
    apply list_elem_of_In, elem_of_walk. tauto.
Qed.

Lemma string_length_app (s t : string) :
  String.length (s ++ t) = (String.length s + String.length t)%nat.
Proof. induction s as [| c s IH]; simpl; [reflexivity | by rewrite IH]. Qed.

Lemma string_app_inv_tail (s1 s2 t : string) : (s1 ++ t = s2 ++ t)%string -> s1 = s2.
Proof.
  revert s2. induction s1 as [| c1 s1 IH]; intros [| c2 s2] H.
  - reflexivity.
  - apply (f_equal String.length) in H. rewrite !string_length_app in H. simpl in H. lia.
  - apply (f_equal String.length) in H. rewrite !string_length_app in H. simpl in H. lia.
  - cbn in H. injection H as -> H. f_equal. by apply IH.
Qed.

Lemma Ext_json (key : string) : Ext (key ++ ".json") = ".json"%string.
Proof.
  induction key as [| c key IH]; [reflexivity |].
  change (Ext (String c key ++ ".json")) with
    (let r := Ext (key ++ ".json") in
     if negb (String.eqb r EmptyString) || has_sep (key ++ ".json") then r
     else if Ascii.eqb c "."%char then String c (key ++ ".json")
     else EmptyString).
  rewrite IH. reflexivity.
Qed.

Lemma metadataPath_split fs bucket key :
  metadataPath fs bucket key = metadataDir fs bucket ++ [(key ++ ".json")%string].
Proof.
  unfold metadataPath, metadataDir.
  change [baseDir fs; bucket; "metadata"%string; (key ++ ".json")%string]
    with ([baseDir fs; bucket; "metadata"%string] ++ [(key ++ ".json")%string]).
  rewrite Join_app, Join_name; [reflexivity |]. by destruct key.
Qed.

Lemma metadataPath_inj fs bucket key1 key2 :
  metadataPath fs bucket key1 = metadataPath fs bucket key2 -> key1 = key2.
Proof.
  rewrite !metadataPath_split. intros H. apply app_inv_head in H.
  injection H as H. by apply string_app_inv_tail in H.
Qed.

Lemma metadataPath_under fs bucket key :
  under (metadataDir fs bucket) (metadataPath fs bucket key) = true.
Proof.
  unfold under. apply bool_decide_eq_true. rewrite metadataPath_split.
  by apply prefix_app_r.
Qed.

(* ------------------------------------------------------------------ *)
(** ** Finding the start index *)

Lemma scan_cursor_skip cursor dflt l1 l2 i :
  Forall (fun obj => String.ltb cursor (Key obj) = false) l1 ->
  scan_cursor i (l1 ++ l2) cursor dflt
  = scan_cursor (i + Z.of_nat (length l1)) l2 cursor dflt.
Proof.
  revert i. induction l1 as [| obj l1 IH]; intros i Hall.
  - simpl. f_equal. lia.
  - inversion Hall as [| ? ? Hobj Hrest]; subst. simpl. rewrite Hobj.
    rewrite IH by assumption. f_equal. lia.
Qed.

(** When no key is greater than the cursor the index is left where it
    was. *)
Lemma scan_cursor_none cursor dflt l i :
  Forall (fun obj => String.ltb cursor (Key obj) = false) l ->
  scan_cursor i l cursor dflt = dflt.
Proof.
  intros Hall. rewrite <- (app_nil_r l), scan_cursor_skip by assumption. reflexivity.
Qed.

(** When some key is greater than the cursor the loop stops at the first
    such key. *)
Lemma scan_cursor_found cursor dflt l1 obj l2 :
  Forall (fun o => String.ltb cursor (Key o) = false) l1 ->
  String.ltb cursor (Key obj) = true ->
  scan_cursor 0 (l1 ++ obj :: l2) cursor dflt = Z.of_nat (length l1).
Proof.
  intros Hall Hobj. rewrite scan_cursor_skip by assumption. simpl. by rewrite Hobj.
Qed.

Lemma last_key_snoc l obj : last_key (l ++ [obj]) = Key obj.
Proof. unfold last_key. by rewrite last_snoc. Qed.

(** In a strictly ascending listing, the cursor naming the last key of
    what was returned so far leads to the first object not yet returned. *)
Lemma scan_cursor_resume returned rest :
  StronglySorted key_lt (returned ++ rest) ->
  returned <> [] -> rest <> [] ->
  scan_cursor 0 (returned ++ rest) (last_key returned) 0 = Z.of_nat (length returned).
Proof.
  intros Hsorted Hret Hrest.
  destruct rest as [| obj rest]; [congruence |].
  destruct (exists_last Hret) as (front & y & ->).
  rewrite last_key_snoc. apply scan_cursor_found.
  - apply StronglySorted_app_1_l in Hsorted.
    apply Forall_app. split.
    + apply Forall_forall. intros o Ho. apply ltb_asym.
      apply (StronglySorted_app_1_elem_of key_lt front [y] o y Hsorted Ho). by left.
    + constructor; [apply ltb_irrefl | constructor].
  - apply (StronglySorted_app_1_elem_of key_lt (front ++ [y]) (obj :: rest) y obj Hsorted).
    + apply elem_of_app. right. by left.
    + by left.
Qed.

(* ------------------------------------------------------------------ *)
(** ** One page *)

Lemma ListObjectsV2_as_ListObjects fs d bucket prefix cursor maxKeys :
  ListObjectsV2 fs d bucket prefix cursor maxKeys
  = match ListObjects fs d bucket prefix cursor maxKeys with
    | Ok page => Ok (as_V2 page)
    | Err e => Err e
    end.
Proof.
  unfold ListObjectsV2, ListObjects.
  destruct (slice _ _ _); reflexivity.
Qed.

(** The page that [ListObjects] cuts once its start index is known. *)
Lemma ListObjects_page fs d bucket prefix cursor maxKeys (s : nat) :
  let all := listAllObjects fs d bucket prefix in
  1 <= maxKeys ->
  start_index all cursor = Z.of_nat s ->
  (s <= length all)%nat ->
  Z.of_nat s + maxKeys <= max_int64 ->
  ListObjects fs d bucket prefix cursor maxKeys
  = Ok {| Objects := take (Z.to_nat maxKeys) (drop s all);
          IsTruncated := Z.of_nat s + maxKeys <? Z.of_nat (length all);
          NextMarker :=
            if Z.of_nat s + maxKeys <? Z.of_nat (length all)
            then last_key (take (Z.to_nat maxKeys) (drop s all)) else EmptyString;
          NextContinuationToken := EmptyString |}.
Proof.
  intros all Hmk Hstart Hs Hmax. unfold ListObjects. fold all.
  unfold start_index in Hstart.
  replace (maxKeys <=? 0) with false by lia.
  rewrite Hstart.
  rewrite int64_small by (unfold min_int64, max_int64 in *; lia).
  set (len := Z.of_nat (length all)).
  set (endIdx := if Z.of_nat s + maxKeys >? len then len else Z.of_nat s + maxKeys).
  assert (Hend : Z.of_nat s <= endIdx <= len)
    by (unfold endIdx, len; destruct (Z.of_nat s + maxKeys >? Z.of_nat (length all)) eqn:?; lia).
  unfold slice. fold len.
  replace ((0 <=? Z.of_nat s) && (Z.of_nat s <=? endIdx) && (endIdx <=? len)) with true
    by (symmetry; rewrite !andb_true_iff; lia).
  rewrite Nat2Z.id.
  assert (Hpage : take (Z.to_nat (endIdx - Z.of_nat s)) (drop s all)
                  = take (Z.to_nat maxKeys) (drop s all)).
  { unfold endIdx. destruct (Z.of_nat s + maxKeys >? len) eqn:Hc.
    - rewrite !take_ge; [reflexivity | |]; rewrite length_drop; unfold len in *; lia.
    - f_equal. lia. }
  rewrite Hpage. do 2 f_equal.
  destruct (Z.of_nat s + maxKeys <? len) eqn:Ht; [| reflexivity]. simpl.
  replace (0 <? Z.of_nat (length (take (Z.to_nat maxKeys) (drop s all)))) with true;
    [reflexivity |].
  symmetry. apply Z.ltb_lt. rewrite length_take, length_drop. unfold len in *. lia.
Qed.

(* ------------------------------------------------------------------ *)
(** ** Paging through a listing *)

Section Pagination.

Variables (fs : FileSystemStorage) (d : Disk) (bucket prefix : string) (maxKeys : Z).

Let all := listAllObjects fs d bucket prefix.
Let call := fun cursor => ListObjects fs d bucket prefix cursor maxKeys.

Hypothesis Hsorted : StronglySorted key_lt all.
Hypothesis Hnonempty : Forall (fun meta => Key meta <> EmptyString) all.
Hypothesis Hmk : 1 <= maxKeys.
Hypothesis Hmax : maxKeys <= max_int64.
Hypothesis Hlen : 2 * Z.of_nat (length all) <= max_int64.

Lemma start_index_resume returned rest cursor :
  all = returned ++ rest ->
  (returned = [] /\ cursor = EmptyString) \/
  (returned <> [] /\ rest <> [] /\ cursor = last_key returned /\
   Z.of_nat (length returned) + maxKeys <= max_int64) ->
  start_index all cursor = Z.of_nat (length returned).
Proof.
  intros Hall Hcase. unfold start_index.
  destruct Hcase as [[-> ->] | (Hret & Hrest & -> & _)]; [reflexivity |].
  replace (String.eqb (last_key returned) EmptyString) with false.
  - simpl. rewrite Hall. apply scan_cursor_resume; (assumption || by rewrite <- Hall).
  - symmetry. apply String.eqb_neq.
    destruct (exists_last Hret) as (front & y & ->). rewrite last_key_snoc.
    rewrite Forall_forall in Hnonempty. apply Hnonempty.
    rewrite Hall, !elem_of_app. left. right. by left.
Qed.

Lemma paginate_from (n : nat) : forall returned rest cursor,
  all = returned ++ rest ->
  (length rest <= n)%nat ->
  (returned = [] /\ cursor = EmptyString) \/
  (returned <> [] /\ rest <> [] /\ cursor = last_key returned /\
   Z.of_nat (length returned) + maxKeys <= max_int64) ->
  exists pages,
    (forall fuel, (n < fuel)%nat -> paginate call NextMarker fuel cursor = Some pages) /\
    concat (map Objects pages) = rest /\
    Forall (fun page => Z.of_nat (length (Objects page)) <= maxKeys) pages /\
    (forall i page, pages !! i = Some page ->
       start_index all (cursor_before cursor pages i)
       = Z.of_nat (length returned + length (concat (map Objects (take i pages)))) /\
       IsTruncated page
       = (Z.of_nat (length returned
                    + length (concat (map Objects (take i pages)))) + maxKeys
          <? Z.of_nat (length all))).
Proof.
  induction n as [| n IH]; intros returned rest cursor Hall Hn Hcase.
  all: pose proof (start_index_resume returned rest cursor Hall Hcase) as Hstart.
  all: assert (Hs : (length returned <= length all)%nat)
         by (rewrite Hall, length_app; lia).
  all: assert (Hov : Z.of_nat (length returned) + maxKeys <= max_int64)
         by (destruct Hcase as [[-> _] | (_ & _ & _ & H)]; [simpl; lia | exact H]).
  all: pose proof (ListObjects_page fs d bucket prefix cursor maxKeys (length returned)
                     Hmk Hstart Hs Hov) as Hpage.
  all: fold all in Hpage; fold (call cursor) in Hpage.
  all: assert (Hdrop : drop (length returned) all = rest)
         by (rewrite Hall; apply drop_app_length).
  all: rewrite Hdrop in Hpage.
  all: assert (Hlenall : Z.of_nat (length all)
                         = Z.of_nat (length returned) + Z.of_nat (length rest))
         by (rewrite Hall, length_app; lia).
  - (* nothing is left *)
    assert (rest = []) as -> by (destruct rest; [reflexivity | simpl in Hn; lia]).
    simpl in Hlenall.
    replace (Z.of_nat (length returned) + maxKeys <? Z.of_nat (length all))
      with false in Hpage by lia.
    rewrite take_nil in Hpage.
    eexists [_]. split; [| split; [| split]].
    + intros [| fuel] Hfuel; [lia |]. simpl. rewrite Hpage. reflexivity.
    + reflexivity.
    + repeat constructor. simpl. lia.
    + intros [| i] page Hi; [| by destruct i]. injection Hi as <-. simpl.
      rewrite Nat.add_0_r. split; [exact Hstart |].
      symmetry. apply Z.ltb_ge. lia.
  - destruct (Z.of_nat (length returned) + maxKeys <? Z.of_nat (length all)) eqn:Htr.
    + (* a truncated page, and more to come *)
      assert (Hlt : (Z.to_nat maxKeys < length rest)%nat) by lia.
      set (page := take (Z.to_nat maxKeys) rest) in *.
      assert (Hpl : length page = Z.to_nat maxKeys)
        by (unfold page; rewrite length_take; lia).
      assert (Hpne : page <> [])
        by (intros E; rewrite E in Hpl; simpl in Hpl; lia).
      destruct (IH (returned ++ page) (drop (Z.to_nat maxKeys) rest) (last_key page))
        as (pages & Hrun & Hcat & Hsz & Htrunc).
      * rewrite Hall, <- app_assoc. f_equal. unfold page. by rewrite take_drop.
      * rewrite length_drop. lia.
      * right. split; [by destruct returned |]. split.
        { intros E. apply (f_equal length) in E. rewrite length_drop in E.
          simpl in E. lia. }
        split.
        { destruct (exists_last Hpne) as (front & y & Hy). rewrite Hy.
          rewrite app_assoc, !last_key_snoc. reflexivity. }
        rewrite length_app. lia.
      * eexists (_ :: pages). split; [| split; [| split]].
        -- intros [| fuel] Hfuel; [lia |]. simpl. rewrite Hpage. simpl.
           rewrite Hrun by lia. reflexivity.
        -- simpl. rewrite Hcat. apply take_drop.
        -- constructor; [simpl; lia | exact Hsz].
        -- intros [| i] pg Hi.
           ++ injection Hi as <-. simpl. rewrite Nat.add_0_r.
              split; [exact Hstart | symmetry; exact Htr].
           ++ simpl in Hi. destruct (Htrunc i pg Hi) as [Hsi Hti].
              assert (Hcount :
                (length (returned ++ page) + length (concat (map Objects (take i pages)))
                 = length returned
                   + length (page ++ concat (map Objects (take i pages))))%nat)
                by (rewrite !length_app; lia).
              rewrite Hcount in Hsi, Hti. split; [| exact Hti].
              change (take (S i) (?p :: pages)) with (p :: take i pages).
              etransitivity; [| exact Hsi]. f_equal. by destruct i.
    + (* the last page *)
      assert (Hge : (length rest <= Z.to_nat maxKeys)%nat) by lia.
      rewrite take_ge in Hpage by exact Hge.
      eexists [_]. split; [| split; [| split]].
      * intros [| fuel] Hfuel; [lia |]. simpl. rewrite Hpage. reflexivity.
      * simpl. apply app_nil_r.
      * repeat constructor. simpl. lia.
      * intros [| i] pg Hi; [| by destruct i]. injection Hi as <-. simpl.
        rewrite Nat.add_0_r. split; [exact Hstart | symmetry; exact Htr].
Qed.

End Pagination.

Lemma paginate_V2 fs d bucket prefix maxKeys fuel cursor :
  paginate (fun c => ListObjectsV2 fs d bucket prefix c maxKeys) NextContinuationToken
    fuel cursor
  = option_map (map as_V2)
      (paginate (fun c => ListObjects fs d bucket prefix c maxKeys) NextMarker fuel cursor).
Proof.
  revert cursor. induction fuel as [| fuel IH]; intros cursor; [reflexivity |].
  simpl. rewrite ListObjectsV2_as_ListObjects.
  destruct (ListObjects fs d bucket prefix cursor maxKeys) as [page | e]; [| reflexivity].
  simpl. destruct (IsTruncated page); [| reflexivity].
  rewrite IH. by destruct (paginate _ _ fuel (NextMarker page)).
Qed.

Lemma scan_cursor_bounds cursor l i :
  scan_cursor i l cursor 0 = 0 \/
  i <= scan_cursor i l cursor 0 < i + Z.of_nat (length l).
Proof.
  revert i. induction l as [| obj l IH]; intros i; [by left |].
  simpl. destruct (String.ltb cursor (Key obj)); [right; lia |].
  destruct (IH (i + 1)) as [H | H]; [by left | right; lia].
Qed.

Lemma start_index_bounds all cursor :
  0 <= start_index all cursor <= Z.of_nat (length all).
Proof.
  unfold start_index. destruct (negb (String.eqb cursor EmptyString)); [| lia].
  destruct (scan_cursor_bounds cursor all 0); lia.
Qed.

(** Whatever the cursor, a call that does not overflow returns at most
    [maxKeys] objects and is truncated exactly when the start index plus
    [maxKeys] is below the number of listed objects. *)
Lemma ListObjects_any_cursor fs d bucket prefix cursor maxKeys :
  let all := listAllObjects fs d bucket prefix in
  1 <= maxKeys ->
  start_index all cursor + maxKeys <= max_int64 ->
  exists page,
    ListObjects fs d bucket prefix cursor maxKeys = Ok page /\
    ListObjectsV2 fs d bucket prefix cursor maxKeys = Ok (as_V2 page) /\
    Z.of_nat (length (Objects page)) <= maxKeys /\
    IsTruncated page = (start_index all cursor + maxKeys <? Z.of_nat (length all)).
Proof.
  intros all Hmk Hov. pose proof (start_index_bounds all cursor) as Hb.
  pose proof (ListObjects_page fs d bucket prefix cursor maxKeys
                (Z.to_nat (start_index all cursor)) Hmk) as Hpage.
  cbv zeta in Hpage. fold all in Hpage. rewrite Z2Nat.id in Hpage by lia.
  specialize (Hpage eq_refl ltac:(lia) Hov).
  eexists. split; [exact Hpage |]. split; [| split].
  - rewrite ListObjectsV2_as_ListObjects, Hpage. reflexivity.
  - simpl. rewrite length_take. lia.
  - reflexivity.
Qed.

(** C8 (as stated, refuted).  After the operations of
    [Sample.with_empty_key] a bucket holds a record under the empty key
    and a record under the key a.  With maxKeys 1 the first page holds the
    empty key, is truncated, and names the empty string as the next cursor:
    the cursor the listing started with.  The client is sent back to the
    first page and never reaches the key a.  And after the two puts of
    [Sample.twin_keys], at two keys that are not UTF-8 texts, both records
    carry the key that encoding/json wrote for them, the replacement
    character: the listing holds that key twice, and so does the only page
    of a listing with maxKeys 2. *)
Lemma pagination_stuck_on_empty_key :
  map Key (listAllObjects Sample.fs Sample.with_empty_key "b" EmptyString)
    = [EmptyString; "a"%string] /\
  (match ListObjects Sample.fs Sample.with_empty_key "b" EmptyString EmptyString 1 with
   | Ok page => Some (map Key (Objects page), IsTruncated page, NextMarker page)
   | Err _ => None
   end) = Some ([EmptyString], true, EmptyString) /\
  (match ListObjectsV2 Sample.fs Sample.with_empty_key "b" EmptyString EmptyString 1 with
   | Ok page => Some (map Key (Objects page), IsTruncated page, NextContinuationToken page)
   | Err _ => None
   end) = Some ([EmptyString], true, EmptyString) /\
  paginate (fun c => ListObjects Sample.fs Sample.with_empty_key "b" EmptyString c 1)
    NextMarker 64 EmptyString = None /\
  map Key (listAllObjects Sample.fs Sample.twin_keys "b" EmptyString)
    = [replacement; replacement] /\
  (match ListObjects Sample.fs Sample.twin_keys "b" EmptyString EmptyString 2 with
   | Ok page => Some (map Key (Objects page), IsTruncated page)
   | Err _ => None
   end) = Some ([replacement; replacement], false).
Proof. vm_compute. repeat split. Qed.

(** C8 (amended).  For a store whose listing of the bucket under the
    prefix holds no empty key and no key twice, and has fewer than 2^62
    entries, and every maxKeys from 1 to the largest int64: calling
    ListObjects (or ListObjectsV2) from the empty cursor and feeding back
    the returned cursor until a page is not truncated ends, and the pages
    put together are the listing: every listed key exactly once, in
    strictly ascending order, the records visited being those of the
    metadata documents stored below the bucket's metadata directory whose
    key has the prefix.  Each page has at most maxKeys entries; the
    start index computed for its cursor is the number of objects before
    it, and the page is truncated exactly when that index plus maxKeys is
    less than the number of listed objects. *)
Theorem pagination_complete
    (fs : FileSystemStorage) (d : Disk) (bucket prefix : string) (maxKeys : Z) :
  NoDup (map Key (listAllObjects fs d bucket prefix)) ->
  Forall (fun meta => Key meta <> EmptyString) (listAllObjects fs d bucket prefix) ->
  1 <= maxKeys <= max_int64 ->
  2 * Z.of_nat (length (listAllObjects fs d bucket prefix)) <= max_int64 ->
  exists pages,
    (forall fuel, (length (listAllObjects fs d bucket prefix) < fuel)%nat ->
       paginate (fun c => ListObjects fs d bucket prefix c maxKeys) NextMarker
         fuel EmptyString = Some pages /\
       paginate (fun c => ListObjectsV2 fs d bucket prefix c maxKeys) NextContinuationToken
         fuel EmptyString = Some (map as_V2 pages)) /\
    concat (map Objects pages) = listAllObjects fs d bucket prefix /\
    StronglySorted key_lt (concat (map Objects pages)) /\
    NoDup (map Key (concat (map Objects pages))) /\
    (forall meta,
       meta ∈ concat (map Objects pages) <->
       exists path, metas d !! path = Some meta /\
                    under (metadataDir fs bucket) path = true /\
                    kept prefix (path, meta) = true) /\
    Forall (fun page => Z.of_nat (length (Objects page)) <= maxKeys) pages /\
    (forall i page, pages !! i = Some page ->
       start_index (listAllObjects fs d bucket prefix) (cursor_before EmptyString pages i)
       = Z.of_nat (length (concat (map Objects (take i pages)))) /\
       IsTruncated page
       = (start_index (listAllObjects fs d bucket prefix)
            (cursor_before EmptyString pages i) + maxKeys
          <? Z.of_nat (length (listAllObjects fs d bucket prefix)))).
Proof.
  intros Hnd Hne [Hmk Hmax] Hlen.
  set (all := listAllObjects fs d bucket prefix) in *.
  assert (Hsorted : StronglySorted key_lt all)
    by (apply strictly_sorted; [apply listAllObjects_sorted | exact Hnd]).
  destruct (paginate_from fs d bucket prefix maxKeys Hsorted Hne Hmk Hmax Hlen
              (length all) [] all EmptyString eq_refl (le_n _) (or_introl (conj eq_refl eq_refl)))
    as (pages & Hrun & Hcat & Hsz & Htr).
  exists pages. rewrite Hcat.
  split; [| split; [| split; [| split; [| split; [| split]]]]]; try assumption.
  - intros fuel Hfuel. rewrite paginate_V2, (Hrun fuel Hfuel). split; reflexivity.
  - reflexivity.
  - intros meta. apply elem_of_listAllObjects.
  - intros i page Hi. destruct (Htr i page Hi) as [Hs Ht]. simpl in Hs, Ht.
    fold all in Hs, Ht. split; [exact Hs |]. rewrite Hs. exact Ht.
Qed.

(** Three keys paged two at a time. *)
Lemma pagination_complete_witness :
  map Key (listAllObjects Sample.fs Sample.three "b" EmptyString)
    = ["a"; "dir/c"; "k"]%string /\
  exists pages,
    paginate (fun c => ListObjects Sample.fs Sample.three "b" EmptyString c 2) NextMarker
      4 EmptyString = Some pages /\
    map (fun page => map Key (Objects page)) pages = [["a"; "dir/c"]; ["k"]]%string /\
    map IsTruncated pages = [true; false].
Proof.
  assert (Hkeys : map Key (listAllObjects Sample.fs Sample.three "b" EmptyString)
                  = ["a"; "dir/c"; "k"]%string) by (vm_compute; reflexivity).
  split; [exact Hkeys |].
  destruct (pagination_complete Sample.fs Sample.three "b" EmptyString 2)
    as (pages & Hrun & _).
  - rewrite Hkeys. apply (bool_decide_unpack _). vm_compute. exact I.
  - apply Forall_forall. intros meta Hin.
    apply (list_elem_of_fmap_2 Key) in Hin.
    change (Key meta ∈ map Key (listAllObjects Sample.fs Sample.three "b" EmptyString)) in Hin.
    rewrite Hkeys in Hin. intros E. rewrite E in Hin.
    apply list_elem_of_In in Hin. simpl in Hin. intuition discriminate.
  - vm_compute. split; discriminate.
  - vm_compute. discriminate.
  - exists pages. destruct (Hrun 4%nat) as [Hrun1 _].
    + vm_compute. lia.
    + split; [exact Hrun1 |].
      assert (Hpages : Some pages
                = paginate (fun c => ListObjects Sample.fs Sample.three "b" EmptyString c 2)
                    NextMarker 4 EmptyString) by (symmetry; exact Hrun1).
      vm_compute in Hpages. injection Hpages as ->. vm_compute. split; reflexivity.
Defined.

(* ------------------------------------------------------------------ *)
(** ** A cursor at or past the last key *)

(** A cursor that no listed key is greater than leaves the start index at
    0: the call answers as if no cursor had been given. *)
Lemma ListObjects_cursor_past_every_key fs d bucket prefix cursor maxKeys :
  Forall (fun obj => String.ltb cursor (Key obj) = false)
    (listAllObjects fs d bucket prefix) ->
  ListObjects fs d bucket prefix cursor maxKeys
  = ListObjects fs d bucket prefix EmptyString maxKeys /\
  ListObjectsV2 fs d bucket prefix cursor maxKeys
  = ListObjectsV2 fs d bucket prefix EmptyString maxKeys.
Proof.
  intros Hall.
  assert (H : ListObjects fs d bucket prefix cursor maxKeys
              = ListObjects fs d bucket prefix EmptyString maxKeys).
  { unfold ListObjects. rewrite (scan_cursor_none cursor 0 _ 0 Hall).
    by destruct (negb (String.eqb cursor EmptyString)). }
  split; [exact H |]. by rewrite !ListObjectsV2_as_ListObjects, H.
Qed.

(** C5 (the code at the failing input).  Bucket b holds the keys a, dir/c
    and k.  With the cursor k, the last key, or the cursor zzz, past every
    key, ListObjects and ListObjectsV2 return all three objects from index
    0 instead of an empty page. *)
Theorem ListObjects_cursor_past_last_key_restarts :
  (match ListObjects Sample.fs Sample.three "b" EmptyString "k" 10 with
   | Ok page => Some (map Key (Objects page), IsTruncated page)
   | Err _ => None
   end) = Some (["a"; "dir/c"; "k"]%string, false) /\
  (match ListObjectsV2 Sample.fs Sample.three "b" EmptyString "k" 10 with
   | Ok page => Some (map Key (Objects page), IsTruncated page)
   | Err _ => None
   end) = Some (["a"; "dir/c"; "k"]%string, false) /\
  (match ListObjects Sample.fs Sample.three "b" EmptyString "zzz" 10 with
   | Ok page => Some (map Key (Objects page), IsTruncated page)
   | Err _ => None
   end) = Some (["a"; "dir/c"; "k"]%string, false) /\
  (match ListObjects Sample.fs Sample.three "b" EmptyString "dir/c" 10 with
   | Ok page => Some (map Key (Objects page), IsTruncated page)
   | Err _ => None
   end) = Some (["k"]%string, false).
Proof. vm_compute. repeat split. Qed.


(* ------------------------------------------------------------------ *)
(** ** Objects: writing, reading, deleting *)

Lemma objectPath_split fs bucket key :
  objectPath fs bucket key = Join [baseDir fs; bucket; "objects"%string] ++ Join [key].
Proof.
  unfold objectPath.
  change [baseDir fs; bucket; "objects"%string; key]
    with ([baseDir fs; bucket; "objects"%string] ++ [key]).
  apply Join_app.
Qed.

Lemma objectPath_inj fs bucket key1 key2 :
  objectPath fs bucket key1 = objectPath fs bucket key2 -> key1 = key2.
Proof.
  rewrite !objectPath_split. intros H. apply app_inv_head in H.
  unfold Join in H. simpl in H.
  destruct (String.eqb_spec key1 EmptyString), (String.eqb_spec key2 EmptyString);
    simpl in H; congruence.
Qed.

(** X1.  When a PutObject of a byte payload succeeds, HeadObject returns
    the record it returned, as encoding/json writes it, and GetObject the
    payload with that record; when a second PutObject at the key succeeds,
    it has replaced both content and record. *)
Theorem PutObject_then_HeadObject_last_write_wins
    (fs : FileSystemStorage) (d : Disk) (t1 t2 t3 t4 : Z) (bucket key : string)
    (P1 P2 : list byte) (M1 M2 : gmap string string) (C1 C2 : string)
    (m1 m2 : ObjectMetadata) :
  snd (PutObject fs d t1 t2 bucket key (bytes_Reader P1) M1 C1) = Ok m1 ->
  snd (PutObject fs (fst (PutObject fs d t1 t2 bucket key (bytes_Reader P1) M1 C1))
         t3 t4 bucket key (bytes_Reader P2) M2 C2) = Ok m2 ->
  HeadObject fs (fst (PutObject fs d t1 t2 bucket key (bytes_Reader P1) M1 C1)) bucket key
    = Ok (json_ObjectMetadata m1) /\
  GetObject fs (fst (PutObject fs d t1 t2 bucket key (bytes_Reader P1) M1 C1)) bucket key
    = Ok (P1, json_ObjectMetadata m1) /\
  HeadObject fs
    (fst (PutObject fs (fst (PutObject fs d t1 t2 bucket key (bytes_Reader P1) M1 C1))
            t3 t4 bucket key (bytes_Reader P2) M2 C2)) bucket key
    = Ok (json_ObjectMetadata m2) /\
  GetObject fs
    (fst (PutObject fs (fst (PutObject fs d t1 t2 bucket key (bytes_Reader P1) M1 C1))
            t3 t4 bucket key (bytes_Reader P2) M2 C2)) bucket key
    = Ok (P2, json_ObjectMetadata m2) /\
  Key m2 = key /\ Size m2 = Z.of_nat (length P2) /\ ContentType m2 = C2 /\ Metadata m2 = M2.
Proof.
  intros H1 H2.
  destruct (PutObject_ok fs d t1 t2 bucket key P1 M1 C1) as (Hr1 & Hf1 & Hm1).
  set (d1 := fst (PutObject fs d t1 t2 bucket key (bytes_Reader P1) M1 C1)) in *.
  destruct (PutObject_ok fs d1 t3 t4 bucket key P2 M2 C2) as (Hr2 & Hf2 & Hm2).
  rewrite H1 in Hr1. injection Hr1 as Hr1. rewrite H2 in Hr2. injection Hr2 as Hr2.
  rewrite <- Hr1 in Hm1. rewrite <- Hr2 in Hm2.
  unfold HeadObject, GetObject. rewrite Hf1, Hm1, Hf2, Hm2, Hr2. repeat split.
Qed.

(** Two puts at b/k on an empty store. *)
Lemma PutObject_then_HeadObject_last_write_wins_witness :
  snd (PutObject Sample.fs empty_disk 1700000000000000000 1700000000000000001 "b" "k"
         (bytes_Reader Sample.hello) ∅ "text/plain") = Ok Sample.hello_meta /\
  GetObject Sample.fs
    (fst (PutObject Sample.fs Sample.stored_hello 1700000009000000000 1700000009000000001
            "b" "k" (bytes_Reader (bytes_of_string "bye")) ∅ "text/x"))
    "b" "k"
  = Ok (bytes_of_string "bye",
        {| Key := "k"; Size := 3; LastModified := 1700000009000000001;
           ETag := (dquote ++ "3-1700000009" ++ dquote)%string;
           ContentType := "text/x"; Metadata := ∅ |}).
Proof.
  assert (H1 : snd (PutObject Sample.fs empty_disk 1700000000000000000 1700000000000000001
                      "b" "k" (bytes_Reader Sample.hello) ∅ "text/plain")
               = Ok Sample.hello_meta) by (vm_compute; reflexivity).
  set (m2 := {| Key := "k"; Size := 3; LastModified := 1700000009000000001;
                ETag := (dquote ++ "3-1700000009" ++ dquote)%string;
                ContentType := "text/x"; Metadata := ∅ |}).
  assert (H2 : snd (PutObject Sample.fs
                      (fst (PutObject Sample.fs empty_disk 1700000000000000000
                              1700000000000000001 "b" "k" (bytes_Reader Sample.hello) ∅
                              "text/plain"))
                      1700000009000000000 1700000009000000001 "b" "k"
                      (bytes_Reader (bytes_of_string "bye")) ∅ "text/x") = Ok m2)
    by (vm_compute; reflexivity).
  split; [exact H1 |].
  destruct (PutObject_then_HeadObject_last_write_wins Sample.fs empty_disk
              1700000000000000000 1700000000000000001
              1700000009000000000 1700000009000000001 "b" "k"
              Sample.hello (bytes_of_string "bye") ∅ ∅ "text/plain" "text/x"
              Sample.hello_meta m2 H1 H2) as (_ & _ & _ & Hget & _).
  exact Hget.
Defined.

Lemma PutObject_files_other fs d t1 t2 bucket key data M C path :
  path <> objectPath fs bucket key ->
  files (fst (PutObject fs d t1 t2 bucket key data M C)) !! path = files d !! path.
Proof.
  intros Hne. unfold PutObject, io_Copy. destruct (rd_fails data); simpl;
    rewrite !lookup_insert_ne by congruence; reflexivity.
Qed.

Lemma PutObject_metas_other fs d t1 t2 bucket key data M C path :
  path <> metadataPath fs bucket key ->
  metas (fst (PutObject fs d t1 t2 bucket key data M C)) !! path = metas d !! path.
Proof.
  intros Hne. unfold PutObject, io_Copy. destruct (rd_fails data); simpl;
    [reflexivity |]. rewrite lookup_insert_ne by congruence. reflexivity.
Qed.

(** X2.  A PutObject at one plain key (a name that is not empty, holds no
    separator and is neither the dot nor the double dot), whether it
    succeeds or fails, leaves every other plain key of the bucket as it
    was: GetObject, HeadObject and GetObjectRange answer there as
    before. *)
Theorem PutObject_leaves_other_keys
    (fs : FileSystemStorage) (d : Disk) (t1 t2 : Z) (bucket key key' : string)
    (data : Reader) (M : gmap string string) (C : string) :
  plain key = true -> plain key' = true -> key' <> key ->
  GetObject fs (fst (PutObject fs d t1 t2 bucket key data M C)) bucket key'
    = GetObject fs d bucket key' /\
  HeadObject fs (fst (PutObject fs d t1 t2 bucket key data M C)) bucket key'
    = HeadObject fs d bucket key' /\
  (forall s e,
     GetObjectRange fs (fst (PutObject fs d t1 t2 bucket key data M C)) bucket key' s e
     = GetObjectRange fs d bucket key' s e).
Proof.
  intros _ _ Hne.
  assert (Hf : files (fst (PutObject fs d t1 t2 bucket key data M C))
                 !! objectPath fs bucket key' = files d !! objectPath fs bucket key').
  { apply PutObject_files_other. intros E. by apply objectPath_inj in E. }
  assert (Hm : metas (fst (PutObject fs d t1 t2 bucket key data M C))
                 !! metadataPath fs bucket key' = metas d !! metadataPath fs bucket key').
  { apply PutObject_metas_other. intros E. by apply metadataPath_inj in E. }
  unfold GetObject, HeadObject, GetObjectRange. rewrite Hf, Hm. repeat split.
Qed.

(** The key a is put next to the sample object and the sample object is
    read back. *)
Lemma PutObject_leaves_other_keys_witness :
  plain "a" = true /\ plain "k" = true /\ "k"%string <> "a"%string /\
  GetObject Sample.fs
    (fst (PutObject Sample.fs Sample.stored_hello 5 6 "b" "a" Sample.broken ∅ "text/plain"))
    "b" "k" = Ok (Sample.hello, Sample.hello_meta).
Proof.
  split; [reflexivity |]. split; [reflexivity |]. split; [discriminate |].
  rewrite (proj1 (PutObject_leaves_other_keys Sample.fs Sample.stored_hello 5 6 "b" "a" "k"
                    Sample.broken ∅ "text/plain" eq_refl eq_refl ltac:(discriminate))).
  vm_compute. reflexivity.
Defined.

(** X3.  When HeadObject reports no object at a key that holds no
    double-dot element, and the stream of a PutObject at that key fails so that PutObject reports the
    write failure, the bytes copied stay behind without a record:
    HeadObject still reports the object as not found, GetObject fails on
    the missing metadata, and the listing of the bucket does not
    change. *)
Theorem PutObject_failure_on_fresh_key
    (fs : FileSystemStorage) (d : Disk) (t1 t2 : Z) (bucket key : string)
    (data : Reader) (M : gmap string string) (C : string) :
  inside key = true ->
  HeadObject fs d bucket key = Err ErrObjectNotFound ->
  rd_fails data = true ->
  snd (PutObject fs d t1 t2 bucket key data M C) = Err ErrWriteObjectData ->
  HeadObject fs (fst (PutObject fs d t1 t2 bucket key data M C)) bucket key
    = Err ErrObjectNotFound /\
  GetObject fs (fst (PutObject fs d t1 t2 bucket key data M C)) bucket key
    = Err ErrReadMetadata /\
  files (fst (PutObject fs d t1 t2 bucket key data M C)) !! objectPath fs bucket key
    = Some (rd_bytes data) /\
  (forall prefix,
     listAllObjects fs (fst (PutObject fs d t1 t2 bucket key data M C)) bucket prefix
     = listAllObjects fs d bucket prefix).
Proof.
  intros _ Hhead Hfail _.
  assert (Hnone : metas d !! metadataPath fs bucket key = None).
  { unfold HeadObject in Hhead.
    destruct (metas d !! metadataPath fs bucket key); [discriminate | reflexivity]. }
  unfold PutObject, io_Copy. rewrite Hfail. simpl.
  unfold HeadObject, GetObject. simpl. rewrite Hnone, !lookup_insert_eq.
  repeat split.
Qed.

(** The broken reader on a key of an empty store. *)
Lemma PutObject_failure_on_fresh_key_witness :
  HeadObject Sample.fs empty_disk "b" "new" = Err ErrObjectNotFound /\
  snd (PutObject Sample.fs empty_disk 1 2 "b" "new" Sample.broken ∅ "text/plain")
    = Err ErrWriteObjectData /\
  HeadObject Sample.fs
    (fst (PutObject Sample.fs empty_disk 1 2 "b" "new" Sample.broken ∅ "text/plain"))
    "b" "new" = Err ErrObjectNotFound /\
  GetObject Sample.fs
    (fst (PutObject Sample.fs empty_disk 1 2 "b" "new" Sample.broken ∅ "text/plain"))
    "b" "new" = Err ErrReadMetadata /\
  files (fst (PutObject Sample.fs empty_disk 1 2 "b" "new" Sample.broken ∅ "text/plain"))
    !! objectPath Sample.fs "b" "new" = Some (bytes_of_string "HE").
Proof.
  split; [reflexivity |]. split; [reflexivity |].
  destruct (PutObject_failure_on_fresh_key Sample.fs empty_disk 1 2 "b" "new" Sample.broken
              ∅ "text/plain" eq_refl eq_refl eq_refl eq_refl) as (Hh & Hg & Hf & _).
  split; [exact Hh |]. split; [exact Hg |]. exact Hf.
Defined.

(* ------------------------------------------------------------------ *)
(** ** Ranges as served *)

(** X6.  Whatever bounds are passed, when GetObjectRange succeeds on a
    stored object the bounds it returns lie within the object, the bytes
    are exactly those between the returned bounds, their number is
    end - start + 1, and the metadata is the stored record. *)
Theorem GetObjectRange_serves_what_it_reports
    (fs : FileSystemStorage) (d : Disk) (bucket key : string)
    (P : list byte) (meta meta' : ObjectMetadata) (s e start end_ : Z) (bs : list byte) :
  files d !! objectPath fs bucket key = Some P ->
  metas d !! metadataPath fs bucket key = Some meta ->
  Z.of_nat (length P) <= max_int64 ->
  GetObjectRange fs d bucket key s e = Ok (bs, meta', start, end_) ->
  0 <= start /\ start <= end_ /\ end_ < Z.of_nat (length P) /\
  bs = take (Z.to_nat (end_ - start + 1)) (drop (Z.to_nat start) P) /\
  Z.of_nat (length bs) = end_ - start + 1 /\
  meta' = meta /\
  (0 <= s -> start = s) /\ (0 <= e < Z.of_nat (length P) -> end_ = e).
Proof.
  intros Hf Hm Hn Hcall.
  rewrite (GetObjectRange_unfold fs d bucket key P meta s e Hf Hm Hn) in Hcall.
  cbv zeta in Hcall.
  destruct (adjusted_start s >? adjusted_end (Z.of_nat (length P)) e) eqn:Hc;
    [discriminate |].
  injection Hcall as <- <- <- <-.
  assert (H0 : 0 <= adjusted_start s)
    by (unfold adjusted_start; destruct (s <? 0) eqn:?; lia).
  assert (H1 : adjusted_end (Z.of_nat (length P)) e < Z.of_nat (length P))
    by (unfold adjusted_end;
        destruct (e <? 0) eqn:?, (e >=? Z.of_nat (length P)) eqn:?; simpl; lia).
  split; [exact H0 |]. split; [lia |]. split; [exact H1 |]. split; [reflexivity |].
  split; [rewrite length_take, length_drop; lia |]. split; [reflexivity |]. split.
  - intros Hs. unfold adjusted_start. destruct (s <? 0) eqn:?; lia.
  - intros He. unfold adjusted_end.
    destruct (e <? 0) eqn:?, (e >=? Z.of_nat (length P)) eqn:?; simpl; lia.
Qed.

(** A start below zero and an end past the object, on the five bytes of
    the sample object. *)
Lemma GetObjectRange_serves_what_it_reports_witness :
  GetObjectRange Sample.fs Sample.stored_hello "b" "k" (-3) 99
    = Ok (Sample.hello, Sample.hello_meta, 0, 4) /\
  (0 <= 0 /\ 0 <= 4 /\ 4 < Z.of_nat (length Sample.hello)).
Proof.
  assert (H : GetObjectRange Sample.fs Sample.stored_hello "b" "k" (-3) 99
              = Ok (Sample.hello, Sample.hello_meta, 0, 4)) by (vm_compute; reflexivity).
  split; [exact H |].
  destruct (GetObjectRange_serves_what_it_reports Sample.fs Sample.stored_hello "b" "k"
              Sample.hello Sample.hello_meta Sample.hello_meta (-3) 99 0 4 Sample.hello)
    as (H0 & H1 & H2 & _); [vm_compute; reflexivity .. | | exact H | ].
  - vm_compute. discriminate.
  - repeat split; assumption.
Defined.

(** X7.  For a stored object that is not empty, the range from 0 with the
    end left open (end -1) is the whole object: GetObjectRange returns
    what GetObject returns, with the bounds 0 and size - 1.  For a stored
    object that is empty, GetObject succeeds while GetObjectRange fails
    for every range. *)
Theorem GetObjectRange_whole_object
    (fs : FileSystemStorage) (d : Disk) (bucket key : string)
    (P : list byte) (meta : ObjectMetadata) :
  files d !! objectPath fs bucket key = Some P ->
  metas d !! metadataPath fs bucket key = Some meta ->
  Z.of_nat (length P) <= max_int64 ->
  GetObject fs d bucket key = Ok (P, meta) /\
  (P <> [] ->
   GetObjectRange fs d bucket key 0 (-1) = Ok (P, meta, 0, Z.of_nat (length P) - 1)) /\
  (P = [] -> forall s e, GetObjectRange fs d bucket key s e = Err ErrInvalidRange).
Proof.
  intros Hf Hm Hn. split; [unfold GetObject; by rewrite Hf, Hm |]. split.
  - intros Hne. rewrite (GetObjectRange_unfold fs d bucket key P meta 0 (-1) Hf Hm Hn).
    assert (0 < Z.of_nat (length P)) by (destruct P; [congruence | simpl; lia]).
    cbv zeta. unfold adjusted_start, adjusted_end. simpl.
    replace (0 >? Z.of_nat (length P) - 1) with false by lia.
    change (drop (Z.to_nat 0) P) with P.
    rewrite take_ge by lia. reflexivity.
  - intros -> s e. rewrite (GetObjectRange_unfold fs d bucket key [] meta s e Hf Hm Hn).
    cbv zeta.
    assert (Hgt : adjusted_start s > adjusted_end (Z.of_nat (length (@nil byte))) e)
      by (unfold adjusted_start, adjusted_end;
          change (Z.of_nat (length (@nil byte))) with 0;
          destruct (s <? 0) eqn:?, (e <? 0) eqn:?, (e >=? 0) eqn:?; simpl; lia).
    apply Z.gtb_gt in Hgt. rewrite Hgt. reflexivity.
Qed.

(** The whole of the sample object. *)
Lemma GetObjectRange_whole_object_witness :
  files Sample.stored_hello !! objectPath Sample.fs "b" "k" = Some Sample.hello /\
  GetObjectRange Sample.fs Sample.stored_hello "b" "k" 0 (-1)
    = Ok (Sample.hello, Sample.hello_meta, 0, Z.of_nat (length Sample.hello) - 1).
Proof.
  split; [vm_compute; reflexivity |].
  apply (GetObjectRange_whole_object Sample.fs Sample.stored_hello "b" "k" Sample.hello
           Sample.hello_meta).
  - vm_compute. reflexivity.
  - vm_compute. reflexivity.
  - vm_compute. discriminate.
  - discriminate.
Defined.

(* ------------------------------------------------------------------ *)
(** ** Pages of a listing *)

Lemma StronglySorted_take_drop {A} (R : relation A) (l : list A) (n m : nat) :
  StronglySorted R l -> StronglySorted R (take n (drop m l)).
Proof.
  intros H. rewrite <- (take_drop m l) in H. apply StronglySorted_app_1_r in H.
  rewrite <- (take_drop n (drop m l)) in H. by apply StronglySorted_app_1_l in H.
Qed.

(** X8.  Whenever ListObjects returns a page, the page is a run of
    consecutive entries of the sorted, prefix-filtered listing: its keys
    ascend and all have the prefix.  A page that is not truncated names no
    next cursor, a truncated one names the key of its last object, and
    ListObjectsV2 returns the same page with the cursor in the token
    field. *)
Theorem ListObjects_page_shape
    (fs : FileSystemStorage) (d : Disk) (bucket prefix cursor : string) (maxKeys : Z)
    (page : ListResult) :
  ListObjects fs d bucket prefix cursor maxKeys = Ok page ->
  (exists before after,
     listAllObjects fs d bucket prefix = before ++ Objects page ++ after) /\
  StronglySorted key_le (Objects page) /\
  Forall (fun meta => prefix = EmptyString \/ HasPrefix (Key meta) prefix = true)
    (Objects page) /\
  (IsTruncated page = false -> NextMarker page = EmptyString) /\
  (IsTruncated page = true -> Objects page <> [] ->
   NextMarker page = last_key (Objects page)) /\
  ListObjectsV2 fs d bucket prefix cursor maxKeys = Ok (as_V2 page).
Proof.
  intros Hcall.
  assert (HV2 : ListObjectsV2 fs d bucket prefix cursor maxKeys = Ok (as_V2 page))
    by (rewrite ListObjectsV2_as_ListObjects, Hcall; reflexivity).
  unfold ListObjects in Hcall.
  set (all := listAllObjects fs d bucket prefix) in *.
  destruct (slice all _ _) as [pageObjects |] eqn:Hslice; [| discriminate].
  injection Hcall as <-. simpl.
  unfold slice in Hslice.
  destruct (_ && _ && _); [| discriminate]. injection Hslice as Hslice.
  split; [| split; [| split; [| split; [| split]]]].
  - eexists (take _ all), (drop _ (drop _ all)).
    rewrite <- Hslice, take_drop, take_drop. reflexivity.
  - rewrite <- Hslice. apply StronglySorted_take_drop, listAllObjects_sorted.
  - apply Forall_forall. intros meta Hin.
    assert (Hall : meta ∈ all).
    { rewrite <- Hslice in Hin. by apply subseteq_take, subseteq_drop in Hin. }
    apply elem_of_listAllObjects in Hall as (path & _ & _ & Hk).
    unfold kept in Hk. simpl in Hk. apply andb_true_iff in Hk as [_ Hk].
    apply orb_true_iff in Hk as [Hk | Hk]; [left; by apply String.eqb_eq | by right].
  - intros ->. reflexivity.
  - intros -> Hne. simpl.
    replace (0 <? Z.of_nat (length pageObjects)) with true; [reflexivity |].
    symmetry. apply Z.ltb_lt. destruct pageObjects; [congruence | simpl; lia].
  - exact HV2.
Qed.

(** The first page of two of the three sample keys. *)
Lemma ListObjects_page_shape_witness :
  exists page,
    ListObjects Sample.fs Sample.three "b" EmptyString EmptyString 2 = Ok page /\
    map Key (Objects page) = ["a"; "dir/c"]%string /\
    StronglySorted key_le (Objects page) /\
    NextMarker page = last_key (Objects page).
Proof.
  destruct (ListObjects Sample.fs Sample.three "b" EmptyString EmptyString 2)
    as [page | e] eqn:Hcall; [| vm_compute in Hcall; discriminate].
  exists page. split; [reflexivity |].
  destruct (ListObjects_page_shape Sample.fs Sample.three "b" EmptyString EmptyString 2
              page Hcall) as (_ & Hsorted & _ & _ & Hnext & _).
  assert (Hpage : Ok page = ListObjects Sample.fs Sample.three "b" EmptyString EmptyString 2)
    by (symmetry; exact Hcall).
  vm_compute in Hpage. injection Hpage as Hpage.
  split; [rewrite Hpage; reflexivity |]. split; [exact Hsorted |].
  apply Hnext; rewrite Hpage; [reflexivity | discriminate].
Defined.

Lemma ltb_le_trans (c a b : string) :
  String.ltb c a = true -> String.le a b -> String.ltb c b = true.
Proof.
  rewrite !ltb_leb. intros Hca Hab.
  destruct (String.leb b c) eqn:Hbc; [| reflexivity].
  assert (Hac : String.le a c).
  { etransitivity; [exact Hab |]. unfold String.le. by rewrite Hbc. }
  unfold String.le in Hac. destruct (String.leb a c); [discriminate | done].
Qed.

(** A sorted listing falls into the keys not greater than the cursor and,
    after them, the keys greater than it. *)
Lemma sorted_split_at_cursor (cursor : string) (l : list ObjectMetadata) :
  StronglySorted key_le l ->
  exists l1,
    l = l1 ++ List.filter (fun obj => String.ltb cursor (Key obj)) l /\
    Forall (fun obj => String.ltb cursor (Key obj) = false) l1.
Proof.
  induction 1 as [| a l Hl IH Ha].
  - exists []. split; [reflexivity | constructor].
  - simpl. destruct (String.ltb cursor (Key a)) eqn:Hc.
    + exists []. split; [| constructor]. simpl. f_equal.
      symmetry. apply forallb_filter_id. apply forallb_forall.
      intros b Hb. rewrite Forall_forall in Ha.
      apply (ltb_le_trans cursor (Key a)); [exact Hc |].
      apply key_le_iff, Ha. by apply list_elem_of_In.
    + destruct IH as (l1 & Hl1 & Hall). exists (a :: l1).
      split; [simpl; by rewrite <- Hl1 | by constructor].
Qed.

(** X9.  With a cursor that is not empty and that some listed key is
    greater than, a maxKeys of at least 1, and a listing whose number of
    entries plus maxKeys does not exceed the largest int64, ListObjects
    returns the first maxKeys of the listed objects whose keys are greater
    than the cursor, in ascending order: no such object is skipped and
    none at or below the cursor is returned, whether or not the cursor is
    a listed key.  The page is truncated exactly when more than maxKeys
    such objects exist. *)
Theorem ListObjects_resumes_after_cursor
    (fs : FileSystemStorage) (d : Disk) (bucket prefix cursor : string) (maxKeys : Z) :
  cursor <> EmptyString ->
  1 <= maxKeys ->
  Z.of_nat (length (listAllObjects fs d bucket prefix)) + maxKeys <= max_int64 ->
  List.filter (fun obj => String.ltb cursor (Key obj)) (listAllObjects fs d bucket prefix)
    <> [] ->
  exists page,
    ListObjects fs d bucket prefix cursor maxKeys = Ok page /\
    Objects page
    = take (Z.to_nat maxKeys)
        (List.filter (fun obj => String.ltb cursor (Key obj))
           (listAllObjects fs d bucket prefix)) /\
    IsTruncated page
    = (maxKeys <? Z.of_nat (length (List.filter (fun obj => String.ltb cursor (Key obj))
                                      (listAllObjects fs d bucket prefix)))).
Proof.
  intros Hcur Hmk Hov Hsome.
  set (all := listAllObjects fs d bucket prefix) in *.
  set (greater := List.filter (fun obj => String.ltb cursor (Key obj)) all) in *.
  destruct (sorted_split_at_cursor cursor all (listAllObjects_sorted fs d bucket prefix))
    as (l1 & Hsplit & Hl1).
  fold greater in Hsplit.
  assert (Hlen : length all = (length l1 + length greater)%nat)
    by (rewrite Hsplit at 1; apply length_app).
  assert (Hstart : start_index all cursor = Z.of_nat (length l1)).
  { unfold start_index. replace (String.eqb cursor EmptyString) with false
      by (symmetry; by apply String.eqb_neq).
    simpl. rewrite Hsplit. destruct greater as [| obj rest] eqn:Hg; [congruence |].
    apply scan_cursor_found; [exact Hl1 |].
    assert (Hin : In obj (List.filter (fun obj => String.ltb cursor (Key obj)) all))
      by (fold greater; rewrite Hg; by left).
    apply List.filter_In in Hin. tauto. }
  pose proof (ListObjects_page fs d bucket prefix cursor maxKeys (length l1) Hmk Hstart)
    as Hpage.
  cbv zeta in Hpage. fold all in Hpage.
  specialize (Hpage ltac:(lia) ltac:(lia)).
  assert (Hdrop : drop (length l1) all = greater)
    by (rewrite Hsplit at 1; apply drop_app_length).
  rewrite Hdrop in Hpage.
  eexists. split; [exact Hpage |]. split; [reflexivity |].
  simpl. rewrite Hlen.
  destruct (maxKeys <? Z.of_nat (length greater)) eqn:Hc.
  - apply Z.ltb_lt. lia.
  - apply Z.ltb_ge. lia.
Qed.

(** The cursor b, which is no key of the sample bucket: the keys after it
    are dir/c and k. *)
Lemma ListObjects_resumes_after_cursor_witness :
  exists page,
    ListObjects Sample.fs Sample.three "b" EmptyString "b" 1 = Ok page /\
    map Key (Objects page) = ["dir/c"]%string /\
    IsTruncated page = true.
Proof.
  destruct (ListObjects_resumes_after_cursor Sample.fs Sample.three "b" EmptyString "b" 1)
    as (page & Hcall & Hobjs & Htr).
  - discriminate.
  - lia.
  - vm_compute. discriminate.
  - vm_compute. discriminate.
  - exists page. split; [exact Hcall |]. rewrite Hobjs, Htr. vm_compute. split; reflexivity.
Defined.

(** X10.  A maxKeys of zero or less stands for 1000: the call answers as
    with maxKeys 1000, and a listing of at most 1000 objects comes back
    whole from the empty cursor, not truncated and with no next cursor. *)
Theorem ListObjects_default_maxKeys
    (fs : FileSystemStorage) (d : Disk) (bucket prefix cursor : string) (maxKeys : Z) :
  maxKeys <= 0 ->
  ListObjects fs d bucket prefix cursor maxKeys
    = ListObjects fs d bucket prefix cursor 1000 /\
  ListObjectsV2 fs d bucket prefix cursor maxKeys
    = ListObjectsV2 fs d bucket prefix cursor 1000 /\
  ((length (listAllObjects fs d bucket prefix) <= 1000)%nat ->
   ListObjects fs d bucket prefix EmptyString maxKeys
   = Ok {| Objects := listAllObjects fs d bucket prefix; IsTruncated := false;
           NextMarker := EmptyString; NextContinuationToken := EmptyString |}).
Proof.
  intros Hmk.
  assert (H : forall c, ListObjects fs d bucket prefix c maxKeys
                        = ListObjects fs d bucket prefix c 1000).
  { intros c. unfold ListObjects. replace (maxKeys <=? 0) with true by lia. reflexivity. }
  split; [apply H |]. split; [by rewrite !ListObjectsV2_as_ListObjects, H |].
  intros Hlen. rewrite H.
  pose proof (ListObjects_page fs d bucket prefix EmptyString 1000 0) as Hpage.
  cbv zeta in Hpage.
  specialize (Hpage ltac:(lia) eq_refl ltac:(lia) ltac:(unfold max_int64; lia)).
  rewrite Hpage. change (drop 0 ?l) with l. rewrite take_ge by lia.
  rewrite (proj2 (Z.ltb_ge _ _)) by lia. reflexivity.
Qed.

(** maxKeys 0 on the three sample keys. *)
Lemma ListObjects_default_maxKeys_witness :
  0 <= 0 /\
  ListObjects Sample.fs Sample.three "b" EmptyString "a" 0
    = ListObjects Sample.fs Sample.three "b" EmptyString "a" 1000.
Proof.
  split; [lia |].
  apply (ListObjects_default_maxKeys Sample.fs Sample.three "b" EmptyString "a" 0). lia.
Defined.

Lemma int64_wraps z : max_int64 < z <= 2 * max_int64 + 1 -> int64 z = z - 2 ^ 64.
Proof.
  unfold int64, max_int64. intros H.
  replace (z + 2 ^ 63) with (z - 2 ^ 63 + 1 * 2 ^ 64) by lia.
  rewrite Z.mod_add by lia. rewrite Z.mod_small by lia. lia.
Qed.

(** X11.  When the start index found for the cursor plus maxKeys exceeds
    the largest int, the end index wraps around below zero and the slice
    expression panics: ListObjects and ListObjectsV2 return no page. *)
Theorem ListObjects_panics_when_end_index_wraps
    (fs : FileSystemStorage) (d : Disk) (bucket prefix cursor : string) (maxKeys : Z) :
  1 <= maxKeys <= max_int64 ->
  Z.of_nat (length (listAllObjects fs d bucket prefix)) <= max_int64 ->
  start_index (listAllObjects fs d bucket prefix) cursor + maxKeys > max_int64 ->
  ListObjects fs d bucket prefix cursor maxKeys = Err PanicSliceBounds /\
  ListObjectsV2 fs d bucket prefix cursor maxKeys = Err PanicSliceBounds.
Proof.
  intros [Hmk Hmax] Hlen Hov.
  assert (H : ListObjects fs d bucket prefix cursor maxKeys = Err PanicSliceBounds).
  { pose proof (start_index_bounds (listAllObjects fs d bucket prefix) cursor) as Hb.
    unfold ListObjects. replace (maxKeys <=? 0) with false by lia.
    set (all := listAllObjects fs d bucket prefix) in *.
    change (if negb (String.eqb cursor EmptyString) then scan_cursor 0 all cursor 0 else 0)
      with (start_index all cursor).
    set (s := start_index all cursor) in *.
    rewrite int64_wraps by lia.
    replace (s + maxKeys - 2 ^ 64 >? Z.of_nat (length all)) with false
      by (unfold max_int64 in *; lia).
    unfold slice.
    replace (s <=? s + maxKeys - 2 ^ 64) with false by (unfold max_int64 in *; lia).
    rewrite andb_false_r. reflexivity. }
  split; [exact H |]. by rewrite ListObjectsV2_as_ListObjects, H.
Qed.

(** The cursor a on the three sample keys resumes at index 1; with the
    largest maxKeys the end index wraps. *)
Lemma ListObjects_panics_when_end_index_wraps_witness :
  start_index (listAllObjects Sample.fs Sample.three "b" EmptyString) "a" = 1 /\
  ListObjects Sample.fs Sample.three "b" EmptyString "a" max_int64 = Err PanicSliceBounds.
Proof.
  split; [vm_compute; reflexivity |].
  apply (ListObjects_panics_when_end_index_wraps Sample.fs Sample.three "b" EmptyString
           "a" max_int64).
  - vm_compute. split; discriminate.
  - vm_compute. discriminate.
  - vm_compute. reflexivity.
Defined.

(* ------------------------------------------------------------------ *)
(** ** The decimal parsers and printers *)

Lemma uint_value_ge (u : Decimal.uint) (n : Z) :
  0 <= n -> n <= Server.uint_value u n.
Proof.
  revert n. induction u; intros n Hn; simpl; try lia;
    (etransitivity; [| apply IHu; lia]); lia.
Qed.

Lemma ParseUint_loop_step (c : ascii) (rest : string) (n d : Z) :
  Server.digit_value c = Some d -> 0 <= d -> n * 10 + d <= Server.maxUint64 ->
  Server.ParseUint_loop (String c rest) n = Server.ParseUint_loop rest (n * 10 + d).
Proof.
  intros Hc Hd Hn. cbn [Server.ParseUint_loop]. rewrite Hc.
  change (Server.maxUint64 / 10 + 1) with 1844674407370955162.
  unfold Server.maxUint64 in *.
  rewrite geb_false by lia. rewrite gtb_false by lia. reflexivity.
Qed.

Lemma ParseUint_loop_digits (u : Decimal.uint) (n : Z) :
  0 <= n -> Server.uint_value u n <= Server.maxUint64 ->
  Server.ParseUint_loop (DecimalString.NilEmpty.string_of_uint u) n
  = Server.Parsed (Server.uint_value u n).
Proof.
  revert n.
  induction u; intros n Hn Hv; cbn [DecimalString.NilEmpty.string_of_uint Server.uint_value] in *;
    [reflexivity | ..].
  all: match type of Hv with Server.uint_value _ ?m <= _ =>
         pose proof (uint_value_ge u m ltac:(lia)) as Hge end.
  all: erewrite ParseUint_loop_step; [| cbv; reflexivity | lia | unfold Server.maxUint64 in *; lia].
  all: rewrite ?Z.add_0_r; apply IHu; lia.
Qed.

Lemma uint_value_acc (u : Decimal.uint) (acc : positive) :
  Server.uint_value u (Z.pos acc) = Z.pos (Pos.of_uint_acc u acc).
Proof.
  revert acc.
  induction u; intros acc; cbn [Server.uint_value Pos.of_uint_acc];
    [reflexivity | ..]; rewrite <- IHu; f_equal; lia.
Qed.

Lemma uint_value_0 (u : Decimal.uint) :
  Server.uint_value u 0 = Z.of_N (Pos.of_uint u).
Proof.
  induction u; cbn [Server.uint_value Pos.of_uint]; [reflexivity | exact IHu | ..];
    change (0 * 10 + ?k) with k; match goal with |- Server.uint_value _ (Z.pos ?k) = _ =>
      rewrite (uint_value_acc u k) end; reflexivity.
Qed.

(** What [%d] prints for a number that is not negative is a string of
    digits, not empty, that denotes the number. *)
Lemma fmt_d_nonneg (z : Z) :
  0 <= z ->
  exists u, u <> Decimal.Nil /\
            fmt_d z = DecimalString.NilEmpty.string_of_uint u /\
            Server.uint_value u 0 = z.
Proof.
  intros Hz. destruct z as [| p | p]; [| | lia].
  - exists (Decimal.D0 Decimal.Nil). split; [discriminate |]. split; reflexivity.
  - exists (Pos.to_uint p). split; [apply DecimalPos.Unsigned.to_uint_nonnil |]. split.
    + unfold fmt_d. cbn [Z.to_int DecimalString.NilZero.string_of_int].
      unfold DecimalString.NilZero.string_of_uint.
      pose proof (DecimalPos.Unsigned.to_uint_nonnil p) as Hn.
      destruct (Pos.to_uint p); [congruence | reflexivity ..].
    + rewrite uint_value_0, DecimalPos.Unsigned.of_to. reflexivity.
Qed.

Lemma fmt_d_neg (z : Z) : z < 0 -> fmt_d z = String "-"%char (fmt_d (- z)).
Proof.
  intros Hz. destruct z as [| p | p]; [lia | lia |]. reflexivity.
Qed.

Lemma digits_first (u : Decimal.uint) :
  u <> Decimal.Nil ->
  exists c rest, DecimalString.NilEmpty.string_of_uint u = String c rest /\
                 Ascii.eqb c "+"%char = false /\ Ascii.eqb c "-"%char = false.
Proof.
  intros Hu. destruct u; [congruence | ..]; eexists _, _; (split; [reflexivity |]);
    split; reflexivity.
Qed.

Lemma ParseUint_loop_zeros (k : nat) (s : string) :
  Server.ParseUint_loop (zeros k ++ s) 0 = Server.ParseUint_loop s 0.
Proof.
  induction k as [| k IH]; [reflexivity |].
  cbn [zeros]. rewrite append_cons, (ParseUint_loop_step _ _ 0 0); [exact IH | reflexivity | lia |].
  unfold Server.maxUint64. lia.
Qed.

Lemma ParseInt_unsigned (c : ascii) (rest : string) (v : Z) :
  Ascii.eqb c "+"%char = false -> Ascii.eqb c "-"%char = false ->
  Server.ParseUint_loop (String c rest) 0 = Server.Parsed v -> v < 2 ^ 63 ->
  Server.ParseInt (String c rest) = Server.Parsed v.
Proof.
  intros Hp Hm Hv Hlt. unfold Server.ParseInt. rewrite Hp, Hm.
  unfold Server.ParseUint. rewrite Hv.
  cbn [negb andb]. rewrite geb_false by lia. reflexivity.
Qed.

Lemma ParseInt_negative (c : ascii) (rest : string) (v : Z) :
  Server.ParseUint_loop (String c rest) 0 = Server.Parsed v -> v <= 2 ^ 63 ->
  Server.ParseInt (String "-"%char (String c rest)) = Server.Parsed (- v).
Proof.
  intros Hv Hle. unfold Server.ParseInt.
  change (Ascii.eqb "-"%char "+"%char) with false.
  change (Ascii.eqb "-"%char "-"%char) with true.
  unfold Server.ParseUint. rewrite Hv.
  cbn [negb andb]. rewrite gtb_false by lia. reflexivity.
Qed.

(** [strconv.ParseInt] reads back what [%d] prints, also behind a sign
    and leading zeros. *)
Lemma ParseInt_padded (k : nat) (z : Z) :
  min_int64 <= z <= max_int64 ->
  Server.ParseInt ((if z <? 0 then "-" else EmptyString) ++ zeros k ++ fmt_d (Z.abs z))
  = Server.Parsed z.
Proof.
  unfold min_int64, max_int64. intros Hz.
  destruct (fmt_d_nonneg (Z.abs z) ltac:(lia)) as (u & Hu & Hfmt & Hval).
  rewrite Hfmt.
  assert (Hloop : Server.ParseUint_loop
                    (zeros k ++ DecimalString.NilEmpty.string_of_uint u) 0
                  = Server.Parsed (Z.abs z)).
  { rewrite ParseUint_loop_zeros, ParseUint_loop_digits, Hval; [reflexivity | lia |].
    rewrite Hval. unfold Server.maxUint64. lia. }
  assert (Hfirst : exists c rest,
             (zeros k ++ DecimalString.NilEmpty.string_of_uint u)%string = String c rest /\
             Ascii.eqb c "+"%char = false /\ Ascii.eqb c "-"%char = false).
  { destruct k as [| k]; [exact (digits_first u Hu) |].
    cbn [zeros]. rewrite append_cons.
    eexists _, _. split; [reflexivity |]. split; reflexivity. }
  destruct Hfirst as (c & rest & Hs & Hp & Hm). rewrite Hs in *.
  destruct (z <? 0) eqn:Hneg.
  - apply Z.ltb_lt in Hneg. rewrite append_cons, append_nil.
    rewrite (ParseInt_negative c rest (Z.abs z) Hloop) by lia. f_equal. lia.
  - apply Z.ltb_ge in Hneg. rewrite append_nil.
    rewrite (ParseInt_unsigned c rest (Z.abs z) Hp Hm Hloop) by lia. f_equal. lia.
Qed.

Lemma ParseInt_fmt_d (z : Z) :
  min_int64 <= z <= max_int64 -> Server.ParseInt (fmt_d z) = Server.Parsed z.
Proof.
  intros Hz. rewrite <- (ParseInt_padded 0 z Hz) at 1. f_equal.
  destruct (z <? 0) eqn:Hneg.
  - apply Z.ltb_lt in Hneg. rewrite fmt_d_neg by lia.
    replace (Z.abs z) with (- z) by lia. reflexivity.
  - apply Z.ltb_ge in Hneg. replace (Z.abs z) with z by lia. reflexivity.
Qed.

Lemma ParseInt_fmt_05d (z : Z) :
  min_int64 <= z <= max_int64 -> Server.ParseInt (fmt_05d z) = Server.Parsed z.
Proof.
  intros Hz. unfold fmt_05d.
  destruct (z <? 0) eqn:Hneg.
  - apply Z.ltb_lt in Hneg.
    rewrite <- (ParseInt_padded (4 - String.length (fmt_d (- z))) z Hz) at 1.
    rewrite (proj2 (Z.ltb_lt _ _)) by lia.
    replace (Z.abs z) with (- z) by lia. reflexivity.
  - apply Z.ltb_ge in Hneg.
    rewrite <- (ParseInt_padded (5 - String.length (fmt_d z)) z Hz) at 1.
    rewrite (proj2 (Z.ltb_ge _ _)) by lia.
    replace (Z.abs z) with z by lia. reflexivity.
Qed.

Lemma string_app_inv_head (s t1 t2 : string) :
  (s ++ t1 = s ++ t2)%string -> t1 = t2.
Proof.
  induction s as [| c s IH]; [rewrite !append_nil; auto |].
  rewrite !append_cons. intros H. injection H as H. auto.
Qed.

Lemma partName_inj (n1 n2 : Z) :
  min_int64 <= n1 <= max_int64 -> min_int64 <= n2 <= max_int64 ->
  partName n1 = partName n2 -> n1 = n2.
Proof.
  intros H1 H2 Hn. unfold partName in Hn.
  apply string_app_inv_head in Hn.
  pose proof (ParseInt_fmt_05d n1 H1) as P1. rewrite Hn, ParseInt_fmt_05d in P1 by exact H2.
  congruence.
Qed.

(* ------------------------------------------------------------------ *)
(** ** The Range header *)

Lemma has_byte_digits (u : Decimal.uint) :
  Server.has_byte "-"%char (DecimalString.NilEmpty.string_of_uint u) = false.
Proof. induction u; cbn; auto. Qed.

Lemma has_byte_fmt_d (z : Z) : 0 <= z -> Server.has_byte "-"%char (fmt_d z) = false.
Proof.
  intros Hz. destruct (fmt_d_nonneg z Hz) as (u & _ & -> & _). apply has_byte_digits.
Qed.

Lemma fmt_d_nonempty (z : Z) : 0 <= z -> String.eqb (fmt_d z) EmptyString = false.
Proof.
  intros Hz. destruct (fmt_d_nonneg z Hz) as (u & Hu & -> & _).
  destruct (digits_first u Hu) as (c & rest & -> & _). reflexivity.
Qed.

Lemma Split_no_sep (s : string) (sep : ascii) :
  Server.has_byte sep s = false -> Server.Split s sep = [s].
Proof.
  induction s as [| c s IH]; cbn [Server.has_byte Server.Split]; [reflexivity |].
  intros H. apply orb_false_iff in H as [Hc Hs]. rewrite Hc, (IH Hs). reflexivity.
Qed.

Lemma Split_at (s1 s2 : string) (sep : ascii) :
  Server.has_byte sep s1 = false ->
  Server.Split (s1 ++ String sep s2) sep = s1 :: Server.Split s2 sep.
Proof.
  induction s1 as [| c s1 IH]; cbn [Server.has_byte].
  - intros _. rewrite append_nil. cbn [Server.Split]. rewrite Ascii.eqb_refl. reflexivity.
  - intros H. apply orb_false_iff in H as [Hc Hs]. rewrite append_cons.
    cbn [Server.Split]. rewrite Hc, (IH Hs). reflexivity.
Qed.

Lemma Split_parts_no_sep (s : string) (sep : ascii) :
  Forall (fun part => Server.has_byte sep part = false) (Server.Split s sep).
Proof.
  induction s as [| c s IH]; cbn [Server.Split].
  - constructor; [reflexivity | constructor].
  - destruct (Ascii.eqb c sep) eqn:Hc.
    + constructor; [reflexivity | exact IH].
    + destruct (Server.Split s sep) as [| first others]; constructor.
      * cbn [Server.has_byte]. rewrite Hc. reflexivity.
      * constructor.
      * cbn [Server.has_byte]. rewrite Hc. apply (Forall_inv IH).
      * apply (Forall_inv_tail IH).
Qed.

Lemma substring_whole (s : string) : substring 0 (String.length s) s = s.
Proof. induction s as [| c s IH]; [reflexivity |]. cbn. by rewrite IH. Qed.

Lemma HasPrefix_bytes (x : string) : HasPrefix ("bytes=" ++ x) "bytes=" = true.
Proof. unfold HasPrefix. cbv [String.prefix String.append]. destruct x; reflexivity. Qed.

Lemma TrimPrefix_bytes (x : string) : Server.TrimPrefix ("bytes=" ++ x) "bytes=" = x.
Proof.
  unfold Server.TrimPrefix. rewrite HasPrefix_bytes.
  change (substring 0 (String.length x - 0) x = x).
  rewrite Nat.sub_0_r. apply substring_whole.
Qed.

(** A header of the form [bytes=<part0>-<part1>], neither part holding a
    dash, is read part by part. *)
Lemma parseRangeHeader_parts (part0 part1 : string) :
  Server.has_byte "-"%char part0 = false -> Server.has_byte "-"%char part1 = false ->
  Server.parseRangeHeader ("bytes=" ++ part0 ++ String "-"%char part1) =
    match (if negb (String.eqb part0 EmptyString) then Server.ParseInt part0
           else Server.Parsed 0) with
    | Server.Failed e => Server.Failed (Server.ErrNum e)
    | Server.Parsed start =>
      match (if negb (String.eqb part1 EmptyString) then Server.ParseInt part1
             else Server.Parsed (-1)) with
      | Server.Failed e => Server.Failed (Server.ErrNum e)
      | Server.Parsed end_ => Server.Parsed (start, end_)
      end
    end.
Proof.
  intros H0 H1. unfold Server.parseRangeHeader.
  rewrite HasPrefix_bytes, TrimPrefix_bytes. cbn [negb].
  rewrite (Split_at _ _ _ H0), (Split_no_sep _ _ H1). reflexivity.
Qed.

Lemma digit_value_range (c : ascii) (d : Z) :
  Server.digit_value c = Some d -> 0 <= d <= 9.
Proof.
  unfold Server.digit_value.
  destruct (_ && _) eqn:H; [| discriminate]. intros [= <-].
  apply andb_true_iff in H as [H1 H2]. apply Z.leb_le in H1, H2. lia.
Qed.

Lemma ParseUint_loop_ge (s : string) (n m : Z) :
  0 <= n -> Server.ParseUint_loop s n = Server.Parsed m -> n <= m.
Proof.
  revert n. induction s as [| c s IH]; intros n Hn; cbn [Server.ParseUint_loop].
  - intros [= <-]. lia.
  - destruct (Server.digit_value c) as [d |] eqn:Hd; [| discriminate].
    apply digit_value_range in Hd.
    destruct (n >=? _); [discriminate |].
    destruct (_ >? _); [discriminate |].
    intros H. apply IH in H; lia.
Qed.

(** A number read from a string that holds no dash is not negative. *)
Lemma ParseInt_no_dash (s : string) (n : Z) :
  Server.has_byte "-"%char s = false -> Server.ParseInt s = Server.Parsed n ->
  0 <= n <= max_int64.
Proof.
  unfold Server.ParseInt, max_int64. destruct s as [| c rest]; [discriminate |].
  cbn [Server.has_byte]. intros H. apply orb_false_iff in H as [Hc _]. rewrite Hc.
  assert (Hgen : forall digits,
    match Server.ParseUint digits with
    | Server.Failed Server.ErrSyntax => Server.Failed Server.ErrSyntax
    | r =>
      let un := match r with Server.Parsed un => un | Server.Failed _ => Server.maxUint64 end in
      let cutoff := 2 ^ 63 in
      if negb false && (un >=? cutoff) then Server.Failed Server.ErrRange
      else if false && (un >? cutoff) then Server.Failed Server.ErrRange
      else Server.Parsed (if false then - un else un)
    end = Server.Parsed n -> 0 <= n <= 2 ^ 63 - 1).
  { intros digits. destruct (Server.ParseUint digits) as [un | []] eqn:HP; cbv zeta;
      cbn [negb andb]; try discriminate.
    destruct (un >=? 2 ^ 63) eqn:Hcut; [discriminate |]. intros [= <-].
    rewrite Z.geb_leb in Hcut. apply Z.leb_gt in Hcut.
    unfold Server.ParseUint in HP. destruct digits; [discriminate |].
    apply ParseUint_loop_ge in HP; lia. }
  destruct (Ascii.eqb c "+"%char); apply Hgen.
Qed.

Lemma parseRangeHeader_closed (a b : Z) :
  0 <= a <= max_int64 -> 0 <= b <= max_int64 ->
  Server.parseRangeHeader ("bytes=" ++ fmt_d a ++ "-" ++ fmt_d b) = Server.Parsed (a, b).
Proof.
  intros Ha Hb.
  change ("-" ++ fmt_d b)%string with (String "-"%char (fmt_d b)).
  rewrite parseRangeHeader_parts by (apply has_byte_fmt_d; lia).
  rewrite !fmt_d_nonempty by lia. cbn [negb].
  rewrite !ParseInt_fmt_d by (unfold min_int64, max_int64 in *; lia). reflexivity.
Qed.

Lemma parseRangeHeader_open (a : Z) :
  0 <= a <= max_int64 ->
  Server.parseRangeHeader ("bytes=" ++ fmt_d a ++ "-") = Server.Parsed (a, -1).
Proof.
  intros Ha.
  change ("-")%string with (String "-"%char EmptyString).
  rewrite parseRangeHeader_parts; [| apply has_byte_fmt_d; lia | reflexivity].
  rewrite fmt_d_nonempty by lia. cbn [negb].
  rewrite ParseInt_fmt_d by (unfold min_int64, max_int64 in *; lia). reflexivity.
Qed.

Lemma parseRangeHeader_suffix (b : Z) :
  0 <= b <= max_int64 ->
  Server.parseRangeHeader ("bytes=-" ++ fmt_d b) = Server.Parsed (0, b).
Proof.
  intros Hb.
  change ("bytes=-" ++ fmt_d b)%string
    with ("bytes=" ++ EmptyString ++ String "-"%char (fmt_d b))%string.
  rewrite parseRangeHeader_parts; [| reflexivity | apply has_byte_fmt_d; lia].
  rewrite fmt_d_nonempty by lia. cbn [negb].
  rewrite ParseInt_fmt_d by (unfold min_int64, max_int64 in *; lia). reflexivity.
Qed.

(** X13.  The three forms of a Range header.  For numbers a and b in
    0..2^63-1 printed in decimal, parseRangeHeader reads "bytes=a-b" as
    start a and end b, "bytes=a-" as start a and end -1 (to the end of the
    object), and "bytes=-b" as start 0 and end b; "bytes=-" is start 0 and
    end -1. *)
Theorem parseRangeHeader_reads_the_three_forms (a b : Z) :
  0 <= a <= max_int64 -> 0 <= b <= max_int64 ->
  Server.parseRangeHeader ("bytes=" ++ fmt_d a ++ "-" ++ fmt_d b) = Server.Parsed (a, b) /\
  Server.parseRangeHeader ("bytes=" ++ fmt_d a ++ "-") = Server.Parsed (a, -1) /\
  Server.parseRangeHeader ("bytes=-" ++ fmt_d b) = Server.Parsed (0, b) /\
  Server.parseRangeHeader "bytes=-" = Server.Parsed (0, -1).
Proof.
  intros Ha Hb. split; [| split; [| split]].
  - by apply parseRangeHeader_closed.
  - by apply parseRangeHeader_open.
  - by apply parseRangeHeader_suffix.
  - reflexivity.
Qed.

(** The header of the first five hundred bytes and of the tail from 500. *)
Lemma parseRangeHeader_reads_the_three_forms_witness :
  Server.parseRangeHeader ("bytes=" ++ fmt_d 0 ++ "-" ++ fmt_d 499) = Server.Parsed (0, 499) /\
  Server.parseRangeHeader ("bytes=" ++ fmt_d 0 ++ "-") = Server.Parsed (0, -1) /\
  Server.parseRangeHeader ("bytes=-" ++ fmt_d 499) = Server.Parsed (0, 499) /\
  Server.parseRangeHeader "bytes=-" = Server.Parsed (0, -1).
Proof.
  apply (parseRangeHeader_reads_the_three_forms 0 499); vm_compute; split; discriminate.
Defined.

(** X14.  What parseRangeHeader accepts.  When it returns bounds, the
    header begins with "bytes=", the start is in 0..2^63-1 and the end in
    -1..2^63-1: no header yields a negative start, and the only negative
    end is the -1 that stands for an omitted end. *)
Theorem parseRangeHeader_bounds (rangeHeader : string) (start end_ : Z) :
  Server.parseRangeHeader rangeHeader = Server.Parsed (start, end_) ->
  HasPrefix rangeHeader "bytes=" = true /\
  0 <= start <= max_int64 /\ -1 <= end_ <= max_int64.
Proof.
  unfold Server.parseRangeHeader.
  destruct (HasPrefix rangeHeader "bytes="); [| discriminate]. cbn [negb].
  pose proof (Split_parts_no_sep (Server.TrimPrefix rangeHeader "bytes=") "-"%char) as HF.
  destruct (Server.Split _ _) as [| part0 [| part1 [| ? ?]]]; try discriminate.
  apply Forall_cons in HF as [H0 HF]. apply Forall_cons in HF as [H1 _].
  intros H. split; [reflexivity |].
  destruct (negb (String.eqb part0 EmptyString)).
  - destruct (Server.ParseInt part0) as [s |] eqn:P0; [| discriminate].
    apply (ParseInt_no_dash _ _ H0) in P0.
    destruct (negb (String.eqb part1 EmptyString)).
    + destruct (Server.ParseInt part1) as [e |] eqn:P1; [| discriminate].
      apply (ParseInt_no_dash _ _ H1) in P1. injection H as <- <-. lia.
    + injection H as <- <-. unfold max_int64 in *. lia.
  - destruct (negb (String.eqb part1 EmptyString)).
    + destruct (Server.ParseInt part1) as [e |] eqn:P1; [| discriminate].
      apply (ParseInt_no_dash _ _ H1) in P1. injection H as <- <-.
      unfold max_int64 in *. lia.
    + injection H as <- <-. unfold max_int64. lia.
Qed.

Lemma parseRangeHeader_bounds_witness :
  HasPrefix "bytes=500-" "bytes=" = true /\ 0 <= 500 <= max_int64 /\ -1 <= -1 <= max_int64.
Proof.
  apply (parseRangeHeader_bounds "bytes=500-" 500 (-1)). vm_compute. reflexivity.
Defined.

(** X15.  The Range header as served.  For a stored object with content
    P of size n and numbers 0 <= a <= b < n, GetObjectRange on the bounds
    read from "bytes=a-b" returns P[a..b] with the bounds a and b; on
    those read from "bytes=a-" the bytes from a to the end of the object,
    with the bounds a and n-1; and on those read from "bytes=-b" the
    first b+1 bytes of the object, with the bounds 0 and b. *)
Theorem range_header_served
    (fs : FileSystemStorage) (d : Disk) (bucket key : string)
    (P : list byte) (meta : ObjectMetadata) (a b : Z) :
  files d !! objectPath fs bucket key = Some P ->
  metas d !! metadataPath fs bucket key = Some meta ->
  Z.of_nat (length P) <= max_int64 ->
  0 <= a <= b -> b < Z.of_nat (length P) ->
  let serve rangeHeader :=
    match Server.parseRangeHeader rangeHeader with
    | Server.Parsed (rangeStart, rangeEnd) =>
      Some (GetObjectRange fs d bucket key rangeStart rangeEnd)
    | Server.Failed _ => None
    end in
  serve ("bytes=" ++ fmt_d a ++ "-" ++ fmt_d b)%string
    = Some (Ok (take (Z.to_nat (b - a + 1)) (drop (Z.to_nat a) P), meta, a, b)) /\
  serve ("bytes=" ++ fmt_d a ++ "-")%string
    = Some (Ok (drop (Z.to_nat a) P, meta, a, Z.of_nat (length P) - 1)) /\
  serve ("bytes=-" ++ fmt_d b)%string
    = Some (Ok (take (Z.to_nat (b + 1)) P, meta, 0, b)).
Proof.
  intros Hf Hm Hn Hab Hb serve. unfold serve.
  rewrite parseRangeHeader_closed, parseRangeHeader_open, parseRangeHeader_suffix by lia.
  rewrite !(GetObjectRange_unfold fs d bucket key P meta _ _ Hf Hm Hn). cbv zeta.
  unfold adjusted_start, adjusted_end.
  rewrite !(proj2 (Z.ltb_ge a 0)) by lia.
  rewrite !(proj2 (Z.ltb_ge b 0)) by lia.
  rewrite (geb_false b) by lia. cbn [orb].
  change (-1 <? 0) with true. change (0 <? 0) with false. cbn [orb].
  rewrite !gtb_false by lia.
  split; [reflexivity |]. split.
  - rewrite take_ge by (rewrite length_drop; lia). reflexivity.
  - rewrite Z.sub_0_r. reflexivity.
Qed.

(** Bytes 1 to 3 of the five bytes of the sample object. *)
Lemma range_header_served_witness :
  match Server.parseRangeHeader ("bytes=" ++ fmt_d 1 ++ "-" ++ fmt_d 3) with
  | Server.Parsed (rangeStart, rangeEnd) =>
    Some (GetObjectRange Sample.fs Sample.stored_hello "b" "k" rangeStart rangeEnd)
  | Server.Failed _ => None
  end = Some (Ok (take (Z.to_nat (3 - 1 + 1)) (drop (Z.to_nat 1) Sample.hello),
                  Sample.hello_meta, 1, 3)).
Proof.
  apply (range_header_served Sample.fs Sample.stored_hello "b" "k"
           Sample.hello Sample.hello_meta 1 3);
    [vm_compute; reflexivity | vm_compute; reflexivity | vm_compute; discriminate
    | lia | vm_compute; reflexivity].
Defined.

(* ------------------------------------------------------------------ *)
(** ** Sessions and their parts *)

Lemma Join_in_under (dir : list string) (name : string) :
  under dir (Join_in dir name) = true.
Proof.
  unfold under, Join_in. apply bool_decide_eq_true. by apply prefix_app_r.
Qed.

Lemma remove_under_idem {A} (dir : list string) (m : gmap (list string) A) :
  remove_under dir (remove_under dir m) = remove_under dir m.
Proof.
  apply map_eq. intros path. destruct (under dir path) eqn:Hu.
  - by rewrite !remove_under_lookup_in.
  - by rewrite !remove_under_lookup_out.
Qed.

Lemma os_RemoveAll_idem (d : Disk) (dir : list string) :
  os_RemoveAll (os_RemoveAll d dir) dir = os_RemoveAll d dir.
Proof. unfold os_RemoveAll. cbn. by rewrite !remove_under_idem. Qed.

Lemma GetObject_ext fs d d' bucket key :
  files d' !! objectPath fs bucket key = files d !! objectPath fs bucket key ->
  metas d' !! metadataPath fs bucket key = metas d !! metadataPath fs bucket key ->
  GetObject fs d' bucket key = GetObject fs d bucket key.
Proof. intros Hf Hm. unfold GetObject. by rewrite Hf, Hm. Qed.

(** Without its document a session is unknown to every operation, which
    then leaves the disk alone. *)
Lemma no_session fs d bucket uploadID :
  (forall key,
     uploads d !! Join_in (multipartPath fs bucket key uploadID) "upload.json" = None) ->
  (forall key n data,
     UploadPart fs d bucket key uploadID n data = (d, Err ErrUploadNotFound)) /\
  (forall key, ListParts fs d bucket key uploadID = Err ErrUploadNotFound) /\
  (forall key now_rand now_mod parts,
     CompleteMultipartUpload fs d now_rand now_mod bucket key uploadID parts
     = (d, Err ErrUploadNotFound)).
Proof.
  intros H. split; [| split].
  - intros key n data. unfold UploadPart. by rewrite H.
  - intros key. unfold ListParts. by rewrite H.
  - intros key t1 t2 parts. unfold CompleteMultipartUpload. by rewrite H.
Qed.

Lemma os_RemoveAll_multipart fs d bucket key uploadID :
  let d' := os_RemoveAll d (multipartPath fs bucket key uploadID) in
  (forall key',
     uploads d' !! Join_in (multipartPath fs bucket key' uploadID) "upload.json" = None) /\
  (forall n, part_file fs d' bucket uploadID n = None) /\
  (forall k, files d' !! objectPath fs bucket k = files d !! objectPath fs bucket k) /\
  (forall k, metas d' !! metadataPath fs bucket k = metas d !! metadataPath fs bucket k).
Proof.
  intros d'. split; [| split; [| split]].
  - intros key'. apply remove_under_lookup_in, Join_in_under.
  - intros n. apply remove_under_lookup_in, Join_in_under.
  - intros k. apply remove_under_lookup_out, object_not_under_multipart.
  - intros k. apply remove_under_lookup_out, metadata_not_under_multipart.
Qed.



Lemma multipartPath_empty_id_prefix fs bucket key key' uploadID name :
  under (multipartPath fs bucket key EmptyString)
        (Join_in (multipartPath fs bucket key' uploadID) name) = true.
Proof.
  unfold under, Join_in, multipartPath. apply bool_decide_eq_true.
  change [baseDir fs; bucket; "multipart"; EmptyString]
    with ([baseDir fs; bucket; "multipart"] ++ [EmptyString]).
  change [baseDir fs; bucket; "multipart"; uploadID]
    with ([baseDir fs; bucket; "multipart"] ++ [uploadID]).
  rewrite !Join_app. change (Join [EmptyString]) with (@nil string).
  rewrite app_nil_r, <- app_assoc. by apply prefix_app_r.
Qed.

(** X17.  The empty upload id.  AbortMultipartUpload with an empty upload
    id removes the multipart directory of the bucket as a whole: afterwards
    every session of the bucket whose upload id holds no double-dot
    element is unknown and has no part file left, while the objects of the
    bucket whose keys hold no double-dot element read as before. *)
Theorem AbortMultipartUpload_empty_id_removes_every_session
    (fs : FileSystemStorage) (d : Disk) (bucket key : string) :
  let d' := AbortMultipartUpload fs d bucket key EmptyString in
  (forall uploadID, inside uploadID = true ->
     (forall key' n data,
        UploadPart fs d' bucket key' uploadID n data = (d', Err ErrUploadNotFound)) /\
     (forall key', ListParts fs d' bucket key' uploadID = Err ErrUploadNotFound) /\
     (forall key' now_rand now_mod parts,
        CompleteMultipartUpload fs d' now_rand now_mod bucket key' uploadID parts
        = (d', Err ErrUploadNotFound)) /\
     (forall n, part_file fs d' bucket uploadID n = None)) /\
  (forall k, inside k = true ->
     GetObject fs d' bucket k = GetObject fs d bucket k /\
     HeadObject fs d' bucket k = HeadObject fs d bucket k).
Proof.
  intros d'. unfold d', AbortMultipartUpload.
  assert (Hs : forall uploadID key',
    uploads (os_RemoveAll d (multipartPath fs bucket key EmptyString))
      !! Join_in (multipartPath fs bucket key' uploadID) "upload.json" = None).
  { intros uploadID key'. apply remove_under_lookup_in, multipartPath_empty_id_prefix. }
  split.
  - intros uploadID _.
    destruct (no_session fs _ bucket uploadID (Hs uploadID)) as (H1 & H2 & H3).
    split; [exact H1 |]. split; [exact H2 |]. split; [exact H3 |].
    intros n. apply remove_under_lookup_in, multipartPath_empty_id_prefix.
  - destruct (os_RemoveAll_multipart fs d bucket key EmptyString) as (_ & _ & Hf & Hm).
    intros k _. split; [apply GetObject_ext; [apply Hf | apply Hm] |].
    unfold HeadObject. by rewrite Hm.
Qed.

(** The sample session after an abort with the empty upload id. *)
Lemma AbortMultipartUpload_empty_id_removes_every_session_witness :
  inside Sample.uploadID = true /\
  is_ok (ListParts Sample.fs Sample.uploaded "b" "big.bin" Sample.uploadID) = true /\
  ListParts Sample.fs
    (AbortMultipartUpload Sample.fs Sample.uploaded "b" "big.bin" EmptyString)
    "b" "big.bin" Sample.uploadID = Err ErrUploadNotFound /\
  part_file Sample.fs
    (AbortMultipartUpload Sample.fs Sample.uploaded "b" "big.bin" EmptyString)
    "b" Sample.uploadID 2 = None.
Proof.
  destruct (AbortMultipartUpload_empty_id_removes_every_session Sample.fs Sample.uploaded
              "b" "big.bin") as [Hall _].
  destruct (Hall Sample.uploadID eq_refl) as (_ & HL & _ & HP).
  split; [reflexivity |]. split; [vm_compute; reflexivity |]. split; [apply HL | apply HP].
Defined.

(** X18.  A session completes once.  After a successful
    CompleteMultipartUpload the session is gone: a second completion, an
    UploadPart or a ListParts with that upload id fails with the
    upload-not-found error and leaves the disk, and so the published
    object, as it is; no part file of the session is left; and an abort
    changes nothing. *)
Theorem CompleteMultipartUpload_consumes_the_session
    (fs : FileSystemStorage) (d : Disk) (now_rand now_mod : Z)
    (bucket key uploadID : string) (parts : list Part) (meta : ObjectMetadata) :
  snd (CompleteMultipartUpload fs d now_rand now_mod bucket key uploadID parts) = Ok meta ->
  let d' := fst (CompleteMultipartUpload fs d now_rand now_mod bucket key uploadID parts) in
  (forall key' now_rand' now_mod' parts',
     CompleteMultipartUpload fs d' now_rand' now_mod' bucket key' uploadID parts'
     = (d', Err ErrUploadNotFound)) /\
  (forall key' n data,
     UploadPart fs d' bucket key' uploadID n data = (d', Err ErrUploadNotFound)) /\
  (forall key', ListParts fs d' bucket key' uploadID = Err ErrUploadNotFound) /\
  (forall n, part_file fs d' bucket uploadID n = None) /\
  (forall key', AbortMultipartUpload fs d' bucket key' uploadID = d').
Proof.
  intros Hok d'.
  assert (Hd : exists d1, d' = os_RemoveAll d1 (multipartPath fs bucket key uploadID)).
  { unfold d'. revert Hok. unfold CompleteMultipartUpload.
    destruct (uploads d !! _); [| discriminate].
    destruct (concat_parts _ _ _ _ _) as [d1 [totalSize | e]]; [| discriminate].
    intros _. eexists. reflexivity. }
  destruct Hd as [d1 ->].
  destruct (os_RemoveAll_multipart fs d1 bucket key uploadID) as (Hs & Hp & _ & _).
  destruct (no_session fs _ bucket uploadID Hs) as (H1 & H2 & H3).
  split; [intros; apply H3 |]. split; [exact H1 |]. split; [exact H2 |].
  split; [exact Hp |].
  intros key'. unfold AbortMultipartUpload.
  rewrite (multipartPath_key_irrelevant fs bucket key' key). apply os_RemoveAll_idem.
Qed.

(** The sample session, completed with its three parts. *)
Lemma CompleteMultipartUpload_consumes_the_session_witness :
  let d' := fst (CompleteMultipartUpload Sample.fs Sample.uploaded 7 8 "b" "big.bin"
                   Sample.uploadID [mkPart 1 "a" 5; mkPart 2 "b" 5; mkPart 3 "c" 5]) in
  ListParts Sample.fs d' "b" "big.bin" Sample.uploadID = Err ErrUploadNotFound /\
  part_file Sample.fs d' "b" Sample.uploadID 1 = None.
Proof.
  intros d'.
  destruct (CompleteMultipartUpload_consumes_the_session Sample.fs Sample.uploaded 7 8
              "b" "big.bin" Sample.uploadID
              [mkPart 1 "a" 5; mkPart 2 "b" 5; mkPart 3 "c" 5]
              {| Key := "big.bin"; Size := 15; LastModified := 8;
                 ETag := (dquote ++ "7-3" ++ dquote)%string;
                 ContentType := "application/x-test";
                 Metadata := {[ "owner" := "me" ]}%string |})
    as (_ & _ & HL & HP & _).
  - vm_compute. reflexivity.
  - split; [apply HL | apply HP].
Defined.

Lemma partName_nonempty (n : Z) : partName n <> EmptyString.
Proof. unfold partName. rewrite append_cons. discriminate. Qed.

Lemma Join_in_name (dir : list string) (name : string) :
  name <> EmptyString -> Join_in dir name = dir ++ [name].
Proof. intros H. unfold Join_in. by rewrite Join_name. Qed.

Lemma Join_in_inj (dir : list string) (n1 n2 : string) :
  n1 <> EmptyString -> n2 <> EmptyString -> Join_in dir n1 = Join_in dir n2 -> n1 = n2.
Proof.
  intros H1 H2. rewrite !Join_in_name by assumption. intros H.
  apply app_inv_head in H. congruence.
Qed.

Lemma part_path_inj (dir : list string) (n m : Z) :
  min_int64 <= n <= max_int64 -> min_int64 <= m <= max_int64 ->
  Join_in dir (partName n) = Join_in dir (partName m) -> n = m.
Proof.
  intros Hn Hm H. apply Join_in_inj in H; try apply partName_nonempty.
  by apply partName_inj.
Qed.

Lemma part_doc_path_inj (dir : list string) (n m : Z) :
  min_int64 <= n <= max_int64 -> min_int64 <= m <= max_int64 ->
  Join_in dir (partName n ++ ".json") = Join_in dir (partName m ++ ".json") -> n = m.
Proof.
  intros Hn Hm H. apply Join_in_inj in H.
  - apply string_app_inv_tail in H. by apply partName_inj.
  - unfold partName. rewrite !append_cons. discriminate.
  - unfold partName. rewrite !append_cons. discriminate.
Qed.

(** What [UploadPart] leaves on disk and returns for a known session. *)
Lemma UploadPart_unfold fs d bucket key uploadID n data upload :
  uploads d !! Join_in (multipartPath fs bucket key uploadID) "upload.json" = Some upload ->
  let mp := multipartPath fs bucket key uploadID in
  let part := {| PartNumber := n;
                 partETag := hex_EncodeToString (MD5.sum (rd_bytes data));
                 partSize := Z.of_nat (length (rd_bytes data)) |} in
  let d1 := set_files d (<[Join_in mp (partName n) := rd_bytes data]> (files d)) in
  UploadPart fs d bucket key uploadID n data
  = if rd_fails data then (d1, Err ErrWritePartData)
    else (set_partmetas d1 (<[Join_in mp (partName n ++ ".json") := part]> (partmetas d)),
          Ok part).
Proof.
  intros Hs mp part d1. subst mp part d1. unfold UploadPart. cbv zeta. rewrite Hs.
  unfold io_Copy, file_append, os_Create, set_files, set_partmetas. cbn.
  rewrite lookup_insert_eq, insert_insert_eq. cbn.
  destruct (rd_fails data); reflexivity.
Qed.

(** X19.  What UploadPart stores.  For a known session whose upload id
    holds no double-dot element: when UploadPart succeeds, it returns the part number,
    the hexadecimal MD5 of the bytes the reader delivered as the tag and
    their count as the size, the part file of that number holds those
    bytes, replacing what was there, and the part document records the
    description returned.  When the reader fails and UploadPart returns
    the write error, the part file holds the bytes delivered before the
    failure and the part document is as it was.  Either way the session
    document stays, and every object of the bucket whose key holds no
    double-dot element reads as before. *)
Theorem UploadPart_stores_the_part
    (fs : FileSystemStorage) (d : Disk) (bucket key uploadID : string) (n : Z)
    (data : Reader) (upload : MultipartUpload) :
  inside uploadID = true ->
  uploads d !! Join_in (multipartPath fs bucket key uploadID) "upload.json" = Some upload ->
  let r := UploadPart fs d bucket key uploadID n data in
  let part := {| PartNumber := n;
                 partETag := hex_EncodeToString (MD5.sum (rd_bytes data));
                 partSize := Z.of_nat (length (rd_bytes data)) |} in
  (forall p, snd r = Ok p ->
     p = part /\
     part_file fs (fst r) bucket uploadID n = Some (rd_bytes data) /\
     partmetas (fst r)
       !! Join_in (multipartPath fs bucket key uploadID) (partName n ++ ".json")
     = Some part) /\
  (rd_fails data = true -> snd r = Err ErrWritePartData ->
     part_file fs (fst r) bucket uploadID n = Some (rd_bytes data) /\
     partmetas (fst r)
       !! Join_in (multipartPath fs bucket key uploadID) (partName n ++ ".json")
     = partmetas d
       !! Join_in (multipartPath fs bucket key uploadID) (partName n ++ ".json")) /\
  uploads (fst r) !! Join_in (multipartPath fs bucket key uploadID) "upload.json"
    = Some upload /\
  (forall k, inside k = true ->
     GetObject fs (fst r) bucket k = GetObject fs d bucket k /\
     HeadObject fs (fst r) bucket k = HeadObject fs d bucket k).
Proof.
  intros _ Hs r part. unfold r.
  rewrite (UploadPart_unfold fs d bucket key uploadID n data upload Hs). cbv zeta.
  fold part. unfold part_file.
  rewrite (multipartPath_key_irrelevant fs bucket EmptyString key).
  assert (Hobj : forall k,
            <[Join_in (multipartPath fs bucket key uploadID) (partName n) := rd_bytes data]>
              (files d) !! objectPath fs bucket k = files d !! objectPath fs bucket k).
  { intros k. apply lookup_insert_ne. intros H. symmetry in H.
    by apply object_is_no_part in H. }
  destruct (rd_fails data); cbn [fst snd].
  - split; [discriminate |]. split.
    + intros _ _. split; [cbn; apply lookup_insert_eq | reflexivity].
    + split; [exact Hs |]. intros k _.
      split; [apply GetObject_ext; [apply Hobj | reflexivity] | reflexivity].
  - split.
    + intros p [= <-]. split; [reflexivity |].
      split; [cbn; apply lookup_insert_eq | cbn; apply lookup_insert_eq].
    + split; [discriminate |]. split; [exact Hs |]. intros k _.
      split; [apply GetObject_ext; [apply Hobj | reflexivity] | reflexivity].
Qed.

(** A fourth part for the sample session. *)
Lemma UploadPart_stores_the_part_witness :
  inside Sample.uploadID = true /\
  snd (UploadPart Sample.fs Sample.uploaded "b" "big.bin" Sample.uploadID 4
         (bytes_Reader Sample.hello))
  = Ok {| PartNumber := 4;
          partETag := "5d41402abc4b2a76b9719d911017c592";
          partSize := 5 |} /\
  part_file Sample.fs
    (fst (UploadPart Sample.fs Sample.uploaded "b" "big.bin" Sample.uploadID 4
            (bytes_Reader Sample.hello)))
    "b" Sample.uploadID 4 = Some Sample.hello.
Proof.
  assert (Hok : snd (UploadPart Sample.fs Sample.uploaded "b" "big.bin" Sample.uploadID 4
                       (bytes_Reader Sample.hello))
                = Ok {| PartNumber := 4;
                        partETag := "5d41402abc4b2a76b9719d911017c592";
                        partSize := 5 |}) by (vm_compute; reflexivity).
  split; [reflexivity |]. split; [exact Hok |].
  destruct (UploadPart_stores_the_part Sample.fs Sample.uploaded "b" "big.bin"
              Sample.uploadID 4 (bytes_Reader Sample.hello)
              (json_MultipartUpload Sample.session) eq_refl)
    as (Hp & _ & _ & _).
  - vm_compute. reflexivity.
  - destruct (Hp _ Hok) as (_ & Hfile & _). exact Hfile.
Defined.

(** X20.  Parts do not interfere.  For part numbers of the machine
    integer range, UploadPart for one number, whether it succeeds or
    fails, leaves the part file and the part document of every other
    number of the session as they were. *)
Theorem UploadPart_leaves_other_parts
    (fs : FileSystemStorage) (d : Disk) (bucket key uploadID : string) (n m : Z)
    (data : Reader) :
  min_int64 <= n <= max_int64 -> min_int64 <= m <= max_int64 -> m <> n ->
  let d' := fst (UploadPart fs d bucket key uploadID n data) in
  part_file fs d' bucket uploadID m = part_file fs d bucket uploadID m /\
  partmetas d' !! Join_in (multipartPath fs bucket key uploadID) (partName m ++ ".json")
  = partmetas d !! Join_in (multipartPath fs bucket key uploadID) (partName m ++ ".json").
Proof.
  intros Hn Hm Hne d'. unfold d'.
  destruct (uploads d !! Join_in (multipartPath fs bucket key uploadID) "upload.json")
    as [upload |] eqn:Hs.
  - rewrite (UploadPart_unfold fs d bucket key uploadID n data upload Hs). cbv zeta.
    unfold part_file. rewrite (multipartPath_key_irrelevant fs bucket EmptyString key).
    assert (H1 : Join_in (multipartPath fs bucket key uploadID) (partName n)
                 <> Join_in (multipartPath fs bucket key uploadID) (partName m))
      by (intros H; apply part_path_inj in H; [congruence | assumption ..]).
    assert (H2 : Join_in (multipartPath fs bucket key uploadID) (partName n ++ ".json")
                 <> Join_in (multipartPath fs bucket key uploadID) (partName m ++ ".json"))
      by (intros H; apply part_doc_path_inj in H; [congruence | assumption ..]).
    destruct (rd_fails data); cbn [fst]; cbn.
    + split; [by apply lookup_insert_ne | reflexivity].
    + split; by apply lookup_insert_ne.
  - unfold UploadPart. rewrite Hs. split; reflexivity.
Qed.

(** Uploading part 4 to the sample session leaves part 1. *)
Lemma UploadPart_leaves_other_parts_witness :
  part_file Sample.fs
    (fst (UploadPart Sample.fs Sample.uploaded "b" "big.bin" Sample.uploadID 4
            (bytes_Reader Sample.hello)))
    "b" Sample.uploadID 1 = part_file Sample.fs Sample.uploaded "b" Sample.uploadID 1.
Proof.
  apply (UploadPart_leaves_other_parts Sample.fs Sample.uploaded "b" "big.bin"
           Sample.uploadID 4 1 (bytes_Reader Sample.hello));
    [vm_compute; split; discriminate | vm_compute; split; discriminate | discriminate].
Defined.

(* ------------------------------------------------------------------ *)
(** ** The list of parts *)

Lemma substring_tail (s t : string) :
  substring (String.length s) (String.length t) (s ++ t) = t.
Proof.
  induction s as [| c s IH]; [rewrite append_nil; apply substring_whole |].
  rewrite append_cons. exact IH.
Qed.

Lemma HasSuffix_app (s t : string) : HasSuffix (s ++ t) t = true.
Proof.
  unfold HasSuffix. rewrite string_length_app.
  rewrite (proj2 (Nat.leb_le _ _)) by lia.
  replace (String.length s + String.length t - String.length t)%nat
    with (String.length s) by lia.
  rewrite substring_tail. apply String.eqb_refl.
Qed.

Lemma is_part_doc_part (mp : list string) (n : Z) :
  is_part_doc mp (Join_in mp (partName n ++ ".json")) = true.
Proof.
  unfold is_part_doc. rewrite Join_in_under.
  assert (Hne : (partName n ++ ".json")%string <> EmptyString)
    by (unfold partName; rewrite !append_cons; discriminate).
  rewrite (Join_in_name _ _ Hne), last_last, length_app, HasSuffix_app.
  cbn [length]. rewrite Nat.add_1_r, Nat.eqb_refl.
  unfold partName. rewrite !append_cons. reflexivity.
Qed.

Lemma read_part_docs_insert (d : Disk) (mp path : list string) (part : Part) :
  is_part_doc mp path = true ->
  match partmetas d !! path with
  | None =>
    read_part_docs (set_partmetas d (<[path := part]> (partmetas d))) mp
    ≡ₚ part :: read_part_docs d mp
  | Some old =>
    old :: read_part_docs (set_partmetas d (<[path := part]> (partmetas d))) mp
    ≡ₚ part :: read_part_docs d mp
  end.
Proof.
  intros Hdoc. unfold read_part_docs. cbn [partmetas set_partmetas].
  rewrite (map_filter_insert_True (fun kv : list string * Part => is_part_doc mp kv.1 = true))
    by exact Hdoc.
  set (m := filter (fun kv : list string * Part => is_part_doc mp kv.1 = true) (partmetas d)).
  destruct (partmetas d !! path) as [old |] eqn:Hold.
  - assert (Hm : m !! path = Some old) by (apply map_lookup_filter_Some_2; assumption).
    rewrite <- (insert_delete_eq m).
    rewrite (map_to_list_insert (delete path m) path part) by apply lookup_delete_eq.
    rewrite <- (map_to_list_delete m path old Hm). cbn [map snd]. apply perm_swap.
  - assert (Hm : m !! path = None) by (apply map_lookup_filter_None_2; by left).
    rewrite (map_to_list_insert m path part Hm). reflexivity.
Qed.

(** X21.  The list of parts after an upload.  For a known session and a
    reader that does not fail, ListParts after UploadPart succeeds; its
    list is in ascending part-number order and holds the part just
    returned; and it is the list from before the upload with that part
    added, or, when a part document of that number was there, with that
    part in the place of the former one. *)
Theorem ListParts_after_UploadPart
    (fs : FileSystemStorage) (d : Disk) (bucket key uploadID : string) (n : Z)
    (data : Reader) (upload : MultipartUpload) :
  uploads d !! Join_in (multipartPath fs bucket key uploadID) "upload.json" = Some upload ->
  rd_fails data = false ->
  let r := UploadPart fs d bucket key uploadID n data in
  exists part before after,
    snd r = Ok part /\ PartNumber part = n /\
    ListParts fs d bucket key uploadID = Ok before /\
    ListParts fs (fst r) bucket key uploadID = Ok after /\
    StronglySorted Z.le (map PartNumber after) /\
    part ∈ after /\
    match partmetas d
            !! Join_in (multipartPath fs bucket key uploadID) (partName n ++ ".json") with
    | None => after ≡ₚ part :: before
    | Some old => old :: after ≡ₚ part :: before
    end.
Proof.
  intros Hs Hok r. unfold r.
  rewrite (UploadPart_unfold fs d bucket key uploadID n data upload Hs). cbv zeta.
  rewrite Hok. cbn [fst snd].
  set (mp := multipartPath fs bucket key uploadID) in *.
  set (part := {| PartNumber := n;
                  partETag := hex_EncodeToString (MD5.sum (rd_bytes data));
                  partSize := Z.of_nat (length (rd_bytes data)) |}).
  set (d1 := set_files d (<[Join_in mp (partName n) := rd_bytes data]> (files d))).
  exists part, (sort_Slice less_part (read_part_docs d mp)),
         (sort_Slice less_part
            (read_part_docs (set_partmetas d1
               (<[Join_in mp (partName n ++ ".json") := part]> (partmetas d))) mp)).
  split; [reflexivity |]. split; [reflexivity |].
  split; [unfold ListParts; cbv zeta; fold mp; by rewrite Hs |].
  split; [unfold ListParts; cbv zeta; fold mp;
          change (uploads (set_partmetas d1 ?x)) with (uploads d); by rewrite Hs |].
  split; [apply sort_parts_sorted |].
  pose proof (read_part_docs_insert d mp (Join_in mp (partName n ++ ".json")) part
                (is_part_doc_part mp n)) as Hins.
  assert (Hsame : read_part_docs (set_partmetas d1
                    (<[Join_in mp (partName n ++ ".json") := part]> (partmetas d))) mp
                  = read_part_docs (set_partmetas d
                    (<[Join_in mp (partName n ++ ".json") := part]> (partmetas d))) mp)
    by reflexivity.
  rewrite Hsame. clear Hsame.
  assert (Hin : part ∈ read_part_docs (set_partmetas d
                  (<[Join_in mp (partName n ++ ".json") := part]> (partmetas d))) mp).
  { unfold read_part_docs. cbn [partmetas set_partmetas].
    apply list_elem_of_In.
    apply (in_map snd _ (Join_in mp (partName n ++ ".json"), part)).
    apply list_elem_of_In, elem_of_map_to_list. apply map_lookup_filter_Some_2.
    - apply lookup_insert_eq.
    - apply is_part_doc_part. }
  split; [by rewrite sort_Slice_Permutation |].
  destruct (partmetas d !! Join_in mp (partName n ++ ".json")) as [old |].
  - by rewrite !sort_Slice_Permutation.
  - by rewrite !sort_Slice_Permutation.
Qed.

(** A fourth part for the sample session, listed after the three. *)
Lemma ListParts_after_UploadPart_witness :
  exists part before after,
    snd (UploadPart Sample.fs Sample.uploaded "b" "big.bin" Sample.uploadID 4
           (bytes_Reader Sample.hello)) = Ok part /\
    ListParts Sample.fs Sample.uploaded "b" "big.bin" Sample.uploadID = Ok before /\
    ListParts Sample.fs
      (fst (UploadPart Sample.fs Sample.uploaded "b" "big.bin" Sample.uploadID 4
              (bytes_Reader Sample.hello)))
      "b" "big.bin" Sample.uploadID = Ok after /\
    after ≡ₚ part :: before.
Proof.
  destruct (ListParts_after_UploadPart Sample.fs Sample.uploaded "b" "big.bin"
              Sample.uploadID 4 (bytes_Reader Sample.hello) Sample.session)
    as (part & before & after & H1 & _ & H2 & H3 & _ & _ & H4).
  - vm_compute. reflexivity.
  - reflexivity.
  - exists part, before, after. split; [exact H1 |]. split; [exact H2 |].
    split; [exact H3 |].
    assert (Hnone : partmetas Sample.uploaded
              !! Join_in (multipartPath Sample.fs "b" "big.bin" Sample.uploadID)
                   (partName 4 ++ ".json") = None) by (vm_compute; reflexivity).
    rewrite Hnone in H4. exact H4.
Defined.

(* ------------------------------------------------------------------ *)
(** ** Completions that fail, and the whole exchange *)

Lemma gather_ext look look' numbers totalSize :
  (forall n, look n = look' n) ->
  gather look numbers totalSize = gather look' numbers totalSize.
Proof.
  intros H. revert totalSize.
  induction numbers as [| n rest IH]; intros totalSize; [reflexivity |].
  cbn [gather]. rewrite <- H. destruct (look n); [| reflexivity]. by rewrite IH.
Qed.

Lemma gather_err_split look numbers totalSize e :
  snd (gather look numbers totalSize) = Err e ->
  exists before n after,
    numbers = before ++ n :: after /\
    Forall (fun m => is_Some (look m)) before /\
    look n = None /\ e = ErrOpenPart n /\
    fst (gather look numbers totalSize) = parts_bytes look before.
Proof.
  revert totalSize.
  induction numbers as [| n rest IH]; intros totalSize; cbn [gather]; [discriminate |].
  destruct (look n) as [content |] eqn:Hn.
  - destruct (gather look rest _) as [bs r] eqn:Hg. cbn [fst snd]. intros Hr.
    specialize (IH (int64 (totalSize + Z.of_nat (length content)))).
    rewrite Hg in IH. destruct (IH Hr) as (before & m & after & -> & Hall & Hm & -> & Hbs).
    exists (n :: before), m, after. split; [reflexivity |].
    split; [constructor; [by rewrite Hn | exact Hall] |].
    split; [exact Hm |]. split; [reflexivity |].
    cbn [fst] in Hbs. rewrite Hbs. unfold parts_bytes. cbn [map concat]. by rewrite Hn.
  - cbn [fst snd]. intros [= <-]. exists [], n, rest.
    split; [reflexivity |]. split; [constructor |]. split; [exact Hn |].
    split; reflexivity.
Qed.

(** X22.  A completion that fails on a part.  For a known session, the
    key and the upload id holding no double-dot element, when
    CompleteMultipartUpload fails with the error of a part that cannot be
    opened: the part named is the first, in ascending order of the listed
    numbers, that has no part file; the object file at the key has been
    replaced by the bytes of the parts before that one, while HeadObject
    answers at the key as before; the session document, the part files
    and the part documents are as they were; when the key is a plain
    name, so is every object stored under another plain name; and
    repeating the call ends the same way on the same disk. *)
Theorem CompleteMultipartUpload_failure_effects
    (fs : FileSystemStorage) (d : Disk) (now_rand now_mod : Z)
    (bucket key uploadID : string) (parts : list Part) (upload : MultipartUpload)
    (n : Z) :
  inside key = true -> inside uploadID = true ->
  uploads d !! Join_in (multipartPath fs bucket key uploadID) "upload.json" = Some upload ->
  snd (CompleteMultipartUpload fs d now_rand now_mod bucket key uploadID parts)
    = Err (ErrOpenPart n) ->
  let d' := fst (CompleteMultipartUpload fs d now_rand now_mod bucket key uploadID parts) in
  (exists before after,
     map PartNumber (sort_Slice less_part parts) = before ++ n :: after /\
     Forall (fun m => is_Some (part_file fs d bucket uploadID m)) before /\
     part_file fs d bucket uploadID n = None /\
     files d' !! objectPath fs bucket key
     = Some (parts_bytes (part_file fs d bucket uploadID) before)) /\
  HeadObject fs d' bucket key = HeadObject fs d bucket key /\
  uploads d' !! Join_in (multipartPath fs bucket key uploadID) "upload.json"
    = Some upload /\
  (forall m, part_file fs d' bucket uploadID m = part_file fs d bucket uploadID m) /\
  (forall m,
     partmetas d' !! Join_in (multipartPath fs bucket key uploadID) (partName m ++ ".json")
     = partmetas d
       !! Join_in (multipartPath fs bucket key uploadID) (partName m ++ ".json")) /\
  (forall k, plain key = true -> plain k = true -> k <> key ->
     GetObject fs d' bucket k = GetObject fs d bucket k /\
     HeadObject fs d' bucket k = HeadObject fs d bucket k) /\
  (forall now_rand' now_mod',
     CompleteMultipartUpload fs d' now_rand' now_mod' bucket key uploadID parts
     = (d', Err (ErrOpenPart n))).
Proof.
  intros _ _ Hs Herr d'. unfold d'. clear d'.
  pose proof (CompleteMultipartUpload_unfold fs d now_rand now_mod bucket key uploadID
                parts upload Hs) as HU.
  cbv zeta in HU.
  set (look := part_file fs d bucket uploadID) in *.
  set (numbers := map PartNumber (sort_Slice less_part parts)) in *.
  rewrite HU in Herr |- *.
  destruct (snd (gather look numbers 0)) as [totalSize | e'] eqn:Hg;
    cbn [fst snd] in Herr |- *; [discriminate |].
  injection Herr as ->.
  set (d1 := set_files d (<[objectPath fs bucket key := (gather look numbers 0).1]> (files d))).
  assert (Hother : forall path, path <> objectPath fs bucket key ->
                     files d1 !! path = files d !! path).
  { intros path Hne. unfold d1. cbn [files set_files].
    apply lookup_insert_ne. intros H. apply Hne. symmetry. exact H. }
  assert (Hlook : forall m, part_file fs d1 bucket uploadID m = look m).
  { intros m. unfold look, part_file. apply Hother. intros H. symmetry in H.
    by apply object_is_no_part in H. }
  split; [| split; [| split; [| split; [| split; [| split]]]]].
  - destruct (gather_err_split look numbers 0 _ Hg)
      as (before & n' & after & Hn & Hall & Hnone & He & Hbytes).
    injection He as ->.
    exists before, after. split; [exact Hn |]. split; [exact Hall |].
    split; [exact Hnone |].
    unfold d1. cbn [files set_files]. rewrite lookup_insert_eq. by rewrite Hbytes.
  - reflexivity.
  - exact Hs.
  - exact Hlook.
  - reflexivity.
  - intros k _ _ Hne. split; [| reflexivity].
    apply GetObject_ext; [| reflexivity]. apply Hother.
    intros H. by apply objectPath_inj in H.
  - intros t1 t2.
    assert (Hs1 : uploads d1 !! Join_in (multipartPath fs bucket key uploadID) "upload.json"
                  = Some upload) by exact Hs.
    rewrite (CompleteMultipartUpload_unfold fs d1 t1 t2 bucket key uploadID parts upload Hs1).
    cbv zeta. fold numbers.
    rewrite (gather_ext _ look numbers 0 Hlook), Hg.
    f_equal. unfold d1, set_files. cbn [files metas uploads partmetas].
    by rewrite insert_insert_eq.
Qed.

(** The sample session completed with a part 9 that was never uploaded:
    the call fails on part 9, after the three parts went to the object
    file. *)
Lemma CompleteMultipartUpload_failure_effects_witness :
  let r := CompleteMultipartUpload Sample.fs Sample.uploaded 7 8 "b" "big.bin"
             Sample.uploadID
             [mkPart 9 "x" 1; mkPart 1 "a" 5; mkPart 2 "b" 5; mkPart 3 "c" 5] in
  snd r = Err (ErrOpenPart 9) /\
  files (fst r) !! objectPath Sample.fs "b" "big.bin"
    = Some (Sample.part1 ++ Sample.part2 ++ Sample.part3) /\
  HeadObject Sample.fs (fst r) "b" "big.bin" = Err ErrObjectNotFound /\
  part_file Sample.fs (fst r) "b" Sample.uploadID 1 = Some Sample.part1 /\
  CompleteMultipartUpload Sample.fs (fst r) 9 10 "b" "big.bin" Sample.uploadID
    [mkPart 9 "x" 1; mkPart 1 "a" 5; mkPart 2 "b" 5; mkPart 3 "c" 5]
  = (fst r, Err (ErrOpenPart 9)).
Proof.
  intros r. subst r.
  assert (Herr : snd (CompleteMultipartUpload Sample.fs Sample.uploaded 7 8 "b" "big.bin"
                        Sample.uploadID
                        [mkPart 9 "x" 1; mkPart 1 "a" 5; mkPart 2 "b" 5; mkPart 3 "c" 5])
                 = Err (ErrOpenPart 9)) by (vm_compute; reflexivity).
  destruct (CompleteMultipartUpload_failure_effects Sample.fs Sample.uploaded 7 8
              "b" "big.bin" Sample.uploadID
              [mkPart 9 "x" 1; mkPart 1 "a" 5; mkPart 2 "b" 5; mkPart 3 "c" 5]
              (json_MultipartUpload Sample.session) 9 eq_refl eq_refl)
    as (_ & Hhead & _ & Hparts & _ & _ & Hagain).
  - vm_compute. reflexivity.
  - exact Herr.
  - split; [exact Herr |]. split; [vm_compute; reflexivity |].
    split; [rewrite Hhead; vm_compute; reflexivity |].
    split; [rewrite Hparts; vm_compute; reflexivity |]. apply Hagain.
Defined.

Lemma UploadPart_uploads fs d bucket key uploadID n data :
  uploads (fst (UploadPart fs d bucket key uploadID n data)) = uploads d.
Proof.
  destruct (uploads d !! Join_in (multipartPath fs bucket key uploadID) "upload.json")
    as [upload |] eqn:Hs.
  - rewrite (UploadPart_unfold fs d bucket key uploadID n data upload Hs). cbv zeta.
    destruct (rd_fails data); reflexivity.
  - unfold UploadPart. by rewrite Hs.
Qed.

Lemma UploadPart_part_file fs d bucket key uploadID n data upload m :
  uploads d !! Join_in (multipartPath fs bucket key uploadID) "upload.json" = Some upload ->
  min_int64 <= n <= max_int64 -> min_int64 <= m <= max_int64 ->
  part_file fs (fst (UploadPart fs d bucket key uploadID n data)) bucket uploadID m
  = if decide (m = n) then Some (rd_bytes data) else part_file fs d bucket uploadID m.
Proof.
  intros Hs Hn Hm.
  rewrite (UploadPart_unfold fs d bucket key uploadID n data upload Hs). cbv zeta.
  unfold part_file. rewrite (multipartPath_key_irrelevant fs bucket EmptyString key).
  assert (Hfiles : forall d1 : Disk * result Part,
    d1 = (if rd_fails data
          then (set_files d (<[Join_in (multipartPath fs bucket key uploadID) (partName n)
                                 := rd_bytes data]> (files d)), Err ErrWritePartData)
          else (set_partmetas
                  (set_files d (<[Join_in (multipartPath fs bucket key uploadID) (partName n)
                                    := rd_bytes data]> (files d)))
                  (<[Join_in (multipartPath fs bucket key uploadID) (partName n ++ ".json")
                       := {| PartNumber := n;
                             partETag := hex_EncodeToString (MD5.sum (rd_bytes data));
                             partSize := Z.of_nat (length (rd_bytes data)) |}]> (partmetas d)),
                Ok {| PartNumber := n;
                      partETag := hex_EncodeToString (MD5.sum (rd_bytes data));
                      partSize := Z.of_nat (length (rd_bytes data)) |})) ->
    files (fst d1) = <[Join_in (multipartPath fs bucket key uploadID) (partName n)
                         := rd_bytes data]> (files d)).
  { intros d1 ->. destruct (rd_fails data); reflexivity. }
  rewrite (Hfiles _ eq_refl).
  destruct (decide (m = n)) as [-> | Hne].
  - apply lookup_insert_eq.
  - apply lookup_insert_ne. intros H. apply part_path_inj in H; [congruence | assumption ..].
Qed.

Lemma upload_all_cons fs d bucket key uploadID up ups :
  upload_all fs d bucket key uploadID (up :: ups)
  = upload_all fs
      (fst (UploadPart fs d bucket key uploadID (fst up) (bytes_Reader (snd up))))
      bucket key uploadID ups.
Proof. reflexivity. Qed.

(** After the uploads each listed number has its bytes in its part file,
    the numbers being distinct. *)
Lemma upload_all_spec fs bucket key uploadID upload ups :
  Forall (fun up => min_int64 <= fst up <= max_int64) ups ->
  NoDup (map fst ups) ->
  forall d,
    uploads d !! Join_in (multipartPath fs bucket key uploadID) "upload.json" = Some upload ->
    uploads (upload_all fs d bucket key uploadID ups) = uploads d /\
    (forall up, up ∈ ups ->
       part_file fs (upload_all fs d bucket key uploadID ups) bucket uploadID (fst up)
       = Some (snd up)) /\
    (forall m, min_int64 <= m <= max_int64 -> m ∉ map fst ups ->
       part_file fs (upload_all fs d bucket key uploadID ups) bucket uploadID m
       = part_file fs d bucket uploadID m).
Proof.
  induction ups as [| up rest IH]; intros Hrange Hnodup d Hs.
  - split; [reflexivity |]. split; [| reflexivity]. intros up Hin. by apply elem_of_nil in Hin.
  - apply Forall_cons in Hrange as [Hup Hrange].
    cbn [map] in Hnodup. apply NoDup_cons in Hnodup as [Hfresh Hnodup].
    rewrite upload_all_cons.
    set (d1 := fst (UploadPart fs d bucket key uploadID (fst up) (bytes_Reader (snd up)))).
    assert (Hu1 : uploads d1 = uploads d) by apply UploadPart_uploads.
    assert (Hs1 : uploads d1 !! Join_in (multipartPath fs bucket key uploadID) "upload.json"
                  = Some upload) by (by rewrite Hu1).
    destruct (IH Hrange Hnodup d1 Hs1) as (IHu & IHin & IHout).
    split; [by rewrite IHu |]. split.
    + intros up' Hin. apply elem_of_cons in Hin as [-> | Hin]; [| by apply IHin].
      rewrite (IHout (fst up) Hup Hfresh). unfold d1.
      rewrite (UploadPart_part_file fs d bucket key uploadID (fst up) _ upload (fst up) Hs Hup Hup).
      by rewrite decide_True.
    + intros m Hm Hout. cbn [map] in Hout. apply not_elem_of_cons in Hout as [Hne Hout].
      rewrite (IHout m Hm Hout). unfold d1.
      rewrite (UploadPart_part_file fs d bucket key uploadID (fst up) _ upload m Hs Hup Hm).
      by rewrite decide_False.
Qed.

Lemma length_concat_Permutation {A} (l l' : list (list A)) :
  l ≡ₚ l' -> length (concat l) = length (concat l').
Proof. induction 1; cbn [concat]; rewrite ?length_app; lia. Qed.

(** What a completion publishes when every listed part has its file. *)
Lemma CompleteMultipartUpload_publishes fs d now_rand now_mod bucket key uploadID parts
    upload :
  uploads d !! Join_in (multipartPath fs bucket key uploadID) "upload.json" = Some upload ->
  Forall (fun n => is_Some (part_file fs d bucket uploadID n))
         (map PartNumber (sort_Slice less_part parts)) ->
  let bytes := parts_bytes (part_file fs d bucket uploadID)
                 (map PartNumber (sort_Slice less_part parts)) in
  Z.of_nat (length bytes) <= max_int64 ->
  let meta := {| Key := key; Size := Z.of_nat (length bytes); LastModified := now_mod;
                 ETag := (dquote ++ generateRandomID now_rand ++ "-"
                                 ++ fmt_d (Z.of_nat (length parts)) ++ dquote)%string;
                 ContentType := upContentType upload; Metadata := upMetadata upload |} in
  snd (CompleteMultipartUpload fs d now_rand now_mod bucket key uploadID parts) = Ok meta /\
  GetObject fs (fst (CompleteMultipartUpload fs d now_rand now_mod bucket key uploadID parts))
    bucket key = Ok (bytes, json_ObjectMetadata meta).
Proof.
  intros Hs Hall bytes Hmax meta.
  pose proof (gather_size (part_file fs d bucket uploadID) _ 0 Hall ltac:(lia)) as Hg.
  fold bytes in Hg. specialize (Hg ltac:(lia)).
  pose proof (CompleteMultipartUpload_unfold fs d now_rand now_mod bucket key uploadID
                parts upload Hs) as HU.
  cbv zeta in HU. rewrite Hg in HU. cbn [fst snd] in HU. rewrite Z.add_0_l in HU.
  fold meta in HU. rewrite HU. split; [reflexivity |]. cbn [fst].
  unfold GetObject, os_RemoveAll. cbn [files metas set_files set_metas].
  rewrite !remove_under_lookup_out
    by (apply object_not_under_multipart || apply metadata_not_under_multipart).
  rewrite !lookup_insert_eq. reflexivity.
Qed.

(** X23.  A multipart upload from beginning to end.  A session is created
    for a key that holds no double-dot element, parts with distinct
    numbers of the machine integer range are uploaded in any order, and
    the session is completed with a list naming exactly those numbers, in
    any order and with any tags.  When the creation and the completion
    succeed, the record the completion returns carries the key, as size
    the total number of bytes, and the content type and the custom
    metadata given at creation as encoding/json wrote them to the session
    document; and GetObject at the key returns the parts' bytes in
    ascending order of their numbers, with that record as encoding/json
    writes it. *)
Theorem multipart_round_trip
    (fs : FileSystemStorage) (d0 : Disk) (t1 t2 t3 now_rand now_mod : Z)
    (bucket key C : string) (M : gmap string string)
    (ups : list (Z * list byte)) (parts : list Part) :
  inside key = true ->
  Forall (fun up => min_int64 <= fst up <= max_int64) ups ->
  NoDup (map fst ups) ->
  map PartNumber parts ≡ₚ map fst ups ->
  Z.of_nat (length (concat (map snd ups))) <= max_int64 ->
  forall u meta,
    snd (CreateMultipartUpload fs d0 t1 t2 t3 bucket key C M) = Ok u ->
    let d1 := fst (CreateMultipartUpload fs d0 t1 t2 t3 bucket key C M) in
    let d2 := upload_all fs d1 bucket key (UploadID u) ups in
    let r := CompleteMultipartUpload fs d2 now_rand now_mod bucket key (UploadID u) parts in
    snd r = Ok meta ->
    Key meta = key /\ ContentType meta = json_text C /\ Metadata meta = json_map M /\
    Size meta = Z.of_nat (length (concat (map snd ups))) /\
    (forall sorted, sorted ≡ₚ ups -> StronglySorted Z.le (map fst sorted) ->
       GetObject fs (fst r) bucket key
       = Ok (concat (map snd sorted), json_ObjectMetadata meta)).
Proof.
  intros _ Hrange Hnodup Hparts Hmax u meta Hcreate.
  destruct (CreateMultipartUpload_session fs d0 t1 t2 t3 bucket key C M)
    as (u' & Hu & _ & _ & HC & HM & Hsess).
  rewrite Hcreate in Hu. injection Hu as <-.
  set (d1 := fst (CreateMultipartUpload fs d0 t1 t2 t3 bucket key C M)) in *.
  destruct (upload_all_spec fs bucket key (UploadID u) (json_MultipartUpload u) ups
              Hrange Hnodup d1 Hsess)
    as (Hup2 & Hfile & _).
  set (d2 := upload_all fs d1 bucket key (UploadID u) ups) in *.
  set (look := part_file fs d2 bucket (UploadID u)) in *.
  assert (Hsess2 : uploads d2 !! Join_in (multipartPath fs bucket key (UploadID u))
                     "upload.json" = Some (json_MultipartUpload u)) by (by rewrite Hup2).
  set (numbers := map PartNumber (sort_Slice less_part parts)).
  assert (Hnum : numbers ≡ₚ map fst ups).
  { unfold numbers. rewrite (Permutation_map PartNumber (sort_Slice_Permutation _ parts)).
    exact Hparts. }
  assert (Hbytes_of : forall l : list (Z * list byte), l ⊆ ups ->
            parts_bytes look (map fst l) = concat (map snd l)).
  { intros l Hl. unfold parts_bytes. f_equal. rewrite map_map.
    apply map_ext_in. intros up Hin. apply list_elem_of_In in Hin.
    by rewrite (Hfile up (Hl up Hin)). }
  assert (Hall : Forall (fun n => is_Some (look n)) numbers).
  { rewrite Hnum. apply Forall_forall. intros n Hn.
    apply list_elem_of_In, in_map_iff in Hn as (up & <- & Hin).
    apply list_elem_of_In in Hin. rewrite (Hfile up Hin). by eexists. }
  assert (Hlen : length (parts_bytes look numbers) = length (concat (map snd ups))).
  { rewrite <- (Hbytes_of ups) by reflexivity. unfold parts_bytes.
    apply length_concat_Permutation, Permutation_map, Hnum. }
  destruct (CompleteMultipartUpload_publishes fs d2 now_rand now_mod bucket key (UploadID u)
              parts (json_MultipartUpload u) Hsess2 Hall
              ltac:(fold look; fold numbers; rewrite Hlen; exact Hmax))
    as (Hok & Hget).
  fold look in Hok, Hget. fold numbers in Hok, Hget.
  cbv zeta. fold d1. fold d2.
  intros Hmeta. rewrite Hok in Hmeta. injection Hmeta as <-.
  split; [reflexivity |].
  split; [cbn [ContentType json_MultipartUpload upContentType]; by rewrite HC |].
  split; [cbn [Metadata json_MultipartUpload upMetadata]; by rewrite HM |].
  split; [cbn [Size]; by rewrite Hlen |].
  intros sorted Hperm Hsorted. rewrite Hget. do 2 f_equal.
  assert (Heq : numbers = map fst sorted).
  { apply (StronglySorted_unique Z.le); [apply sort_parts_sorted | exact Hsorted |].
    rewrite Hnum. apply Permutation_map. by symmetry. }
  rewrite Heq. apply Hbytes_of. intros up Hin. by rewrite <- Hperm.
Qed.

(** The three parts of the sample, uploaded as 3, 1, 2 and completed as
    2, 3, 1. *)
Lemma multipart_round_trip_witness :
  exists u,
    snd (CreateMultipartUpload Sample.fs empty_disk 1 2 3 "b" "big.bin" "application/x-test" ∅)
    = Ok u /\
    let r := CompleteMultipartUpload Sample.fs
               (upload_all Sample.fs
                  (fst (CreateMultipartUpload Sample.fs empty_disk 1 2 3 "b" "big.bin"
                          "application/x-test" ∅))
                  "b" "big.bin" (UploadID u)
                  [(3, Sample.part3); (1, Sample.part1); (2, Sample.part2)])
               7 8 "b" "big.bin" (UploadID u)
               [mkPart 2 "b" 5; mkPart 3 "c" 5; mkPart 1 "a" 5] in
    snd r = Ok {| Key := "big.bin"; Size := 15; LastModified := 8;
                  ETag := (dquote ++ "7-3" ++ dquote)%string;
                  ContentType := "application/x-test"; Metadata := ∅ |} /\
    GetObject Sample.fs (fst r) "b" "big.bin"
    = Ok (Sample.part1 ++ Sample.part2 ++ Sample.part3,
          {| Key := "big.bin"; Size := 15; LastModified := 8;
             ETag := (dquote ++ "7-3" ++ dquote)%string;
             ContentType := "application/x-test"; Metadata := ∅ |}).
Proof.
  set (u := {| UploadID := (fmt_d 1 ++ "-" ++ generateRandomID 2)%string;
               upBucket := "b"; upKey := "big.bin"; Created := 3;
               upContentType := "application/x-test"; upMetadata := ∅ |}).
  set (meta := {| Key := "big.bin"; Size := 15; LastModified := 8;
                  ETag := (dquote ++ "7-3" ++ dquote)%string;
                  ContentType := "application/x-test"; Metadata := ∅ |}).
  assert (Hu : snd (CreateMultipartUpload Sample.fs empty_disk 1 2 3 "b" "big.bin"
                      "application/x-test" ∅) = Ok u) by reflexivity.
  assert (Hok : snd (CompleteMultipartUpload Sample.fs
               (upload_all Sample.fs
                  (fst (CreateMultipartUpload Sample.fs empty_disk 1 2 3 "b" "big.bin"
                          "application/x-test" ∅))
                  "b" "big.bin" (UploadID u)
                  [(3, Sample.part3); (1, Sample.part1); (2, Sample.part2)])
               7 8 "b" "big.bin" (UploadID u)
               [mkPart 2 "b" 5; mkPart 3 "c" 5; mkPart 1 "a" 5]) = Ok meta)
    by (vm_compute; reflexivity).
  exists u. split; [exact Hu |]. cbv zeta. split; [exact Hok |].
  destruct (multipart_round_trip Sample.fs empty_disk 1 2 3 7 8 "b" "big.bin"
              "application/x-test" ∅
              [(3, Sample.part3); (1, Sample.part1); (2, Sample.part2)]
              [mkPart 2 "b" 5; mkPart 3 "c" 5; mkPart 1 "a" 5] eq_refl)
    with (u := u) (meta := meta) as (_ & _ & _ & _ & Hget).
  - repeat (constructor; [vm_compute; split; discriminate |]). constructor.
  - apply (bool_decide_unpack _). vm_compute. exact I.
  - cbn [map PartNumber fst].
    etransitivity; [apply perm_swap |]. apply perm_skip, perm_swap.
  - vm_compute. discriminate.
  - exact Hu.
  - exact Hok.
  - rewrite (Hget [(1, Sample.part1); (2, Sample.part2); (3, Sample.part3)]).
    + vm_compute. reflexivity.
    + etransitivity; [| apply perm_swap]. apply perm_skip, perm_swap.
    + repeat constructor; cbn; lia.
Defined.

(* ------------------------------------------------------------------ *)
(** ** Range headers that are refused *)

Lemma length_Split (s : string) (sep : ascii) :
  length (Server.Split s sep) = S (Server.count_byte sep s).
Proof.
  induction s as [| c s IH]; [reflexivity |].
  cbn [Server.Split Server.count_byte]. destruct (Ascii.eqb c sep).
  - cbn [length]. by rewrite IH.
  - destruct (Server.Split s sep) as [| first others]; [discriminate |]. exact IH.
Qed.

(** X24.  The refusals of parseRangeHeader.  The header-format error is
    returned exactly for the headers that do not begin with "bytes=".  The
    range-format error is returned exactly for the headers that begin with
    it and hold, after it, a number of dashes other than one.  Every other
    failure is the error of strconv.ParseInt on one of the two numbers. *)
Theorem parseRangeHeader_refusals (rangeHeader : string) :
  (Server.parseRangeHeader rangeHeader = Server.Failed Server.ErrRangeHeaderFormat <->
   HasPrefix rangeHeader "bytes=" = false) /\
  (Server.parseRangeHeader rangeHeader = Server.Failed Server.ErrRangeFormat <->
   HasPrefix rangeHeader "bytes=" = true /\
   Server.count_byte "-"%char (Server.TrimPrefix rangeHeader "bytes=") <> 1%nat) /\
  (forall e, Server.parseRangeHeader rangeHeader = Server.Failed (Server.ErrNum e) ->
     exists part0 part1,
       Server.Split (Server.TrimPrefix rangeHeader "bytes=") "-"%char = [part0; part1] /\
       (Server.ParseInt part0 = Server.Failed e \/ Server.ParseInt part1 = Server.Failed e)).
Proof.
  unfold Server.parseRangeHeader.
  pose proof (length_Split (Server.TrimPrefix rangeHeader "bytes=") "-"%char) as Hlen.
  destruct (HasPrefix rangeHeader "bytes="); cbn [negb].
  2: { split; [split; [reflexivity | reflexivity] |].
       split; [split; [discriminate | intros [? _]; discriminate] | discriminate]. }
  destruct (Server.Split _ _) as [| part0 [| part1 [| part2 rest]]] eqn:HS;
    cbn [length] in Hlen.
  - discriminate.
  - split; [split; discriminate |]. split; [| discriminate].
    split; [intros _; split; [reflexivity | lia] | reflexivity].
  - assert (Hone : Server.count_byte "-"%char (Server.TrimPrefix rangeHeader "bytes=") = 1%nat)
      by lia.
    destruct (negb (String.eqb part0 EmptyString));
      [destruct (Server.ParseInt part0) as [start | e0] eqn:P0 |];
      (destruct (negb (String.eqb part1 EmptyString));
       [destruct (Server.ParseInt part1) as [end_ | e1] eqn:P1 |]).
    all: split; [split; discriminate |].
    all: split; [split; [discriminate | intros [_ H]; congruence] |].
    all: intros e He; try discriminate.
    all: injection He as <-; exists part0, part1; split; [reflexivity |]; auto.
  - split; [split; discriminate |]. split; [| discriminate].
    split; [intros _; split; [reflexivity | lia] | reflexivity].
Qed.
